(** * The Thing model of the gateway (src/models/thing.js)

    A shallow embedding of the [Thing] constructor and its prototype
    methods, with the JavaScript objects the Thing hands out kept in an
    explicit store, the file system, the console, the database collaborator,
    the websocket sessions and the event listeners kept in an explicit
    world. *)

From Stdlib Require Import Ascii String.
From stdpp Require Import gmap strings list fin_maps functions.

Open Scope string_scope.
Open Scope list_scope.

(** ** JavaScript values as the model needs them *)

(** A string-valued member that may be missing ([undefined]).  It is falsy
    when missing or empty. *)
Definition truthy (v : option string) : bool :=
  match v with
  | Some s => negb (String.eqb s "")
  | None => false
  end.

(** [v || d] for a string-valued member. *)
Definition or_default (v : option string) (d : string) : string :=
  match v with
  | Some s => if String.eqb s "" then d else s
  | None => d
  end.

(** [v || d] for an object-valued member: every object is truthy. *)
Definition or_object {A : Type} (v : option A) (d : A) : A :=
  match v with
  | Some a => a
  | None => d
  end.

(** ** Paths (Node's [path] module, POSIX flavour) *)

Definition is_sep (c : ascii) : bool := Ascii.eqb c "/"%char.

Fixpoint contains_sep (s : string) : bool :=
  match s with
  | EmptyString => false
  | String c r => is_sep c || contains_sep r
  end.

(** The pieces of a path between its separators: [a//b/] has the pieces
    [a], the empty piece, [b] and the empty piece. *)
Fixpoint segments (p : string) : list string :=
  match p with
  | EmptyString => [EmptyString]
  | String c r =>
      if is_sep c then EmptyString :: segments r
      else match segments r with
           | s :: rest => String c s :: rest
           | [] => [String c EmptyString]
           end
  end.

Definition is_absolute (p : string) : bool :=
  match p with
  | String c _ => is_sep c
  | EmptyString => false
  end.

Fixpoint ends_with_sep (p : string) : bool :=
  match p with
  | EmptyString => false
  | String c r =>
      match r with
      | EmptyString => is_sep c
      | String _ _ => ends_with_sep r
      end
  end.

(** One piece more, [kept] being the pieces kept so far, the last one
    first: an empty piece and [.] are dropped, [..] takes the last piece
    away unless there is none or it is [..] itself, in which case it is
    kept in a relative path and dropped in an absolute one. *)
Definition normalize_step (allowAboveRoot : bool) (kept : list string)
    (s : string) : list string :=
  if String.eqb s "" || String.eqb s "." then kept
  else if String.eqb s ".." then
    match kept with
    | last :: rest =>
        if String.eqb last ".." then
          if allowAboveRoot then s :: kept else kept
        else rest
    | [] => if allowAboveRoot then [s] else []
    end
  else s :: kept.

Fixpoint join_segments (l : list string) : string :=
  match l with
  | [] => EmptyString
  | s :: r =>
      match r with
      | [] => s
      | _ :: _ => s +:+ "/" +:+ join_segments r
      end
  end.

(** [path.normalize(p)]. *)
Definition path_normalize (p : string) : string :=
  if String.eqb p "" then "."
  else
    let absolute := is_absolute p in
    let kept :=
      join_segments
        (reverse (foldl (normalize_step (negb absolute)) [] (segments p))) in
    let kept := if String.eqb kept "" && negb absolute then "." else kept in
    let kept :=
      if negb (String.eqb kept "") && ends_with_sep p then kept +:+ "/"
      else kept in
    if absolute then "/" +:+ kept else kept.

(** [path.join(a, b)]: the operands that are not empty, joined by a
    separator and normalised. *)
Definition path_join (a b : string) : string :=
  match a, b with
  | EmptyString, EmptyString => "."
  | EmptyString, _ => path_normalize b
  | _, EmptyString => path_normalize a
  | _, _ => path_normalize (a +:+ "/" +:+ b)
  end.

(** [path.basename(p)]: the last piece of [p] that is not empty. *)
Definition path_basename (p : string) : string :=
  List.last (List.filter (λ s, negb (String.eqb s "")) (segments p)) "".

Arguments path_normalize : simpl never.
Arguments path_join : simpl never.
Arguments path_basename : simpl never.

(** A file name: no separator in it, and not one of the pieces that
    normalisation drops or resolves. *)
Definition proper (s : string) : Prop :=
  contains_sep s = false ∧ s ≠ "" ∧ s ≠ "." ∧ s ≠ "..".

(** The pieces kept so far (the last one first) are names on top of as
    many [..] as the path has climbed, none in an absolute path. *)
Definition normal (allowAboveRoot : bool) (kept : list string) : Prop :=
  ∃ n names,
    kept = names ++ replicate n ".."
    ∧ (allowAboveRoot = false → n = 0)
    ∧ Forall proper names.

(** The root mark of an absolute path. *)
Definition root_mark (absolute : bool) : string :=
  if absolute then "/" else "".

(** ** Data *)

Abbreviation loc := positive (only parsing).
Abbreviation number := Z (only parsing).

(** A property, action or event descriptor: a payload the model never
    looks into, and the [href] member the constructor writes. *)
Record Descriptor := {
  payload : string;
  desc_href : option string;
}.

Definition set_href (h : string) (d : Descriptor) : Descriptor :=
  {| payload := payload d; desc_href := Some h |}.

Record Link := {
  rel : string;
  mediaType : option string;
  link_href : string;
}.

Record IconData := {
  data : option string;
  mime : option string;
}.

(** The [description] argument of the constructor: a parsed Thing
    Description document, hence a tree, given by value.  The constructor
    keeps the [actions] and [events] objects of the document as the Thing's
    own; that is where they enter the store. *)
Record Description := {
  in_name : option string;
  in_type : option string;
  in_context : option string;
  in_atType : option (list string);
  in_description : option string;
  in_properties : option (gmap string Descriptor);
  in_actions : option (gmap string Descriptor);
  in_events : option (gmap string Descriptor);
  in_floorplanX : option number;
  in_floorplanY : option number;
  in_selectedCapability : option string;
  in_uiHref : option string;
  in_links : option (list Link);
  in_iconHref : option string;
  in_iconData : option IconData;
}.

Record EventRecord := {
  ev_name : string;
  ev_data : string;
  thingId : option string;
  timestamp : string;
}.

(** A listener is a function object, compared by identity. *)
Abbreviation callback := nat (only parsing).

(** A websocket handle and the states of [ws.readyState]. *)
Abbreviation socket := nat (only parsing).
Inductive ReadyState := CONNECTING | OPEN | CLOSING | CLOSED.

Record Thing := {
  id : string;
  name : string;
  type : string;
  context : string;
  atType : list string;
  description : string;
  href : string;
  properties : loc;
  actions : loc;
  events : loc;
  eventsDispatched : list EventRecord;
  emitter : list callback;
  floorplanX : option number;
  floorplanY : option number;
  selectedCapability : option string;
  websockets : list socket;
  links : loc;
  iconHref : option string;
}.

(** The object [getDescription] returns. *)
Record DescriptionObject := {
  out_name : string;
  out_type : string;
  out_context : string;
  out_atType : list string;
  out_description : string;
  out_href : string;
  out_properties : loc;
  out_actions : loc;
  out_events : loc;
  out_links : loc;
  out_floorplanX : option number;
  out_floorplanY : option number;
  out_selectedCapability : option string;
  out_iconHref : option string;
}.

(** The content of a file: empty as [tmp.fileSync] leaves it, or the bytes
    that a base64 text decodes to ([Buffer.from(text, 'base64')]). *)
Inductive FileContent :=
  | EmptyFile
  | Decoded (base64 : string).

(** Everything outside the Thing object itself. *)
Record World := {
  maps : gmap loc (gmap string Descriptor);
  linkObjects : gmap loc Link;
  arrays : gmap loc (list loc);
  files : gmap string FileContent;
  readyState : socket → ReadyState;
  closeRequests : list socket;
  console : list string;
  database : list (string * DescriptionObject);
  delivered : list (callback * EventRecord);
}.

(** *** Field updates *)

Definition set_maps (v : gmap loc (gmap string Descriptor)) (w : World) : World :=
  {| maps := v; linkObjects := linkObjects w; arrays := arrays w;
     files := files w; readyState := readyState w;
     closeRequests := closeRequests w; console := console w;
     database := database w; delivered := delivered w |}.

Definition set_linkObjects (v : gmap loc Link) (w : World) : World :=
  {| maps := maps w; linkObjects := v; arrays := arrays w;
     files := files w; readyState := readyState w;
     closeRequests := closeRequests w; console := console w;
     database := database w; delivered := delivered w |}.

Definition set_arrays (v : gmap loc (list loc)) (w : World) : World :=
  {| maps := maps w; linkObjects := linkObjects w; arrays := v;
     files := files w; readyState := readyState w;
     closeRequests := closeRequests w; console := console w;
     database := database w; delivered := delivered w |}.

Definition set_files (v : gmap string FileContent) (w : World) : World :=
  {| maps := maps w; linkObjects := linkObjects w; arrays := arrays w;
     files := v; readyState := readyState w;
     closeRequests := closeRequests w; console := console w;
     database := database w; delivered := delivered w |}.

Definition set_readyState (v : socket → ReadyState) (w : World) : World :=
  {| maps := maps w; linkObjects := linkObjects w; arrays := arrays w;
     files := files w; readyState := v;
     closeRequests := closeRequests w; console := console w;
     database := database w; delivered := delivered w |}.

Definition set_closeRequests (v : list socket) (w : World) : World :=
  {| maps := maps w; linkObjects := linkObjects w; arrays := arrays w;
     files := files w; readyState := readyState w;
     closeRequests := v; console := console w;
     database := database w; delivered := delivered w |}.

Definition set_console (v : list string) (w : World) : World :=
  {| maps := maps w; linkObjects := linkObjects w; arrays := arrays w;
     files := files w; readyState := readyState w;
     closeRequests := closeRequests w; console := v;
     database := database w; delivered := delivered w |}.

Definition set_database (v : list (string * DescriptionObject)) (w : World) : World :=
  {| maps := maps w; linkObjects := linkObjects w; arrays := arrays w;
     files := files w; readyState := readyState w;
     closeRequests := closeRequests w; console := console w;
     database := v; delivered := delivered w |}.

Definition set_delivered (v : list (callback * EventRecord)) (w : World) : World :=
  {| maps := maps w; linkObjects := linkObjects w; arrays := arrays w;
     files := files w; readyState := readyState w;
     closeRequests := closeRequests w; console := console w;
     database := database w; delivered := v |}.

Definition set_name (v : string) (t : Thing) : Thing :=
  {| id := id t; name := v; type := type t; context := context t;
     atType := atType t; description := description t; href := href t;
     properties := properties t; actions := actions t; events := events t;
     eventsDispatched := eventsDispatched t; emitter := emitter t;
     floorplanX := floorplanX t; floorplanY := floorplanY t;
     selectedCapability := selectedCapability t;
     websockets := websockets t; links := links t; iconHref := iconHref t |}.

Definition set_floorplan (x y : option number) (t : Thing) : Thing :=
  {| id := id t; name := name t; type := type t; context := context t;
     atType := atType t; description := description t; href := href t;
     properties := properties t; actions := actions t; events := events t;
     eventsDispatched := eventsDispatched t; emitter := emitter t;
     floorplanX := x; floorplanY := y;
     selectedCapability := selectedCapability t;
     websockets := websockets t; links := links t; iconHref := iconHref t |}.

Definition set_selectedCapability (v : option string) (t : Thing) : Thing :=
  {| id := id t; name := name t; type := type t; context := context t;
     atType := atType t; description := description t; href := href t;
     properties := properties t; actions := actions t; events := events t;
     eventsDispatched := eventsDispatched t; emitter := emitter t;
     floorplanX := floorplanX t; floorplanY := floorplanY t;
     selectedCapability := v;
     websockets := websockets t; links := links t; iconHref := iconHref t |}.

Definition set_eventsDispatched (v : list EventRecord) (t : Thing) : Thing :=
  {| id := id t; name := name t; type := type t; context := context t;
     atType := atType t; description := description t; href := href t;
     properties := properties t; actions := actions t; events := events t;
     eventsDispatched := v; emitter := emitter t;
     floorplanX := floorplanX t; floorplanY := floorplanY t;
     selectedCapability := selectedCapability t;
     websockets := websockets t; links := links t; iconHref := iconHref t |}.

Definition set_emitter (v : list callback) (t : Thing) : Thing :=
  {| id := id t; name := name t; type := type t; context := context t;
     atType := atType t; description := description t; href := href t;
     properties := properties t; actions := actions t; events := events t;
     eventsDispatched := eventsDispatched t; emitter := v;
     floorplanX := floorplanX t; floorplanY := floorplanY t;
     selectedCapability := selectedCapability t;
     websockets := websockets t; links := links t; iconHref := iconHref t |}.

Definition set_websockets (v : list socket) (t : Thing) : Thing :=
  {| id := id t; name := name t; type := type t; context := context t;
     atType := atType t; description := description t; href := href t;
     properties := properties t; actions := actions t; events := events t;
     eventsDispatched := eventsDispatched t; emitter := emitter t;
     floorplanX := floorplanX t; floorplanY := floorplanY t;
     selectedCapability := selectedCapability t;
     websockets := v; links := links t; iconHref := iconHref t |}.

Definition set_iconHref (v : option string) (t : Thing) : Thing :=
  {| id := id t; name := name t; type := type t; context := context t;
     atType := atType t; description := description t; href := href t;
     properties := properties t; actions := actions t; events := events t;
     eventsDispatched := eventsDispatched t; emitter := emitter t;
     floorplanX := floorplanX t; floorplanY := floorplanY t;
     selectedCapability := selectedCapability t;
     websockets := websockets t; links := links t; iconHref := v |}.

Definition set_thingId (v : option string) (e : EventRecord) : EventRecord :=
  {| ev_name := ev_name e; ev_data := ev_data e; thingId := v;
     timestamp := timestamp e |}.

(** [console.error(msg, ...)]: the message is kept, the printed object is
    not. *)
Definition console_error (msg : string) (w : World) : World :=
  set_console (console w ++ [msg]) w.

(** ** The store: objects the Thing refers to *)

Definition alloc_map (m : gmap string Descriptor) (w : World) : loc * World :=
  let l := fresh (dom (maps w)) in (l, set_maps (<[l := m]> (maps w)) w).

Definition alloc_link (k : Link) (w : World) : loc * World :=
  let l := fresh (dom (linkObjects w)) in
  (l, set_linkObjects (<[l := k]> (linkObjects w)) w).

Definition alloc_array (a : list loc) (w : World) : loc * World :=
  let l := fresh (dom (arrays w)) in (l, set_arrays (<[l := a]> (arrays w)) w).

Fixpoint alloc_links (ks : list Link) (w : World) : list loc * World :=
  match ks with
  | [] => ([], w)
  | k :: rest =>
      let '(l, w1) := alloc_link k w in
      let '(ls, w2) := alloc_links rest w1 in
      (l :: ls, w2)
  end.

Definition read_map (w : World) (l : loc) : gmap string Descriptor :=
  default ∅ (maps w !! l).

Definition read_array (w : World) (l : loc) : list loc :=
  default [] (arrays w !! l).

(** The link objects an array holds, in order. *)
Definition read_links (w : World) (l : loc) : list Link :=
  omap (λ o, linkObjects w !! o) (read_array w l).

(** [array.push(x)] on the array object at [l]. *)
Definition array_push (l : loc) (x : loc) (w : World) : World :=
  set_arrays (<[l := read_array w l ++ [x]]> (arrays w)) w.



(** ** Constants (the module [../constants], which is not among the sources) *)

Module Constants.

(** Modelled from the spec: the things root, [Constants.THINGS_PATH].  The
    href of a Thing is [<things-root>/<id>] and the websocket link of the
    spec's example is [wss://example.org/things/<id>]. *)
Definition THINGS_PATH : string := "/things".

(** Modelled from the spec: [Constants.PROPERTIES_PATH].  The href of a
    property is [<thing href>/properties/<name>]. *)
Definition PROPERTIES_PATH : string := "/properties".

End Constants.

(** ** The file system and [tmp] *)

(** What the operating system answers during one call that touches the
    icon: whether the unlink of the old icon is refused, the random part of
    the name and the descriptor [tmp.fileSync] comes up with (or that it
    throws), and whether the write is refused. *)
Record IconEnv := {
  unlinkRefused : bool;
  tmpAnswer : option (string * nat);
  writeRefused : bool;
}.

Record TmpFile := {
  tmp_name : string;
  tmp_fd : nat;
}.

(** [fs.unlinkSync(target)]; [None] is a throw.  A numeric argument (a file
    descriptor) is not a path and is rejected before anything is touched. *)
Definition fs_unlinkSync (refused : bool) (target : string + nat)
    (fs : gmap string FileContent) : option (gmap string FileContent) :=
  match target with
  | inl p =>
      if refused then None
      else match fs !! p with
           | Some _ => Some (delete p fs)
           | None => None
           end
  | inr _ => None
  end.

(** [tmp.fileSync({template, keep: true, ...})]: the six X of the template
    are replaced by the random part and the file is created exclusively. *)
Definition tmp_fileSync (answer : option (string * nat)) (dir ext : string)
    (fs : gmap string FileContent) : option (TmpFile * gmap string FileContent) :=
  match answer with
  | Some (rnd, fd) =>
      let p := path_join dir (rnd +:+ ext) in
      match fs !! p with
      | Some _ => None
      | None => Some ({| tmp_name := p; tmp_fd := fd |}, <[p := EmptyFile]> fs)
      end
  | None => None
  end.

(** [fs.writeFileSync(fd, Buffer.from(text, 'base64'))] on the descriptor of
    [f]. *)
Definition fs_writeFileSync (refused : bool) (f : TmpFile) (text : string)
    (fs : gmap string FileContent) : option (gmap string FileContent) :=
  if refused then None else Some (<[tmp_name f := Decoded text]> fs).

Inductive IconOutcome := IconInvalid | IconWriteFailed | IconInstalled.

Inductive Completion := Returned | Thrown.

Record Action := { action_name : string }.

Definition allowed_mimes : list string :=
  ["image/jpeg"; "image/png"; "image/svg+xml"].

(** [allowed_mimes.includes(m)]. *)
Definition mime_allowed (m : option string) : bool :=
  match m with
  | Some s => bool_decide (s ∈ allowed_mimes)
  | None => false
  end.

(** The [switch] of [setIcon]; [extension] stays [undefined] when no case
    matches, which a template literal prints as such. *)
Definition extension_of (m : option string) : string :=
  match m with
  | Some s =>
      if String.eqb s "image/jpeg" then ".jpg"
      else if String.eqb s "image/png" then ".png"
      else if String.eqb s "image/svg+xml" then ".svg"
      else "undefined"
  | None => "undefined"
  end.

(** ** EventEmitter (Node's [events])

    The Thing uses its emitter with one event name, [Constants.EVENT]; the
    emitter is the array of the listeners of that name. *)

(** [emitter.on(Constants.EVENT, cb)]: no check for duplicates. *)
Definition emitter_on (cb : callback) (ls : list callback) : list callback :=
  ls ++ [cb].

(** [emitter.removeListener(Constants.EVENT, cb)]: the most recently added
    instance of [cb] is removed, if there is one. *)
Fixpoint emitter_removeListener (cb : callback) (ls : list callback)
    : list callback :=
  match ls with
  | [] => []
  | x :: r =>
      if bool_decide (cb ∈ r) then x :: emitter_removeListener cb r
      else if bool_decide (x = cb) then r
      else x :: r
  end.

(** ** The surroundings of the model *)

(** [UserProfile.baseDir] and [UserProfile.uploadsDir]; the module
    [../user-profile] is not among the sources, so the two directories are
    parameters.  The base directory is the path of a directory: it is not
    the empty string, which [path.join] would leave out. *)
Class UserProfile := {
  baseDir : string;
  uploadsDir : string;
  baseDir_given : baseDir ≠ "";
}.

(** The listeners are function objects of the callers: all the model knows
    of one is whether it throws when it is called with an event. *)
Class Listeners := {
  raises : callback → EventRecord → bool;
}.

Section Model.

Context {profile : UserProfile} {listeners : Listeners}.

(** *** getDescription (lines 253-281) *)

Definition wsLink (reqHost : string) (reqSecure : bool) (t : Thing) : Link :=
  {| rel := "alternate";
     mediaType := None;
     link_href :=
       (if reqSecure then "wss" else "ws") +:+ "://" +:+ reqHost +:+ href t |}.

(** [JSON.parse(JSON.stringify(this.links))]: every link object is read
    and a new object is made for it, in a new array. *)
Definition json_copy_links (l : loc) (w : World) : loc * World :=
  let '(ls, w1) := alloc_links (read_links w l) w in
  alloc_array ls w1.

Definition getDescription (reqHost : option string) (reqSecure : bool)
    (t : Thing) (w : World) : World * DescriptionObject :=
  let '(la, w1) := json_copy_links (links t) w in
  let w2 :=
    match reqHost with
    | Some h =>
        let '(lw, w') := alloc_link (wsLink h reqSecure t) w1 in
        array_push la lw w'
    | None => w1
    end in
  (w2,
   {| out_name := name t;
      out_type := type t;
      out_context := context t;
      out_atType := atType t;
      out_description := description t;
      out_href := href t;
      out_properties := properties t;
      out_actions := actions t;
      out_events := events t;
      out_links := la;
      out_floorplanX := floorplanX t;
      out_floorplanY := floorplanY t;
      out_selectedCapability := selectedCapability t;
      out_iconHref := iconHref t |}).

(** [Database.updateThing(this.id, this.getDescription())]: the database
    is a collaborator; the call is recorded. *)
Definition Database_updateThing (t : Thing) (w : World) : World :=
  let '(w1, d) := getDescription None false t w in
  set_database (database w1 ++ [(id t, d)]) w1.

(** *** setCoordinates, setName, setSelectedCapability *)

Definition setCoordinates (x y : option number) (t : Thing) (w : World)
    : World * Thing :=
  let t1 := set_floorplan x y t in
  (Database_updateThing t1 w, t1).

Definition setName (n : string) (t : Thing) (w : World) : World * Thing :=
  let t1 := set_name n t in
  (Database_updateThing t1 w, t1).

Definition setSelectedCapability (c : option string) (t : Thing) (w : World)
    : World * Thing :=
  let t1 := set_selectedCapability c t in
  (Database_updateThing t1 w, t1).

(** *** setIcon (lines 146-206) *)

(** The block shared by [setIcon] (lines 153-162) and [remove]
    (lines 291-300): unlink the old icon, log a failure and carry on,
    clear [iconHref]. *)
Definition unlinkOldIcon (refused : bool) (t : Thing) (w : World)
    : World * Thing :=
  if truthy (iconHref t) then
    let p := path_join baseDir (default "" (iconHref t)) in
    let w1 :=
      match fs_unlinkSync refused (inl p) (files w) with
      | Some fs => set_files fs w
      | None => console_error "Failed to remove old icon:" w
      end in
    (w1, set_iconHref None t)
  else (w, t).

Definition setIcon (iconData : IconData) (updateDatabase : bool)
    (env : IconEnv) (t : Thing) (w : World) : World * Thing * IconOutcome :=
  if negb (truthy (data iconData))
     || negb (mime_allowed (mime iconData))
  then (console_error "Invalid icon data:" w, t, IconInvalid)
  else
    let '(w1, t1) := unlinkOldIcon (unlinkRefused env) t w in
    let extension := extension_of (mime iconData) in
    match tmp_fileSync (tmpAnswer env) uploadsDir extension (files w1) with
    | None =>
        (* tempfile is still undefined in the catch block *)
        (console_error "Failed to write icon:" w1, t1, IconWriteFailed)
    | Some (tempfile, fs2) =>
        match fs_writeFileSync (writeRefused env) tempfile
                (default "" (data iconData)) fs2 with
        | None =>
            let w2 := console_error "Failed to write icon:" (set_files fs2 w1) in
            let w3 :=
              match fs_unlinkSync false (inr (tmp_fd tempfile)) (files w2) with
              | Some fs => set_files fs w2
              | None => w2
              end in
            (w3, t1, IconWriteFailed)
        | Some fs3 =>
            let w2 := set_files fs3 w1 in
            let t2 :=
              set_iconHref
                (Some (path_join "/uploads" (path_basename (tmp_name tempfile))))
                t1 in
            if updateDatabase then (Database_updateThing t2 w2, t2, IconInstalled)
            else (w2, t2, IconInstalled)
        end
    end.

(** *** dispatchEvent and the subscriptions (lines 223-245) *)

(** [emitter.emit]: the listeners registered at this moment are called in
    registration order; a throw is not caught and ends the round. *)
Fixpoint call_listeners (ls : list callback) (e : EventRecord)
    : list (callback * EventRecord) * Completion :=
  match ls with
  | [] => ([], Returned)
  | cb :: r =>
      if raises cb e then ([(cb, e)], Thrown)
      else let '(cs, c) := call_listeners r e in ((cb, e) :: cs, c)
  end.

Definition emitter_emit (ls : list callback) (e : EventRecord) (w : World)
    : World * Completion :=
  let '(cs, c) := call_listeners ls e in
  (set_delivered (delivered w ++ cs) w, c).

(** The event as [dispatchEvent] leaves it after its first statement. *)
Definition stamp (t : Thing) (event : EventRecord) : EventRecord :=
  if negb (truthy (thingId event)) then set_thingId (Some (id t)) event
  else event.

Definition dispatchEvent (event : EventRecord) (t : Thing) (w : World)
    : World * Thing * Completion :=
  let event1 := stamp t event in
  let t1 := set_eventsDispatched (eventsDispatched t ++ [event1]) t in
  let '(w1, c) := emitter_emit (emitter t1) event1 w in
  (w1, t1, c).

Definition addEventSubscription (cb : callback) (t : Thing) : Thing :=
  set_emitter (emitter_on cb (emitter t)) t.

Definition removeEventSubscription (cb : callback) (t : Thing) : Thing :=
  set_emitter (emitter_removeListener cb (emitter t)) t.

(** *** registerWebsocket and remove (lines 283-308) *)

Definition registerWebsocket (ws : socket) (t : Thing) : Thing :=
  set_websockets (websockets t ++ [ws]) t.

(** [ws.close()]: the request is recorded and the socket is closing. *)
Definition ws_close (ws : socket) (w : World) : World :=
  set_closeRequests (closeRequests w ++ [ws])
    (set_readyState (<[ws := CLOSING]> (readyState w)) w).

Definition close_if_live (w : World) (ws : socket) : World :=
  match readyState w ws with
  | OPEN | CONNECTING => ws_close ws w
  | CLOSING | CLOSED => w
  end.

Definition remove (refused : bool) (t : Thing) (w : World) : World * Thing :=
  let '(w1, t1) := unlinkOldIcon refused t w in
  (foldl close_if_live w1 (websockets t1), t1).

(** *** addAction and removeAction (lines 315-326) *)

(** What a call of [addAction] or [removeAction] comes to: the boolean it
    returns, or the TypeError it throws. *)
Inductive Answer := Answers (b : bool) | TypeError.

(** [obj.hasOwnProperty(key)] on an object used as a map.  The method is
    looked up on the object like any other member: an entry of the object
    that is named hasOwnProperty comes before the method every object
    inherits, and such an entry is a descriptor, which cannot be called, so
    the call throws a TypeError.  Without such an entry the inherited method
    answers whether [key] is an entry of the object. *)
Definition hasOwnProperty (m : gmap string Descriptor) (key : string) : Answer :=
  match m !! "hasOwnProperty" with
  | Some _ => TypeError
  | None => Answers (bool_decide (is_Some (m !! key)))
  end.

Definition addAction (action : Action) (t : Thing) (w : World) : Answer :=
  hasOwnProperty (read_map w (actions t)) (action_name action).

Definition removeAction (action : Action) (t : Thing) (w : World) : Answer :=
  hasOwnProperty (read_map w (actions t)) (action_name action).

(** *** The constructor (lines 30-113) *)

(** Every descriptor of [m] gets [href = base/<its name>]. *)
Definition with_hrefs (base : string) (m : gmap string Descriptor)
    : gmap string Descriptor :=
  map_imap (λ n d, Some (set_href (base +:+ "/" +:+ n) d)) m.

Definition is_html_alternate (k : Link) : bool :=
  String.eqb (rel k) "alternate"
  && bool_decide (mediaType k = Some "text/html")
  && String.prefix "http" (link_href k).

(** The target of the UI link (lines 77-94). *)
Definition uiLink_href (d : Description) (own : string) : string :=
  if truthy (in_uiHref d) then default "" (in_uiHref d)
  else match in_links d with
       | Some ks =>
           match List.find is_html_alternate ks with
           | Some k => link_href k
           | None => own
           end
       | None => own
       end.

(** The three links of lines 62-75. *)
Definition base_links (h : string) : list Link :=
  [ {| rel := "properties"; mediaType := None;
       link_href := h +:+ "/properties" |};
    {| rel := "actions"; mediaType := None; link_href := h +:+ "/actions" |};
    {| rel := "events"; mediaType := None; link_href := h +:+ "/events" |} ].

(** The UI link of lines 77-96. *)
Definition uiLink (d : Description) (h : string) : Link :=
  {| rel := "alternate"; mediaType := Some "text/html";
     link_href := uiLink_href d h |}.

(** Lines 36-105: every member but the icon. *)
Definition populate (i : string) (d : Description) (w : World)
    : World * Thing :=
  let h := Constants.THINGS_PATH +:+ "/" +:+ i in
  let '(lp, w1) := alloc_map ∅ w in
  let '(la, w2) := alloc_map (or_object (in_actions d) ∅) w1 in
  let '(le, w3) := alloc_map (or_object (in_events d) ∅) w2 in
  let w4 :=
    match in_properties d with
    | Some ps =>
        set_maps
          (<[lp := with_hrefs
                     (Constants.THINGS_PATH +:+ "/" +:+ i
                      +:+ Constants.PROPERTIES_PATH) ps]> (maps w3)) w3
    | None => w3
    end in
  let '(ls, w5) := alloc_links (base_links h) w4 in
  let '(ll, w6) := alloc_array ls w5 in
  let '(lu, w7) := alloc_link (uiLink d h) w6 in
  let w8 := array_push ll lu w7 in
  let w9 :=
    set_maps (<[la := with_hrefs (h +:+ "/actions") (read_map w8 la)]> (maps w8))
      w8 in
  let w10 :=
    set_maps (<[le := with_hrefs (h +:+ "/events") (read_map w9 le)]> (maps w9))
      w9 in
  (w10,
   {| id := i;
      name := or_default (in_name d) "";
      type := or_default (in_type d) "";
      context := or_default (in_context d) "https://iot.mozilla.org/schemas";
      atType := or_object (in_atType d) [];
      description := or_default (in_description d) "";
      href := h;
      properties := lp;
      actions := la;
      events := le;
      eventsDispatched := [];
      emitter := [];
      floorplanX := in_floorplanX d;
      floorplanY := in_floorplanY d;
      selectedCapability := in_selectedCapability d;
      websockets := [];
      links := ll;
      iconHref := None |}).

(** Lines 107-112: the icon. *)
Definition construct (i : string) (d : Description) (env : IconEnv)
    (w : World) : World * Thing :=
  let '(w10, t) := populate i d w in
  if truthy (in_iconHref d) then (w10, set_iconHref (in_iconHref d) t)
  else match in_iconData d with
       | Some icon => (setIcon icon false env t w10).1
       | None => (w10, t)
       end.

(** [new Thing(id, description)].  The result is [None] when the
    constructor logs its complaint and returns before it has set any member:
    what [new] hands back then is an object with no member at all. *)
Definition Thing_new (i : option string) (d : option Description)
    (env : IconEnv) (w : World) : World * option Thing :=
  match d with
  | Some d' =>
      if truthy i then
        let '(w1, t) := construct (default "" i) d' env w in (w1, Some t)
      else (console_error "id and description needed to create new Thing" w, None)
  | None => (console_error "id and description needed to create new Thing" w, None)
  end.

(** *** Any call on a Thing *)

Inductive Request :=
  | SetCoordinates (x y : option number)
  | SetName (n : string)
  | SetIcon (iconData : IconData) (updateDatabase : bool) (env : IconEnv)
  | SetSelectedCapability (c : option string)
  | DispatchEvent (event : EventRecord)
  | AddEventSubscription (cb : callback)
  | RemoveEventSubscription (cb : callback)
  | GetDescription (reqHost : option string) (reqSecure : bool)
  | RegisterWebsocket (ws : socket)
  | Remove (refused : bool)
  | AddAction (action : Action)
  | RemoveAction (action : Action).

Definition perform (r : Request) (s : World * Thing) : World * Thing :=
  let '(w, t) := s in
  match r with
  | SetCoordinates x y => setCoordinates x y t w
  | SetName n => setName n t w
  | SetIcon i u env => (setIcon i u env t w).1
  | SetSelectedCapability c => setSelectedCapability c t w
  | DispatchEvent e => (dispatchEvent e t w).1
  | AddEventSubscription cb => (w, addEventSubscription cb t)
  | RemoveEventSubscription cb => (w, removeEventSubscription cb t)
  | GetDescription h s => ((getDescription h s t w).1, t)
  | RegisterWebsocket ws => (w, registerWebsocket ws t)
  | Remove refused => remove refused t w
  | AddAction _ | RemoveAction _ => (w, t)
  end.

Definition perform_all (rs : list Request) (s : World * Thing) : World * Thing :=
  foldl (λ s r, perform r s) s rs.

End Model.

(** ** The vocabulary of the statements *)

(** What a world holds besides the store. *)
Definition surroundings (w : World) :=
  (files w, readyState w, closeRequests w, console w, database w, delivered w).

(** [w'] has every object of [w], unchanged, and possibly new link
    objects and arrays; nothing else differs. *)
Definition only_allocates (w w' : World) : Prop :=
  maps w' = maps w
  ∧ linkObjects w ⊆ linkObjects w'
  ∧ arrays w ⊆ arrays w'
  ∧ surroundings w' = surroundings w.

(** The array [links t] and the link objects it holds are in the store. *)
Definition links_allocated (w : World) (t : Thing) : Prop :=
  ∃ a, arrays w !! links t = Some a
       ∧ Forall (λ o, is_Some (linkObjects w !! o)) a.

(** What [populate] leaves behind. *)
Record populated (i : string) (d : Description) (w w' : World) (t : Thing)
    : Prop := {
  pop_id : id t = i;
  pop_name : name t = or_default (in_name d) "";
  pop_type : type t = or_default (in_type d) "";
  pop_context :
    context t = or_default (in_context d) "https://iot.mozilla.org/schemas";
  pop_atType : atType t = or_object (in_atType d) [];
  pop_description : description t = or_default (in_description d) "";
  pop_href : href t = Constants.THINGS_PATH +:+ "/" +:+ i;
  pop_eventsDispatched : eventsDispatched t = [];
  pop_emitter : emitter t = [];
  pop_websockets : websockets t = [];
  pop_iconHref : iconHref t = None;
  pop_floorplanX : floorplanX t = in_floorplanX d;
  pop_floorplanY : floorplanY t = in_floorplanY d;
  pop_selectedCapability : selectedCapability t = in_selectedCapability d;
  pop_properties :
    maps w' !! properties t
    = Some (with_hrefs (href t +:+ "/properties")
              (or_object (in_properties d) ∅));
  pop_actions :
    maps w' !! actions t
    = Some (with_hrefs (href t +:+ "/actions") (or_object (in_actions d) ∅));
  pop_events :
    maps w' !! events t
    = Some (with_hrefs (href t +:+ "/events") (or_object (in_events d) ∅));
  pop_distinct :
    properties t ≠ actions t ∧ properties t ≠ events t
    ∧ actions t ≠ events t;
  pop_links : read_links w' (links t) = base_links (href t) ++ [uiLink d (href t)];
  pop_links_allocated : links_allocated w' t;
  pop_surroundings : surroundings w' = surroundings w;
}.

(** [iconHref], when set, is the public path of a file that exists. *)
Definition icon_resolves {profile : UserProfile} (w : World) (t : Thing) : Prop :=
  ∀ h, iconHref t = Some h → h ≠ "" →
       is_Some (files w !! path_join baseDir h).

(** How many times [cb] is in a listener array. *)
Definition occurrences (cb : callback) (ls : list callback) : nat :=
  length (filter (λ x, x = cb) ls).

(** The registrations [cb] holds on the Thing. *)
Definition registrations (cb : callback) (t : Thing) : nat :=
  occurrences cb (emitter t).

(** The events a listener was called with, in the order of the calls. *)
Definition received (cb : callback) (calls : list (callback * EventRecord))
    : list EventRecord :=
  (filter (λ c, c.1 = cb) calls).*2.

(** A socket [remove] asks to close. *)
Definition live (w : World) (ws : socket) : Prop :=
  readyState w ws = OPEN ∨ readyState w ws = CONNECTING.

(** The members of a Thing that no method assigns. *)
Definition same_identity (t t' : Thing) : Prop :=
  id t' = id t ∧ href t' = href t
  ∧ properties t' = properties t ∧ actions t' = actions t
  ∧ events t' = events t ∧ links t' = links t.

(** The events a list of calls dispatches on [t], as they are logged. *)
Definition dispatched (t : Thing) (rs : list Request) : list EventRecord :=
  omap (λ r, match r with
             | DispatchEvent e => Some (stamp t e)
             | _ => None
             end) rs.

(** The calls whose code touches the file system or the console. *)
Definition uses_files (r : Request) : bool :=
  match r with
  | SetIcon _ _ _ | Remove _ => true
  | _ => false
  end.

(** The calls whose code reaches [Database.updateThing]. *)
Definition uses_database (r : Request) : bool :=
  match r with
  | SetCoordinates _ _ | SetName _ | SetSelectedCapability _ | SetIcon _ _ _ =>
      true
  | _ => false
  end.

(** The names [tmp] comes up with have no separator in them. *)
Definition plain_tmp_name (env : IconEnv) : Prop :=
  ∀ rnd fd, tmpAnswer env = Some (rnd, fd) → contains_sep rnd = false.

(** The same, for the [setIcon] among the calls. *)
Definition plain_tmp_names (r : Request) : Prop :=
  match r with
  | SetIcon _ _ env => plain_tmp_name env
  | _ => True
  end.

(** ** Concrete runs *)

Module Sample.

Definition profile : UserProfile :=
  {| baseDir := "/home/user/.mozilla-iot";
     uploadsDir := "/home/user/.mozilla-iot/uploads";
     baseDir_given := ltac:(discriminate) |}.

(** No listener throws. *)
Definition quiet : Listeners := {| raises := λ _ _, false |}.

(** Socket 1 is open, socket 2 is connecting, every other one is closed. *)
Definition world : World :=
  {| maps := ∅; linkObjects := ∅; arrays := ∅; files := ∅;
     readyState := λ ws, match ws with 1 => OPEN | 2 => CONNECTING | _ => CLOSED end;
     closeRequests := []; console := []; database := []; delivered := [] |}.

Definition png : IconData :=
  {| data := Some "iVBORw0KGgo="; mime := Some "image/png" |}.

Definition jpeg : IconData :=
  {| data := Some "/9j/4AAQ"; mime := Some "image/jpeg" |}.

Definition text : IconData :=
  {| data := Some "aGVsbG8="; mime := Some "text/plain" |}.

Definition lamp_description : Description :=
  {| in_name := Some "Lamp"; in_type := None; in_context := None;
     in_atType := None; in_description := None;
     in_properties := Some {[ "on" := {| payload := "boolean"; desc_href := None |} ]};
     in_actions := Some {[ "toggle" := {| payload := ""; desc_href := None |} ]};
     in_events := None;
     in_floorplanX := None; in_floorplanY := None;
     in_selectedCapability := None; in_uiHref := None; in_links := None;
     in_iconHref := None; in_iconData := Some png |}.

Definition bare_description : Description :=
  {| in_name := None; in_type := None; in_context := None;
     in_atType := None; in_description := None;
     in_properties := None; in_actions := None; in_events := None;
     in_floorplanX := None; in_floorplanY := None;
     in_selectedCapability := None; in_uiHref := None; in_links := None;
     in_iconHref := None; in_iconData := None |}.

Definition fine (rnd : string) : IconEnv :=
  {| unlinkRefused := false; tmpAnswer := Some (rnd, 11); writeRefused := false |}.

Definition no_tmp : IconEnv :=
  {| unlinkRefused := false; tmpAnswer := None; writeRefused := false |}.

(** [new Thing("lamp", lamp_description)] in the empty world: the icon is
    written to [uploads/a1b2c3.png]. *)
Definition built : World * Thing :=
  construct (profile := profile) "lamp" lamp_description (fine "a1b2c3") world.

(** The same Thing with socket 1 (open) and socket 3 (closed) registered. *)
Definition connected : Thing :=
  registerWebsocket 3 (registerWebsocket 1 built.2).

(** A description that names an icon whose file is not there. *)
Definition stale_description : Description :=
  {| in_name := None; in_type := None; in_context := None;
     in_atType := None; in_description := None;
     in_properties := None; in_actions := None; in_events := None;
     in_floorplanX := None; in_floorplanY := None;
     in_selectedCapability := None; in_uiHref := None; in_links := None;
     in_iconHref := Some "/uploads/gone.png"; in_iconData := None |}.

(** Listener 3 throws, whatever the event. *)
Definition touchy : Listeners := {| raises := λ cb _, Nat.eqb cb 3 |}.

(** Every listener throws on the events named boom, and on no other. *)
Definition moody : Listeners :=
  {| raises := λ _ e, String.eqb (ev_name e) "boom" |}.

Definition boom : EventRecord :=
  {| ev_name := "boom"; ev_data := ""; thingId := None;
     timestamp := "2018-06-01T10:05:00Z" |}.

Definition overheated : EventRecord :=
  {| ev_name := "overheated"; ev_data := "102"; thingId := None;
     timestamp := "2018-06-01T10:00:00Z" |}.

Definition unstamped : EventRecord :=
  {| ev_name := "overheated"; ev_data := "102"; thingId := Some "";
     timestamp := "2018-06-01T10:00:00Z" |}.

(** The unlink of the old icon is refused; the rest goes through. *)
Definition busy (rnd : string) : IconEnv :=
  {| unlinkRefused := true; tmpAnswer := Some (rnd, 12); writeRefused := false |}.

(** The temporary file is created; the write is refused. *)
Definition disk_full (rnd : string) : IconEnv :=
  {| unlinkRefused := false; tmpAnswer := Some (rnd, 13); writeRefused := true |}.

(** A description with two links, the second of which is a UI link. *)
Definition linked_description : Description :=
  {| in_name := Some "Fan"; in_type := None; in_context := None;
     in_atType := None; in_description := None;
     in_properties := None; in_actions := None; in_events := None;
     in_floorplanX := None; in_floorplanY := None;
     in_selectedCapability := None; in_uiHref := Some "";
     in_links :=
       Some [ {| rel := "alternate"; mediaType := None;
                 link_href := "ws://fan.local/" |};
              {| rel := "alternate"; mediaType := Some "text/html";
                 link_href := "http://fan.local/ui" |} ];
     in_iconHref := None; in_iconData := None |}.

(** A description with an action named like the method of every object. *)
Definition shadowing_description : Description :=
  {| in_name := Some "Mirror"; in_type := None; in_context := None;
     in_atType := None; in_description := None;
     in_properties := None;
     in_actions :=
       Some {[ "toggle" := {| payload := ""; desc_href := None |};
               "hasOwnProperty" := {| payload := ""; desc_href := None |} ]};
     in_events := None;
     in_floorplanX := None; in_floorplanY := None;
     in_selectedCapability := None; in_uiHref := None; in_links := None;
     in_iconHref := None; in_iconData := None |}.

(** [new Thing("mirror", shadowing_description)] in the empty world. *)
Definition mirror : World * Thing :=
  construct (profile := profile) "mirror" shadowing_description no_tmp world.

(** A day in the life of the lamp. *)
Definition day : list Request :=
  [ SetName "Desk lamp";
    AddEventSubscription 7;
    SetIcon jpeg true (fine "d4e5f6");
    DispatchEvent overheated;
    SetIcon png false no_tmp;
    GetDescription (Some "example.org") true;
    SetIcon text true (fine "g7h8i9");
    RegisterWebsocket 1;
    Remove false ].

End Sample.

Section Facts.

Context {profile : UserProfile} {listeners : Listeners}.

(** ** Strings and paths *)

Lemma append_nil_l (s : string) : "" +:+ s = s.
Proof. reflexivity. Qed.

Lemma append_cons (c : ascii) (a b : string) :
  String c a +:+ b = String c (a +:+ b).
Proof. reflexivity. Qed.

Lemma append_assoc (a b c : string) : (a +:+ b) +:+ c = a +:+ (b +:+ c).
Proof.
  induction a as [|x a IH]; [reflexivity |].
  rewrite !append_cons. by f_equal.
Qed.

Lemma append_nil_r (s : string) : s +:+ "" = s.
Proof.
  induction s as [|x s IH]; [reflexivity |]. rewrite append_cons. by f_equal.
Qed.

Lemma contains_sep_append (a b : string) :
  contains_sep (a +:+ b) = contains_sep a || contains_sep b.
Proof.
  induction a as [|x a IH]; [reflexivity |].
  rewrite append_cons. simpl. by rewrite IH, orb_assoc.
Qed.

Lemma length_append (a b : string) :
  String.length (a +:+ b) = String.length a + String.length b.
Proof.
  induction a as [|x a IH]; [reflexivity |].
  rewrite append_cons. simpl. by rewrite IH.
Qed.

Lemma segments_cons (p : string) : ∃ s rest, segments p = s :: rest.
Proof.
  induction p as [|c r (s & rest & IH)]; [by eexists _, _ |].
  simpl. destruct (is_sep c); [by eexists _, _ |].
  rewrite IH. by eexists _, _.
Qed.

Lemma segments_app (a b : string) :
  segments (a +:+ "/" +:+ b) = segments a ++ segments b.
Proof.
  induction a as [|c a IH]; [reflexivity |].
  rewrite append_cons. cbn [segments]. rewrite IH.
  destruct (is_sep c); [reflexivity |].
  by destruct (segments_cons a) as (s & rest & ->).
Qed.

Lemma segments_plain (f : string) : contains_sep f = false → segments f = [f].
Proof.
  induction f as [|c r IH]; [reflexivity |]. simpl.
  intros [-> Hr]%orb_false_iff. by rewrite (IH Hr).
Qed.

Lemma segments_sep_free (p : string) :
  Forall (λ s, contains_sep s = false) (segments p).
Proof.
  induction p as [|c r IH]; [by repeat constructor |]. simpl.
  destruct (is_sep c) eqn:Hc; [by constructor |].
  destruct (segments r) as [|s rest]; [by repeat constructor; simpl; rewrite Hc |].
  inversion IH; subst. constructor; [| done]. simpl. by rewrite Hc.
Qed.

Lemma segments_join (l : list string) :
  Forall (λ s, contains_sep s = false) l → l ≠ [] →
  segments (join_segments l) = l.
Proof.
  induction l as [|s r IH]; [done |]. intros Hall _.
  inversion Hall as [|? ? Hs Hr]; subst. cbn [join_segments].
  destruct r as [|s' r']; [by apply segments_plain |].
  rewrite segments_app, (segments_plain s Hs), IH; done.
Qed.

Lemma join_snoc (l : list string) (f : string) :
  l ≠ [] → join_segments (l ++ [f]) = join_segments l +:+ "/" +:+ f.
Proof.
  induction l as [|s r IH]; [done |]. intros _.
  destruct r as [|s' r']; [reflexivity |].
  change ((s :: s' :: r') ++ [f]) with (s :: ((s' :: r') ++ [f])).
  cbn [join_segments app]. cbn [join_segments app] in IH.
  rewrite IH by done. by rewrite !append_assoc.
Qed.

Lemma proper_sep_free (s : string) : proper s → contains_sep s = false.
Proof. by intros [? _]. Qed.

Lemma is_absolute_plain (s : string) :
  contains_sep s = false → is_absolute s = false.
Proof. destruct s as [|c r]; [done |]. simpl. by intros [-> _]%orb_false_iff. Qed.

Lemma is_absolute_append (a b : string) :
  a ≠ "" → is_absolute (a +:+ b) = is_absolute a.
Proof. by destruct a. Qed.

Lemma ends_with_sep_plain (s : string) :
  contains_sep s = false → ends_with_sep s = false.
Proof.
  induction s as [|c r IH]; [done |]. simpl.
  intros [Hc Hr]%orb_false_iff. destruct r; [done | by apply IH].
Qed.

Lemma ends_with_sep_append (a b : string) :
  b ≠ "" → ends_with_sep (a +:+ b) = ends_with_sep b.
Proof.
  intros Hb. induction a as [|c a IH]; [reflexivity |].
  rewrite append_cons. cbn [ends_with_sep]. rewrite IH.
  destruct (a +:+ b) eqn:E; [| reflexivity].
  destruct a; [by rewrite append_nil_l in E | done].
Qed.

Lemma eqb_false (s s' : string) : s ≠ s' → String.eqb s s' = false.
Proof. by intros ?%String.eqb_neq. Qed.

Lemma normalize_step_proper (allow : bool) (kept : list string) (s : string) :
  proper s → normalize_step allow kept s = s :: kept.
Proof.
  intros (_ & H1 & H2 & H3). unfold normalize_step.
  by rewrite !eqb_false.
Qed.

Lemma normalize_step_empty (allow : bool) (kept : list string) :
  normalize_step allow kept "" = kept.
Proof. reflexivity. Qed.

Lemma foldl_proper (allow : bool) (kept l : list string) :
  Forall proper l →
  foldl (normalize_step allow) kept l = reverse l ++ kept.
Proof.
  revert kept. induction l as [|s r IH]; intros kept Hall; [reflexivity |].
  inversion Hall; subst. cbn [foldl].
  rewrite normalize_step_proper, IH by done.
  by rewrite reverse_cons, <- app_assoc.
Qed.

Lemma foldl_dotdot (n k : nat) :
  foldl (normalize_step true) (replicate k "..") (replicate n "..")
  = replicate (n + k) "..".
Proof.
  revert k. induction n as [|n IH]; intros k; [reflexivity |].
  cbn [replicate foldl].
  assert (normalize_step true (replicate k "..") ".." = replicate (S k) "..")
    as -> by (by destruct k).
  rewrite IH. f_equal. lia.
Qed.

Lemma normal_nil (allow : bool) : normal allow [].
Proof. exists 0, []. by repeat split. Qed.

Lemma normal_push (allow : bool) (kept : list string) (s : string) :
  proper s → normal allow kept → normal allow (s :: kept).
Proof.
  intros Hs (n & names & -> & Hn & Hall).
  exists n, (s :: names). repeat split; [done |]. by constructor.
Qed.

Lemma normal_step (allow : bool) (kept : list string) (s : string) :
  contains_sep s = false → normal allow kept →
  normal allow (normalize_step allow kept s).
Proof.
  intros Hs Hk. unfold normalize_step.
  destruct (String.eqb s "") eqn:E1; [done |].
  destruct (String.eqb s ".") eqn:E2; [done |]. cbn [orb].
  destruct (String.eqb s "..") eqn:E3.
  - apply String.eqb_eq in E3 as ->.
    destruct Hk as (n & names & -> & Hn & Hall).
    destruct names as [|x names].
    + cbn [app]. destruct n as [|n]; cbn [replicate].
      * destruct allow; [| apply normal_nil].
        exists 1, []. by repeat split.
      * destruct allow; [| by discriminate (Hn eq_refl)].
        cbn [String.eqb Ascii.eqb Bool.eqb]. 
        exists (S (S n)), []. by repeat split.
    + inversion Hall as [|? ? Hx Hrest]; subst. cbn [app].
      destruct Hx as (_ & _ & _ & Hx). rewrite (eqb_false _ _ Hx).
      by exists n, names.
  - apply normal_push; [| done].
    apply String.eqb_neq in E1, E2, E3. by repeat split.
Qed.

Lemma normal_foldl (allow : bool) (kept l : list string) :
  Forall (λ s, contains_sep s = false) l → normal allow kept →
  normal allow (foldl (normalize_step allow) kept l).
Proof.
  revert kept. induction l as [|s r IH]; intros kept Hall Hk; [done |].
  inversion Hall; subst. cbn [foldl]. apply IH; [done |].
  by apply normal_step.
Qed.

Lemma normal_sep_free (allow : bool) (kept : list string) :
  normal allow kept → Forall (λ s, contains_sep s = false) kept.
Proof.
  intros (n & names & -> & _ & Hall). apply Forall_app. split.
  - eapply List.Forall_impl; [| exact Hall]. by intros s [? _].
  - by apply Forall_replicate.
Qed.

(** Normalising what is normal changes nothing. *)
Lemma renormalize (allow : bool) (kept : list string) :
  normal allow kept →
  foldl (normalize_step allow) [] (reverse kept) = kept.
Proof.
  intros (n & names & -> & Hn & Hall).
  rewrite reverse_app, reverse_replicate, foldl_app.
  assert (foldl (normalize_step allow) [] (replicate n "..")
          = replicate n "..") as ->.
  { destruct allow.
    - change (@nil string) with (replicate 0 "..") at 1.
      rewrite foldl_dotdot. f_equal. lia.
    - by rewrite (Hn eq_refl). }
  rewrite foldl_proper by (by apply Forall_reverse).
  by rewrite reverse_involutive.
Qed.

Lemma join_segments_head (s : string) (r : list string) :
  ∃ rest, join_segments (s :: r) = s +:+ rest.
Proof.
  destruct r as [|s' r']; [exists ""; by rewrite append_nil_r |].
  by eexists.
Qed.

Lemma normal_reverse_head (allow : bool) (kept : list string) :
  normal allow kept → kept ≠ [] →
  ∃ s r, reverse kept = s :: r ∧ contains_sep s = false ∧ s ≠ "".
Proof.
  intros Hk Hne.
  pose proof (normal_sep_free _ _ Hk) as Hfree.
  destruct Hk as (n & names & -> & _ & Hall).
  destruct (reverse (names ++ replicate n "..")) as [|s r] eqn:E.
  { apply (f_equal reverse) in E. rewrite reverse_involutive in E. done. }
  exists s, r. split; [done |].
  assert (s ∈ names ++ replicate n "..") as Hin.
  { apply elem_of_reverse. rewrite E. apply list_elem_of_here. }
  split; [by apply (proj1 (list.Forall_forall _ _) Hfree) |].
  apply elem_of_app in Hin as [Hin | Hin].
  - by apply (proj1 (list.Forall_forall _ _) Hall) in Hin as (_ & ? & _).
  - by apply elem_of_replicate in Hin as [-> _].
Qed.

(** The path written from normal pieces reads back as those pieces. *)
Lemma segments_written (absolute : bool) (kept : list string) :
  normal (negb absolute) kept → kept ≠ [] →
  let u := root_mark absolute +:+ join_segments (reverse kept) in
  u ≠ "" ∧ is_absolute u = absolute
  ∧ foldl (normalize_step (negb absolute)) [] (segments u) = kept.
Proof.
  intros Hk Hne. cbn zeta.
  destruct (normal_reverse_head _ _ Hk Hne) as (s & r & E & Hs & Hs').
  assert (segments (join_segments (reverse kept)) = reverse kept) as Hseg.
  { apply segments_join; [| by rewrite E].
    apply Forall_reverse. by eapply normal_sep_free. }
  destruct (join_segments_head s r) as [rest Hj].
  destruct absolute; cbn [root_mark negb] in *.
  - split; [done |]. split; [reflexivity |].
    change ("/" +:+ join_segments (reverse kept))
      with ("" +:+ "/" +:+ join_segments (reverse kept)).
    rewrite segments_app, Hseg. cbn [segments app foldl].
    rewrite normalize_step_empty. by apply renormalize.
  - rewrite append_nil_l, Hseg. rewrite E, Hj.
    split; [by destruct s |]. split; [| rewrite <- E; by apply renormalize].
    destruct s as [|c s]; [done |]. simpl in *.
    by apply orb_false_iff in Hs as [-> _].
Qed.

(** Normalising a path that ends in a file name. *)
Lemma normalize_snoc (x f : string) :
  proper f →
  let p := x +:+ "/" +:+ f in
  let kept := foldl (normalize_step (negb (is_absolute p))) [] (segments x) in
  path_normalize p
  = root_mark (is_absolute p) +:+ join_segments (reverse (f :: kept)).
Proof.
  intros Hf. cbn zeta. unfold path_normalize.
  set (p := x +:+ "/" +:+ f). destruct Hf as (Hfree & Hne & Hdot & Hdots).
  assert (String.eqb p "" = false) as ->.
  { apply eqb_false. subst p. destruct x; done. }
  subst p. rewrite segments_app, (segments_plain f Hfree), foldl_app.
  set (a := is_absolute _). set (kept := foldl _ [] (segments x)).
  cbn [foldl]. rewrite normalize_step_proper by done.
  rewrite reverse_cons.
  assert (join_segments (reverse kept ++ [f]) ≠ "") as Hj.
  { destruct (reverse kept) as [|s r] eqn:E; [done |].
    rewrite join_snoc by done.
    intros H. apply (f_equal String.length) in H.
    rewrite !length_append in H. simpl in H. lia. }
  rewrite (eqb_false _ _ Hj). cbn [andb negb].
  rewrite <- append_assoc, ends_with_sep_append by done.
  rewrite (ends_with_sep_plain f Hfree), andb_false_r.
  by destruct a.
Qed.

Lemma path_basename_plain (f : string) :
  proper f → path_basename f = f.
Proof.
  intros (Hfree & Hne & _). unfold path_basename.
  rewrite (segments_plain f Hfree). cbn [List.filter].
  by rewrite (eqb_false _ _ Hne).
Qed.

Lemma path_basename_snoc (x f : string) :
  proper f → path_basename (x +:+ "/" +:+ f) = f.
Proof.
  intros (Hfree & Hne & _). unfold path_basename.
  rewrite segments_app, (segments_plain f Hfree), List.filter_app.
  cbn [List.filter]. rewrite (eqb_false _ _ Hne). cbn [negb].
  apply List.last_last.
Qed.

Lemma path_join_snoc (a f : string) :
  proper f → a ≠ "" → path_join a f = path_normalize (a +:+ "/" +:+ f).
Proof. intros (_ & Hne & _) Ha. destruct a, f; done. Qed.

Lemma path_normalize_plain (f : string) : proper f → path_normalize f = f.
Proof.
  intros (Hfree & Hne & Hdot & Hdots). unfold path_normalize.
  rewrite (eqb_false _ _ Hne), (segments_plain f Hfree).
  rewrite (is_absolute_plain f Hfree). cbn [foldl negb].
  rewrite normalize_step_proper by done.
  cbn [reverse rev_append join_segments andb negb].
  rewrite (eqb_false _ _ Hne). cbn [andb].
  by rewrite (eqb_false _ _ Hne), (ends_with_sep_plain f Hfree).
Qed.

(** The last piece of a directory joined with a file name is the name. *)
Lemma path_basename_join (a f : string) :
  proper f → path_basename (path_join a f) = f.
Proof.
  intros Hf. destruct (decide (a = "")) as [-> | Ha].
  - assert (path_join "" f = path_normalize f) as ->.
    { destruct Hf as (_ & Hne & _). by destruct f. }
    by rewrite path_normalize_plain, path_basename_plain.
  - rewrite path_join_snoc, normalize_snoc by done.
    rewrite reverse_cons.
    destruct (reverse _) as [|s r] eqn:E.
    + cbn [app join_segments].
      destruct (is_absolute _); cbn [root_mark].
      * by apply (path_basename_snoc "").
      * by apply path_basename_plain.
    + rewrite join_snoc by done.
      rewrite <- (append_assoc (root_mark _) (join_segments _) ("/" +:+ f)).
      by apply path_basename_snoc.
Qed.

Lemma path_join_uploads (f : string) :
  proper f → path_join "/uploads" f = "/uploads/" +:+ f.
Proof.
  intros Hf. rewrite path_join_snoc, normalize_snoc by done.
  cbn [segments is_sep Ascii.eqb Bool.eqb append is_absolute].
  cbn [foldl negb]. rewrite normalize_step_empty.
  rewrite normalize_step_proper by (by repeat split).
  reflexivity.
Qed.

(** The public path of an uploaded file leads back to the file. *)
Lemma path_join_public (b f : string) :
  b ≠ "" → proper f →
  path_join b ("/uploads/" +:+ f) = path_join (path_join b "uploads") f.
Proof.
  intros Hb Hf.
  assert (proper "uploads") as Hu by (by repeat split).
  assert (path_join b ("/uploads/" +:+ f)
          = path_normalize ((b +:+ "/" +:+ "/uploads") +:+ "/" +:+ f)) as ->.
  { rewrite !append_assoc. by destruct b. }
  rewrite normalize_snoc by done.
  rewrite (path_join_snoc b "uploads") by done.
  rewrite normalize_snoc by done.
  rewrite !is_absolute_append by (by destruct b).
  set (a := is_absolute b).
  rewrite segments_app, foldl_app.
  set (kept := foldl (normalize_step (negb a)) [] (segments b)).
  assert (normal (negb a) kept) as Hk.
  { apply normal_foldl; [apply segments_sep_free | apply normal_nil]. }
  assert (foldl (normalize_step (negb a)) kept (segments "/uploads")
          = "uploads" :: kept) as ->.
  { cbn [segments is_sep Ascii.eqb Bool.eqb foldl].
    by rewrite normalize_step_empty, normalize_step_proper. }
  destruct (segments_written a ("uploads" :: kept)) as (Hne & Habs & Hre);
    [by apply normal_push | done |].
  cbn zeta in *.
  set (u := root_mark a +:+ join_segments (reverse ("uploads" :: kept))) in *.
  rewrite path_join_snoc, normalize_snoc by done.
  rewrite is_absolute_append, Habs by done.
  by rewrite Hre.
Qed.

Lemma contains_sep_extension (m : option string) :
  contains_sep (extension_of m) = false.
Proof.
  destruct m as [s|]; [| reflexivity]. unfold extension_of.
  repeat case_match; reflexivity.
Qed.

(** The name of the temporary file of a valid icon is a file name. *)
Lemma proper_tmp_name (rnd : string) (m : option string) :
  contains_sep rnd = false → proper (rnd +:+ extension_of m).
Proof.
  intros Hrnd.
  assert (4 ≤ String.length (rnd +:+ extension_of m))%nat as Hlen.
  { rewrite length_append. destruct m as [s|]; [| simpl; lia].
    unfold extension_of. repeat case_match; simpl; lia. }
  split; [by rewrite contains_sep_append, Hrnd, contains_sep_extension |].
  repeat split; intros E; rewrite E in Hlen; simpl in Hlen; lia.
Qed.

(** The public path of a freshly written icon leads back to its file. *)
Lemma uploaded_file_path (f : string) :
  uploadsDir = path_join baseDir "uploads" →
  proper f →
  path_join baseDir (path_join "/uploads" (path_basename (path_join uploadsDir f)))
  = path_join uploadsDir f.
Proof.
  intros Hup Hf. rewrite path_basename_join, path_join_uploads by done.
  rewrite Hup. apply path_join_public; [apply baseDir_given | done].
Qed.

(** ** The store only grows under allocation *)

Lemma only_allocates_refl (w : World) : only_allocates w w.
Proof. by repeat split. Qed.

Lemma only_allocates_trans (w1 w2 w3 : World) :
  only_allocates w1 w2 → only_allocates w2 w3 → only_allocates w1 w3.
Proof.
  intros (Hm1 & Hl1 & Ha1 & Hs1) (Hm2 & Hl2 & Ha2 & Hs2).
  repeat split; [congruence | by etrans | by etrans | congruence].
Qed.

Lemma omap_Forall2 {A B : Type} (f : A → option B) (xs : list A) (ys : list B) :
  Forall2 (λ x y, f x = Some y) xs ys → omap f xs = ys.
Proof.
  induction 1 as [|x y xs ys Hxy _ IH]; [reflexivity |].
  simpl. rewrite Hxy. f_equal. exact IH.
Qed.

Lemma alloc_link_spec (k : Link) (w w' : World) (l : loc) :
  alloc_link k w = (l, w') →
  (l ∉ dom (linkObjects w))
  ∧ linkObjects w' = <[l := k]> (linkObjects w)
  ∧ only_allocates w w'.
Proof.
  unfold alloc_link. intros [= <- <-].
  assert (fresh (dom (linkObjects w)) ∉ dom (linkObjects w)) as Hf
    by apply is_fresh.
  split; [exact Hf |]. split; [reflexivity |].
  repeat split; simpl; [| done].
  apply insert_subseteq. by apply not_elem_of_dom.
Qed.

Lemma alloc_array_spec (a : list loc) (w w' : World) (l : loc) :
  alloc_array a w = (l, w') →
  (l ∉ dom (arrays w))
  ∧ arrays w' = <[l := a]> (arrays w)
  ∧ only_allocates w w'.
Proof.
  unfold alloc_array. intros [= <- <-].
  assert (fresh (dom (arrays w)) ∉ dom (arrays w)) as Hf by apply is_fresh.
  split; [exact Hf |]. split; [reflexivity |].
  repeat split; simpl; [done |].
  apply insert_subseteq. by apply not_elem_of_dom.
Qed.

Lemma alloc_links_spec (ks : list Link) (w w' : World) (ls : list loc) :
  alloc_links ks w = (ls, w') →
  only_allocates w w'
  ∧ Forall2 (λ l k, linkObjects w' !! l = Some k) ls ks
  ∧ Forall (λ l, l ∉ dom (linkObjects w)) ls.
Proof.
  revert w w' ls. induction ks as [|k ks IH]; intros w w' ls.
  - simpl. intros [= <- <-]. split; [apply only_allocates_refl |]. by split.
  - cbn [alloc_links]. destruct (alloc_link k w) as [l w1] eqn:E1.
    destruct (alloc_links ks w1) as [ls' w2] eqn:E2. intros [= <- <-].
    destruct (alloc_link_spec _ _ _ _ E1) as (Hfresh & Hobj & Halloc).
    destruct (IH _ _ _ E2) as (Hrest & Hread & Hnew).
    split; [eapply only_allocates_trans; eassumption |]. split.
    + constructor; [| exact Hread].
      destruct Hrest as (_ & Hsub & _).
      eapply lookup_weaken; [| exact Hsub].
      rewrite Hobj. apply lookup_insert_eq.
    + constructor; [exact Hfresh |].
      eapply Forall_impl; [| exact Hnew]. intros x Hx.
      rewrite Hobj, dom_insert_L, not_elem_of_union in Hx. tauto.
Qed.

Lemma Forall2_lookup_weaken (m1 m2 : gmap loc Link) (ls : list loc)
    (ks : list Link) :
  m1 ⊆ m2 →
  Forall2 (λ l k, m1 !! l = Some k) ls ks →
  Forall2 (λ l k, m2 !! l = Some k) ls ks.
Proof.
  intros Hsub H. induction H as [|l k ls ks Hl _ IH]; constructor; [| exact IH].
  by eapply lookup_weaken.
Qed.

Lemma read_array_insert (w : World) (l : loc) (a : list loc) :
  read_array (set_arrays (<[l := a]> (arrays w)) w) l = a.
Proof. unfold read_array. simpl. by rewrite lookup_insert_eq. Qed.

Lemma json_copy_links_spec (l la : loc) (w w' : World) :
  json_copy_links l w = (la, w') →
  only_allocates w w'
  ∧ (la ∉ dom (arrays w))
  ∧ arrays w' !! la = Some (read_array w' la)
  ∧ Forall2 (λ o k, linkObjects w' !! o = Some k)
      (read_array w' la) (read_links w l)
  ∧ Forall (λ o, o ∉ dom (linkObjects w)) (read_array w' la).
Proof.
  unfold json_copy_links.
  destruct (alloc_links (read_links w l) w) as [ls w1] eqn:E1.
  intros E2.
  destruct (alloc_links_spec _ _ _ _ E1) as (H1 & Hread & Hnew).
  destruct (alloc_array_spec _ _ _ _ E2) as (Hfresh & Harr & H2).
  assert (read_array w' la = ls) as Hls.
  { unfold read_array. by rewrite Harr, lookup_insert_eq. }
  rewrite Hls.
  split; [eapply only_allocates_trans; eassumption |]. split.
  { destruct H1 as (_ & _ & Ha & _). intros Hin. apply Hfresh.
    apply elem_of_dom. apply elem_of_dom in Hin as [x Hx].
    exists x. by eapply lookup_weaken. }
  split; [by rewrite Harr, lookup_insert_eq |].
  split; [| exact Hnew].
  destruct H2 as (_ & Hsub & _). by eapply Forall2_lookup_weaken.
Qed.

(** What [getDescription] returns and what it does to the world. *)
Lemma getDescription_spec (reqHost : option string) (reqSecure : bool)
    (t : Thing) (w w' : World) (d : DescriptionObject) :
  getDescription reqHost reqSecure t w = (w', d) →
  only_allocates w w'
  ∧ (out_links d ∉ dom (arrays w))
  ∧ Forall (λ o, o ∉ dom (linkObjects w)) (read_array w' (out_links d))
  ∧ read_links w' (out_links d)
    = read_links w (links t)
      ++ match reqHost with
         | Some h => [wsLink h reqSecure t]
         | None => []
         end
  ∧ out_properties d = properties t
  ∧ out_actions d = actions t
  ∧ out_events d = events t.
Proof.
  unfold getDescription.
  destruct (json_copy_links (links t) w) as [la w1] eqn:E1.
  destruct (json_copy_links_spec _ _ _ _ E1)
    as (H1 & Hfresh & Hla & Hread & Hnew).
  destruct reqHost as [h|].
  - destruct (alloc_link (wsLink h reqSecure t) w1) as [lw w2] eqn:E2.
    intros [= <- <-]. simpl.
    destruct (alloc_link_spec _ _ _ _ E2) as (Hlw & Hobj & H2).
    assert (read_array w2 la = read_array w1 la) as Hsame.
    { destruct H2 as (_ & _ & Ha & _). unfold read_array at 1.
      by rewrite (lookup_weaken _ _ _ _ Hla Ha). }
    unfold array_push. rewrite read_array_insert, Hsame.
    repeat split; try reflexivity.
    + destruct H1 as (E & _), H2 as (E' & _). simpl. congruence.
    + destruct H1 as (_ & Hl1 & _), H2 as (_ & Hl2 & _). simpl. by etrans.
    + destruct H1 as (_ & _ & Ha1 & _), H2 as (_ & _ & Ha2 & _). simpl.
      apply insert_subseteq_r; [by apply not_elem_of_dom | by etrans].
    + destruct H1 as (_ & _ & _ & E), H2 as (_ & _ & _ & E').
      change (surroundings w2 = surroundings w). congruence.
    + exact Hfresh.
    + apply Forall_app. split; [exact Hnew |].
      constructor; [| constructor].
      destruct H1 as (_ & Hl1 & _). intros Hin. apply Hlw.
      apply elem_of_dom. apply elem_of_dom in Hin as [x Hx].
      exists x. by eapply lookup_weaken.
    + unfold read_links. rewrite read_array_insert. simpl.
      rewrite omap_app. f_equal.
      * apply omap_Forall2. destruct H2 as (_ & Hl2 & _).
        by eapply Forall2_lookup_weaken.
      * simpl. by rewrite Hobj, lookup_insert_eq.
  - intros [= <- <-]. simpl. repeat split; try apply H1; try done.
    rewrite app_nil_r. unfold read_links at 1. by apply omap_Forall2.
Qed.

Lemma only_allocates_maps (w w' : World) :
  only_allocates w w' → maps w' = maps w.
Proof. by intros (H & _). Qed.

Lemma alloc_map_spec (m : gmap string Descriptor) (w w' : World) (l : loc) :
  alloc_map m w = (l, w') →
  (l ∉ dom (maps w))
  ∧ maps w' = <[l := m]> (maps w)
  ∧ linkObjects w' = linkObjects w
  ∧ arrays w' = arrays w
  ∧ surroundings w' = surroundings w.
Proof.
  unfold alloc_map. intros [= <- <-]. split; [apply is_fresh | done].
Qed.

(** ** The constructor *)

Lemma populate_spec (i : string) (d : Description) (w w' : World) (t : Thing) :
  populate i d w = (w', t) → populated i d w w' t.
Proof.
  unfold populate.
  destruct (alloc_map ∅ w) as [lp w1] eqn:E1.
  destruct (alloc_map (or_object (in_actions d) ∅) w1) as [la w2] eqn:E2.
  destruct (alloc_map (or_object (in_events d) ∅) w2) as [le w3] eqn:E3.
  destruct (alloc_map_spec _ _ _ _ E1) as (F1 & M1 & L1 & A1 & S1).
  destruct (alloc_map_spec _ _ _ _ E2) as (F2 & M2 & L2 & A2 & S2).
  destruct (alloc_map_spec _ _ _ _ E3) as (F3 & M3 & L3 & A3 & S3).
  assert (lp ≠ la) as Hpa.
  { intros ->. apply F2. rewrite M1, dom_insert_L. set_solver. }
  assert (lp ≠ le) as Hpe.
  { intros ->. apply F3. rewrite M2, M1, !dom_insert_L. set_solver. }
  assert (la ≠ le) as Hae.
  { intros ->. apply F3. rewrite M2, dom_insert_L. set_solver. }
  set (h := Constants.THINGS_PATH +:+ "/" +:+ i).
  set (w4 := match in_properties d with Some _ => _ | None => _ end).
  assert (maps w4 !! lp
          = Some (with_hrefs (h +:+ "/properties")
                    (or_object (in_properties d) ∅))) as P4.
  { subst w4. destruct (in_properties d) as [ps|]; simpl.
    - rewrite lookup_insert_eq. reflexivity.
    - rewrite M3, M2, M1, !lookup_insert_ne, lookup_insert_eq by done.
      unfold with_hrefs. by rewrite map_imap_empty. }
  assert (maps w4 !! la = Some (or_object (in_actions d) ∅)) as Q4.
  { subst w4. destruct (in_properties d) as [ps|]; simpl.
    - rewrite lookup_insert_ne by done.
      by rewrite M3, M2, lookup_insert_ne, lookup_insert_eq.
    - by rewrite M3, M2, lookup_insert_ne, lookup_insert_eq. }
  assert (maps w4 !! le = Some (or_object (in_events d) ∅)) as R4.
  { subst w4. destruct (in_properties d) as [ps|]; simpl.
    - rewrite lookup_insert_ne by done. by rewrite M3, lookup_insert_eq.
    - by rewrite M3, lookup_insert_eq. }
  assert (surroundings w4 = surroundings w) as S4.
  { subst w4. transitivity (surroundings w3); [| congruence].
    by destruct (in_properties d). }
  clearbody w4.
  match goal with
  | |- context [alloc_links ?ks w4] =>
      destruct (alloc_links ks w4) as [ls w5] eqn:E5
  end.
  destruct (alloc_array ls w5) as [ll w6] eqn:E6.
  match goal with
  | |- context [alloc_link ?k w6] =>
      destruct (alloc_link k w6) as [lu w7] eqn:E7
  end.
  destruct (alloc_links_spec _ _ _ _ E5) as (H5 & Hread & _).
  destruct (alloc_array_spec _ _ _ _ E6) as (_ & Harr & H6).
  destruct (alloc_link_spec _ _ _ _ E7) as (_ & Hobj & H7).
  assert (maps w7 = maps w4) as M7.
  { destruct H5 as (E5' & _), H6 as (E6' & _), H7 as (E7' & _). congruence. }
  assert (surroundings w7 = surroundings w) as S7.
  { destruct H5 as (_ & _ & _ & E5'), H6 as (_ & _ & _ & E6'),
      H7 as (_ & _ & _ & E7'). congruence. }
  assert (read_array w7 ll = ls) as Hll.
  { unfold read_array. destruct H7 as (_ & _ & Ha & _).
    erewrite lookup_weaken; [reflexivity | | exact Ha].
    by rewrite Harr, lookup_insert_eq. }
  assert (Forall2 (λ o k, linkObjects w7 !! o = Some k) (ls ++ [lu])
            (base_links h ++ [uiLink d h])) as Hall.
  { apply Forall2_app.
    - eapply Forall2_lookup_weaken; [| exact Hread].
      destruct H6 as (_ & Hl6 & _), H7 as (_ & Hl7 & _). by etrans.
    - constructor; [| constructor]. by rewrite Hobj, lookup_insert_eq. }
  intros [= <- <-]. unfold array_push. rewrite Hll.
  split; simpl; try reflexivity; try done.
  - rewrite lookup_insert_ne, lookup_insert_ne, M7 by done. exact P4.
  - rewrite lookup_insert_ne, lookup_insert_eq by done.
    unfold read_map. simpl. by rewrite M7, Q4.
  - rewrite lookup_insert_eq. unfold read_map. simpl.
    by rewrite lookup_insert_ne, M7, R4.
  - unfold read_links, read_array. simpl. rewrite lookup_insert_eq. simpl.
    by apply omap_Forall2.
  - exists (ls ++ [lu]). simpl. rewrite lookup_insert_eq. split; [done |].
    clear -Hall. induction Hall; constructor; eauto.
Qed.

Lemma lookup_with_hrefs (base : string) (m : gmap string Descriptor)
    (n : string) :
  with_hrefs base m !! n = set_href (base +:+ "/" +:+ n) <$> m !! n.
Proof.
  unfold with_hrefs. rewrite map_lookup_imap. by destruct (m !! n).
Qed.

(** *** setIcon: what it leaves alone *)

Lemma set_iconHref_eta (t : Thing) : set_iconHref (iconHref t) t = t.
Proof. by destruct t. Qed.

Lemma unlinkOldIcon_thing (refused : bool) (t : Thing) (w : World) :
  ∃ v, (unlinkOldIcon refused t w).2 = set_iconHref v t.
Proof.
  unfold unlinkOldIcon. destruct (truthy (iconHref t)); simpl.
  - by exists None.
  - exists (iconHref t). by rewrite set_iconHref_eta.
Qed.

Lemma unlinkOldIcon_store (refused : bool) (t : Thing) (w : World) :
  let w' := (unlinkOldIcon refused t w).1 in
  maps w' = maps w ∧ linkObjects w' = linkObjects w ∧ arrays w' = arrays w
  ∧ readyState w' = readyState w ∧ closeRequests w' = closeRequests w
  ∧ database w' = database w ∧ delivered w' = delivered w.
Proof.
  unfold unlinkOldIcon. destruct (truthy (iconHref t)); [| done].
  cbn zeta. by destruct (fs_unlinkSync _ _ _).
Qed.

Lemma setIcon_thing (icon : IconData) (u : bool) (env : IconEnv) (t : Thing)
    (w : World) :
  ∃ v, (setIcon icon u env t w).1.2 = set_iconHref v t.
Proof.
  unfold setIcon.
  destruct (unlinkOldIcon_thing (unlinkRefused env) t w) as [v Hv].
  destruct (unlinkOldIcon (unlinkRefused env) t w) as [w1 t1].
  simpl in Hv. subst t1.
  repeat case_match; simpl; eauto; try (eexists; by rewrite set_iconHref_eta).
Qed.

Lemma setIcon_store (icon : IconData) (env : IconEnv) (t : Thing) (w : World) :
  let w' := (setIcon icon false env t w).1.1 in
  maps w' = maps w ∧ linkObjects w' = linkObjects w ∧ arrays w' = arrays w
  ∧ readyState w' = readyState w ∧ closeRequests w' = closeRequests w
  ∧ database w' = database w ∧ delivered w' = delivered w.
Proof.
  unfold setIcon.
  pose proof (unlinkOldIcon_store (unlinkRefused env) t w) as H.
  destruct (unlinkOldIcon (unlinkRefused env) t w) as [w1 t1].
  simpl in H. repeat case_match; simpl; done.
Qed.

Lemma construct_populate (i : string) (d : Description) (env : IconEnv)
    (w w' : World) (t : Thing) :
  construct i d env w = (w', t) →
  ∃ w0 t0 v,
    populate i d w = (w0, t0) ∧ t = set_iconHref v t0
    ∧ maps w' = maps w0 ∧ linkObjects w' = linkObjects w0
    ∧ arrays w' = arrays w0.
Proof.
  unfold construct. destruct (populate i d w) as [w0 t0].
  destruct (truthy (in_iconHref d)).
  - intros [= <- <-]. by exists w0, t0, (in_iconHref d).
  - destruct (in_iconData d) as [icon|].
    + intros E. destruct (setIcon_thing icon false env t0 w0) as [v Hv].
      destruct (setIcon_store icon env t0 w0) as (Hm & Hl & Ha & _).
      rewrite E in Hv, Hm, Hl, Ha. simpl in *. by exists w0, t0, v.
    + intros [= <- <-]. exists w0, t0, (iconHref t0).
      by rewrite set_iconHref_eta.
Qed.

(** A non-empty [id] and a description always give a Thing. *)
Lemma Thing_new_constructs (i : string) (d : Description) (env : IconEnv)
    (w : World) :
  i ≠ "" →
  Thing_new (Some i) (Some d) env w
  = ((construct i d env w).1, Some (construct i d env w).2).
Proof.
  intros Hi. unfold Thing_new, truthy.
  destruct (String.eqb_spec i ""); [done |]. simpl.
  by destruct (construct i d env w).
Qed.

(** ** Construction *)

(** C3: with an absent or empty id, or an absent description, the
    constructor logs its complaint and returns before any member is set,
    so there is no Thing, partial or otherwise, and the world is otherwise
    as it was; with a non-empty id and a description it yields a Thing with
    that id in which every absent optional member has its default: name,
    type and description the empty string, @context the default schema URI,
    @type empty, properties, actions and events empty maps. *)
Theorem Thing_new_arguments_and_defaults (i : option string)
    (d : option Description) (env : IconEnv) (w : World) :
  (i = None ∨ i = Some "" ∨ d = None →
   Thing_new i d env w
   = (console_error "id and description needed to create new Thing" w, None))
  ∧ (∀ i' d', i = Some i' → i' ≠ "" → d = Some d' →
     ∃ w' t,
       Thing_new i d env w = (w', Some t)
       ∧ id t = i'
       ∧ (in_name d' = None → name t = "")
       ∧ (in_type d' = None → type t = "")
       ∧ (in_description d' = None → description t = "")
       ∧ (in_context d' = None → context t = "https://iot.mozilla.org/schemas")
       ∧ (in_atType d' = None → atType t = [])
       ∧ (in_properties d' = None → maps w' !! properties t = Some ∅)
       ∧ (in_actions d' = None → maps w' !! actions t = Some ∅)
       ∧ (in_events d' = None → maps w' !! events t = Some ∅)).
Proof.
  split.
  - intros [-> | [-> | ->]]; unfold Thing_new; simpl.
    + by destruct d.
    + by destruct d.
    + reflexivity.
  - intros i' d' -> Hi ->.
    rewrite (Thing_new_constructs i' d' env w Hi).
    destruct (construct i' d' env w) as [w' t] eqn:E.
    exists w', t. split; [reflexivity |].
    destruct (construct_populate _ _ _ _ _ _ E)
      as (w0 & t0 & v & Hp & -> & Hm & _).
    destruct (populate_spec _ _ _ _ _ Hp). simpl. rewrite Hm.
    repeat split; try done.
    + intros H. by rewrite pop_name0, H.
    + intros H. by rewrite pop_type0, H.
    + intros H. by rewrite pop_description0, H.
    + intros H. by rewrite pop_context0, H.
    + intros H. by rewrite pop_atType0, H.
    + intros H. rewrite pop_properties0, H. simpl.
      unfold with_hrefs. by rewrite map_imap_empty.
    + intros H. rewrite pop_actions0, H. simpl.
      unfold with_hrefs. by rewrite map_imap_empty.
    + intros H. rewrite pop_events0, H. simpl.
      unfold with_hrefs. by rewrite map_imap_empty.
Qed.


(** ** getDescription *)

Lemma read_links_stable (w w' : World) (t : Thing) :
  links_allocated w t →
  linkObjects w ⊆ linkObjects w' →
  arrays w ⊆ arrays w' →
  read_links w' (links t) = read_links w (links t).
Proof.
  intros (a & Ha & Hall) Hl Harr. unfold read_links, read_array.
  rewrite Ha, (lookup_weaken _ _ _ _ Ha Harr). simpl. clear Ha.
  induction Hall as [|o a [k Hk] _ IH]; [reflexivity |].
  simpl. rewrite Hk, (lookup_weaken _ _ _ _ Hk Hl). by f_equal.
Qed.

Lemma construct_links (i : string) (d : Description) (env : IconEnv)
    (w w' : World) (t : Thing) :
  construct i d env w = (w', t) →
  links_allocated w' t
  ∧ read_links w' (links t) = base_links (href t) ++ [uiLink d (href t)].
Proof.
  intros E.
  destruct (construct_populate _ _ _ _ _ _ E)
    as (w0 & t0 & v & Hp & -> & _ & Hl & Ha).
  destruct (populate_spec _ _ _ _ _ Hp).
  assert (links_allocated w' (set_iconHref v t0)) as Halloc.
  { destruct pop_links_allocated0 as (a & H1 & H2). exists a.
    simpl. by rewrite Hl, Ha. }
  split; [exact Halloc |].
  change (href (set_iconHref v t0)) with (href t0).
  rewrite <- pop_links0. unfold read_links, read_array. simpl.
  by rewrite Hl, Ha.
Qed.

(** C7: [getDescription] leaves the Thing and every object in the store
    as they are (it only makes new link objects and a new array), and the
    links it returns are the Thing's links followed, exactly when a request
    host is given, by one more alternate link whose href is [wss://],
    or [ws://] when the request is not secure, then the host, then the
    Thing's href.  On a Thing as constructed that link comes right after
    the UI alternate link, and without a host the list ends with the UI
    link. *)
Theorem getDescription_links (reqHost : option string) (reqSecure : bool)
    (t : Thing) (w : World) :
  let '(w', d) := getDescription reqHost reqSecure t w in
  only_allocates w w'
  ∧ read_links w' (out_links d)
    = read_links w (links t)
      ++ match reqHost with
         | Some h =>
             [ {| rel := "alternate";
                  mediaType := None;
                  link_href :=
                    (if reqSecure then "wss://" else "ws://") +:+ h +:+ href t |} ]
         | None => []
         end
  ∧ (∀ i desc env w0,
       Thing_new i (Some desc) env w0 = (w, Some t) →
       read_links w (links t)
       = base_links (href t)
         ++ [ {| rel := "alternate"; mediaType := Some "text/html";
                 link_href := uiLink_href desc (href t) |} ]).
Proof.
  destruct (getDescription reqHost reqSecure t w) as [w' d] eqn:E.
  destruct (getDescription_spec _ _ _ _ _ _ E) as (H1 & _ & _ & H2 & _).
  split; [exact H1 |]. split.
  - rewrite H2. f_equal. destruct reqHost as [h|]; [| reflexivity].
    unfold wsLink. by destruct reqSecure.
  - intros i desc env w0. unfold Thing_new.
    destruct (truthy i); [| done].
    destruct (construct (default "" i) desc env w0) as [w1 t1] eqn:Ec.
    intros [= -> ->]. by destruct (construct_links _ _ _ _ _ _ Ec).
Qed.


(** ** addAction and removeAction *)

Lemma hasOwnProperty_inherited (m : gmap string Descriptor) (key : string) :
  "hasOwnProperty" ∉ dom m →
  hasOwnProperty m key = Answers (bool_decide (key ∈ dom m)).
Proof.
  intros Hfree. unfold hasOwnProperty.
  apply not_elem_of_dom in Hfree as ->. f_equal.
  apply bool_decide_ext. by rewrite elem_of_dom.
Qed.

Lemma hasOwnProperty_shadowed (m : gmap string Descriptor) (key : string) :
  "hasOwnProperty" ∈ dom m → hasOwnProperty m key = TypeError.
Proof.
  intros [x Hx]%elem_of_dom. unfold hasOwnProperty. by rewrite Hx.
Qed.


(** ** setIcon *)

Lemma mime_allowed_false (m : option string) :
  m ≠ Some "image/jpeg" → m ≠ Some "image/png" → m ≠ Some "image/svg+xml" →
  mime_allowed m = false.
Proof.
  intros H1 H2 H3. destruct m as [s|]; [| reflexivity]. simpl.
  apply bool_decide_eq_false. unfold allowed_mimes.
  rewrite !elem_of_cons, elem_of_nil. intros [-> | [-> | [-> | []]]]; done.
Qed.

(** C8: a [setIcon] whose mime is none of image/jpeg, image/png and
    image/svg+xml, or whose data is absent, reports the error on the
    console and changes nothing else: the Thing is the same, [iconHref]
    included, no file is created or deleted, nothing is persisted. *)
Theorem setIcon_rejects_invalid (iconData : IconData) (updateDatabase : bool)
    (env : IconEnv) (t : Thing) (w : World) :
  (mime iconData ≠ Some "image/jpeg" ∧ mime iconData ≠ Some "image/png"
   ∧ mime iconData ≠ Some "image/svg+xml")
  ∨ data iconData = None →
  let '(w', t', outcome) := setIcon iconData updateDatabase env t w in
  outcome = IconInvalid
  ∧ t' = t
  ∧ iconHref t' = iconHref t
  ∧ files w' = files w
  ∧ console w' = console w ++ ["Invalid icon data:"]
  ∧ database w' = database w
  ∧ maps w' = maps w ∧ linkObjects w' = linkObjects w ∧ arrays w' = arrays w.
Proof.
  intros H. unfold setIcon.
  assert (negb (truthy (data iconData)) || negb (mime_allowed (mime iconData))
          = true) as ->; [| done].
  destruct H as [(H1 & H2 & H3) | ->]; [| reflexivity].
  rewrite (mime_allowed_false _ H1 H2 H3). apply orb_true_r.
Qed.

Lemma truthy_Some (s : string) : truthy (Some s) = true ↔ s ≠ "".
Proof.
  unfold truthy. destruct (String.eqb_spec s ""); simpl; split; try done.
Qed.

Lemma Database_updateThing_frame (t : Thing) (w : World) :
  let w' := Database_updateThing t w in
  maps w' = maps w ∧ files w' = files w ∧ console w' = console w
  ∧ readyState w' = readyState w ∧ closeRequests w' = closeRequests w
  ∧ delivered w' = delivered w
  ∧ linkObjects w ⊆ linkObjects w' ∧ arrays w ⊆ arrays w'.
Proof.
  unfold Database_updateThing.
  destruct (getDescription None false t w) as [w1 d] eqn:E.
  destruct (getDescription_spec _ _ _ _ _ _ E) as ((Hm & Hl & Ha & Hs) & _).
  unfold surroundings in Hs. simpl. by simplify_eq.
Qed.

Lemma unlinkOldIcon_unset (refused : bool) (t : Thing) (w : World) :
  truthy (iconHref (unlinkOldIcon refused t w).2) = false.
Proof.
  unfold unlinkOldIcon. by destruct (truthy (iconHref t)) eqn:E.
Qed.

(** C1, as the code has it: when [iconHref] was unset or the public path
    of an existing file before the call, it is so after the call, whatever
    fails.  A rejected call leaves the Thing and the files as they were;
    a call that fails while creating or writing the new file leaves
    [iconHref] unset, the old icon having been retired before; a call that
    succeeds leaves [iconHref] at the path of a file holding the decoded
    data. *)
Theorem setIcon_keeps_icon_resolvable (iconData : IconData)
    (updateDatabase : bool) (env : IconEnv) (t : Thing) (w : World) :
  uploadsDir = path_join baseDir "uploads" →
  (∀ rnd fd, tmpAnswer env = Some (rnd, fd) → contains_sep rnd = false) →
  icon_resolves w t →
  let '(w', t', outcome) := setIcon iconData updateDatabase env t w in
  icon_resolves w' t'
  ∧ (outcome = IconInvalid → t' = t ∧ files w' = files w)
  ∧ (outcome = IconWriteFailed → truthy (iconHref t') = false)
  ∧ (outcome = IconInstalled →
     ∃ h b, iconHref t' = Some h ∧ data iconData = Some b
            ∧ files w' !! path_join baseDir h = Some (Decoded b)).
Proof.
  intros Hup Hrnd Hpre. unfold setIcon.
  destruct (negb (truthy (data iconData))
            || negb (mime_allowed (mime iconData))) eqn:Hvalid.
  { repeat split; try done. }
  apply orb_false_iff in Hvalid as [Hdata _].
  apply negb_false_iff in Hdata.
  destruct (data iconData) as [b|] eqn:Hb; [| done].
  pose proof (unlinkOldIcon_unset (unlinkRefused env) t w) as Hunset.
  destruct (unlinkOldIcon (unlinkRefused env) t w) as [w1 t1].
  simpl in Hunset.
  assert (∀ w2, icon_resolves w2 t1) as Hres1.
  { intros w2 h Hh Hne. rewrite Hh in Hunset.
    apply truthy_Some in Hne. congruence. }
  unfold tmp_fileSync.
  destruct (tmpAnswer env) as [[rnd fd]|] eqn:Hans.
  2: { repeat split; try done. }
  set (f := rnd +:+ extension_of (mime iconData)).
  assert (proper f) as Hf
    by (subst f; apply proper_tmp_name, (Hrnd _ _ eq_refl)).
  destruct (files w1 !! path_join uploadsDir f) eqn:Hexists.
  { repeat split; try done. }
  unfold fs_writeFileSync. destruct (writeRefused env).
  { simpl. repeat split; try done. }
  cbn [tmp_name]. simpl default.
  set (h := path_join "/uploads" (path_basename (path_join uploadsDir f))).
  assert (path_join baseDir h = path_join uploadsDir f) as Hpath
    by (by apply uploaded_file_path).
  assert (∀ w2, files w2 = <[path_join uploadsDir f := Decoded b]>
                            (<[path_join uploadsDir f := EmptyFile]> (files w1)) →
                icon_resolves w2 (set_iconHref (Some h) t1)
                ∧ files w2 !! path_join baseDir h = Some (Decoded b)) as Hok.
  { intros w2 Hw2. rewrite Hpath, Hw2, lookup_insert_eq. split; [| done].
    intros h' [= <-] _. by rewrite Hpath, Hw2, lookup_insert_eq. }
  destruct updateDatabase.
  - destruct (Database_updateThing_frame (set_iconHref (Some h) t1)
                (set_files (<[path_join uploadsDir f := Decoded b]>
                   (<[path_join uploadsDir f := EmptyFile]> (files w1))) w1))
      as (_ & Hfiles & _).
    destruct (Hok _ Hfiles) as [H1 H2].
    repeat split; try done. intros _. by exists h, b.
  - destruct (Hok (set_files (<[path_join uploadsDir f := Decoded b]>
                   (<[path_join uploadsDir f := EmptyFile]> (files w1))) w1)
                eq_refl) as [H1 H2].
    repeat split; try done. intros _. by exists h, b.
Qed.

(** ** dispatchEvent and the event log *)

Lemma call_listeners_calls (ls : list callback) (e : EventRecord)
    (c : callback * EventRecord) :
  c ∈ (call_listeners ls e).1 → c.1 ∈ ls ∧ c.2 = e.
Proof.
  induction ls as [|cb r IH]; simpl; [by intros ?%elem_of_nil |].
  destruct (raises cb e).
  - simpl. intros ->%list_elem_of_singleton. simpl.
    split; [apply list_elem_of_here | done].
  - destruct (call_listeners r e) as [cs k]. simpl in *.
    intros [-> | H]%elem_of_cons.
    + simpl. split; [apply list_elem_of_here | done].
    + destruct (IH H). split; [by apply list_elem_of_further | done].
Qed.

Lemma perform_eventsDispatched (r : Request) (w : World) (t : Thing) :
  eventsDispatched (perform r (w, t)).2
  = eventsDispatched t
    ++ match r with
       | DispatchEvent event => [stamp t event]
       | _ => []
       end.
Proof.
  destruct r; simpl; rewrite ?app_nil_r; try reflexivity.
  - destruct (setIcon_thing iconData updateDatabase env t w) as [v ->].
    reflexivity.
  - unfold dispatchEvent, emitter_emit.
    by destruct (call_listeners _ _).
  - unfold remove.
    destruct (unlinkOldIcon_thing refused t w) as [v Hv].
    destruct (unlinkOldIcon refused t w) as [w1 t1]. simpl in *.
    by subst t1.
Qed.

Lemma perform_all_eventsDispatched (rs : list Request) (s : World * Thing) :
  eventsDispatched s.2 `prefix_of` eventsDispatched (perform_all rs s).2.
Proof.
  revert s. induction rs as [|r rs IH]; intros [w t]; [done |].
  unfold perform_all in *. cbn [foldl]. etrans; [| apply IH].
  rewrite perform_eventsDispatched. by apply prefix_app_r.
Qed.

(** C5, as the code has it: [dispatchEvent] puts the Thing's id into
    [event.thingId] exactly when that member is absent or the empty
    string, and leaves any other thingId as it is; the event, so stamped,
    goes to the end of the event log whether or not a listener throws, and
    it is that event the listeners are called with.  No call on a Thing
    removes or reorders an entry of the log: a call leaves the log as it
    was, or one longer for [dispatchEvent], and any sequence of calls
    leaves the old log as a prefix of the new one. *)
Theorem dispatchEvent_stamps_and_appends (event : EventRecord) (t : Thing)
    (w : World) :
  let '(w', t', _) := dispatchEvent event t w in
  eventsDispatched t' = eventsDispatched t ++ [stamp t event]
  ∧ (thingId event = None ∨ thingId event = Some "" →
     stamp t event = set_thingId (Some (id t)) event)
  ∧ (∀ s, thingId event = Some s → s ≠ "" → stamp t event = event)
  ∧ (∃ calls, delivered w' = delivered w ++ calls
              ∧ ∀ c, c ∈ calls → c.1 ∈ emitter t ∧ c.2 = stamp t event)
  ∧ (∀ r s,
       eventsDispatched (perform r s).2
       = eventsDispatched s.2
         ++ match r with
            | DispatchEvent e => [stamp s.2 e]
            | _ => []
            end)
  ∧ (∀ rs s,
       eventsDispatched s.2 `prefix_of` eventsDispatched (perform_all rs s).2).
Proof.
  unfold dispatchEvent, emitter_emit. simpl.
  destruct (call_listeners (emitter t) (stamp t event)) as [cs k] eqn:E.
  simpl. split; [reflexivity |]. split.
  { unfold stamp. by intros [-> | ->]. }
  split.
  { intros s Hs Hne. unfold stamp. rewrite Hs.
    apply truthy_Some in Hne. by rewrite Hne. }
  split.
  { exists cs. split; [reflexivity |]. intros c Hc.
    apply call_listeners_calls. by rewrite E. }
  split.
  - intros r [w0 t0]. apply perform_eventsDispatched.
  - apply perform_all_eventsDispatched.
Qed.

(** ** Subscriptions *)

Lemma occurrences_cons (cb x : callback) (ls : list callback) :
  occurrences cb (x :: ls)
  = (if bool_decide (x = cb) then 1 else 0) + occurrences cb ls.
Proof.
  unfold occurrences. rewrite filter_cons.
  case_bool_decide; case_decide; done.
Qed.

Lemma occurrences_app (cb : callback) (l1 l2 : list callback) :
  occurrences cb (l1 ++ l2) = occurrences cb l1 + occurrences cb l2.
Proof. unfold occurrences. by rewrite list.filter_app, length_app. Qed.

Lemma occurrences_elem (cb : callback) (ls : list callback) :
  cb ∈ ls ↔ 0 < occurrences cb ls.
Proof.
  induction ls as [|x r IH].
  - split; [by intros ?%elem_of_nil | unfold occurrences; simpl; lia].
  - rewrite occurrences_cons, elem_of_cons, IH.
    case_bool_decide; split; try lia; intros [? | ?]; by try lia.
Qed.

Lemma occurrences_removeListener (cb cb' : callback) (ls : list callback) :
  occurrences cb' (emitter_removeListener cb ls)
  = if bool_decide (cb' = cb) then pred (occurrences cb' ls)
    else occurrences cb' ls.
Proof.
  induction ls as [|x r IH]; [by case_bool_decide |].
  cbn [emitter_removeListener].
  destruct (decide (cb' = cb)) as [-> | Hne].
  - rewrite (bool_decide_eq_true_2 (cb = cb)) in IH |- * by done.
    case_bool_decide as Hin.
    + rewrite !occurrences_cons, IH. apply occurrences_elem in Hin.
      case_bool_decide; lia.
    + assert (occurrences cb r = 0) as Hz.
      { destruct (occurrences cb r) eqn:E; [done |]. exfalso. apply Hin.
        apply occurrences_elem. lia. }
      case_bool_decide as Hx.
      * subst x. rewrite occurrences_cons, bool_decide_eq_true_2 by done.
        lia.
      * rewrite occurrences_cons, bool_decide_eq_false_2, Hz by done. done.
  - rewrite (bool_decide_eq_false_2 (cb' = cb)) in IH |- * by done.
    case_bool_decide as Hin.
    + by rewrite !occurrences_cons, IH.
    + case_bool_decide as Hx; [| done].
      subst x. rewrite occurrences_cons, bool_decide_eq_false_2; [done |].
      congruence.
Qed.

Lemma call_listeners_quiet (ls : list callback) (e : EventRecord) :
  (∀ cb, cb ∈ ls → raises cb e = false) →
  call_listeners ls e = ((λ cb, (cb, e)) <$> ls, Returned).
Proof.
  induction ls as [|cb r IH]; intros H; [reflexivity |]. simpl.
  rewrite (H cb) by apply list_elem_of_here.
  rewrite IH; [reflexivity |]. intros cb' Hcb'. apply H.
  by apply list_elem_of_further.
Qed.

Lemma received_app (cb : callback) (c1 c2 : list (callback * EventRecord)) :
  received cb (c1 ++ c2) = received cb c1 ++ received cb c2.
Proof. unfold received. by rewrite list.filter_app, fmap_app. Qed.

Lemma received_cons (cb : callback) (c : callback * EventRecord)
    (calls : list (callback * EventRecord)) :
  received cb (c :: calls)
  = if bool_decide (c.1 = cb) then c.2 :: received cb calls
    else received cb calls.
Proof.
  unfold received. rewrite filter_cons.
  case_decide; case_bool_decide; done.
Qed.

Lemma received_round (cb : callback) (ls : list callback) (e : EventRecord) :
  received cb ((λ x, (x, e)) <$> ls) = replicate (occurrences cb ls) e.
Proof.
  induction ls as [|x r IH]; [reflexivity |].
  rewrite occurrences_cons, fmap_cons, received_cons, IH.
  cbn [fst snd]. by case_bool_decide.
Qed.

(** A run of dispatches during which no listener throws. *)
Lemma dispatch_run (es : list EventRecord) (cb : callback) (t : Thing)
    (w : World) :
  (∀ l e, l ∈ emitter t → e ∈ es → raises l (stamp t e) = false) →
  let s' := perform_all (DispatchEvent <$> es) (w, t) in
  received cb (delivered s'.1)
  = received cb (delivered w)
    ++ flat_map (λ e, replicate (registrations cb t) (stamp t e)) es
  ∧ emitter s'.2 = emitter t.
Proof.
  intros Hq. revert t w Hq. induction es as [|e es IH]; intros t w Hq.
  - simpl. by rewrite app_nil_r.
  - unfold perform_all in *. rewrite fmap_cons. cbn [foldl flat_map].
    unfold perform at 2 4. unfold dispatchEvent, emitter_emit.
    cbn [emitter set_eventsDispatched].
    rewrite call_listeners_quiet
      by (intros l Hl; apply (Hq l e Hl), list_elem_of_here).
    cbn [fst].
    match goal with
    | |- context [foldl _ (?w1, ?t1) _] =>
        destruct (IH t1 w1) as [H1 H2];
          [intros l e' Hl He'; apply (Hq l e' Hl);
           by apply list_elem_of_further |]
    end.
    simpl in H1, H2. simpl. rewrite H1, H2. split; [| done].
    rewrite received_app, received_round, <- app_assoc. done.
Qed.

(** C2, as the code has it: in a run of dispatches during which no
    listener throws, that is, no subscribed listener throws on any of the
    events of the run as it is called with them, every listener is called
    with every event once for each registration it holds, in dispatch
    order.  A listener registered
    exactly once is therefore called exactly once per event, and one with
    no registration (not added yet, or with every registration removed) is
    not called at all.  Dispatching leaves the registrations alone;
    [addEventSubscription] adds one registration, also for a listener that
    is registered already, and [removeEventSubscription] removes one. *)
Theorem listeners_called_once_per_registration (es : list EventRecord)
    (cb : callback) (t : Thing) (w : World) :
  (∀ l e, l ∈ emitter t → e ∈ es → raises l (stamp t e) = false) →
  let s' := perform_all (DispatchEvent <$> es) (w, t) in
  received cb (delivered s'.1)
  = received cb (delivered w)
    ++ flat_map (λ e, replicate (registrations cb t) (stamp t e)) es
  ∧ (registrations cb t = 1 →
     received cb (delivered s'.1)
     = received cb (delivered w) ++ (stamp t <$> es))
  ∧ (registrations cb t = 0 →
     received cb (delivered s'.1) = received cb (delivered w))
  ∧ emitter s'.2 = emitter t
  ∧ registrations cb (addEventSubscription cb t) = S (registrations cb t)
  ∧ registrations cb (removeEventSubscription cb t)
    = pred (registrations cb t)
  ∧ (∀ cb', cb' ≠ cb →
       registrations cb' (addEventSubscription cb t) = registrations cb' t
       ∧ registrations cb' (removeEventSubscription cb t)
         = registrations cb' t).
Proof.
  intros Hq. destruct (dispatch_run es cb t w Hq) as [H1 H2].
  cbn zeta. split; [exact H1 |]. split.
  { intros Hone. rewrite H1, Hone. apply (f_equal (app _)).
    clear. induction es as [|e es IH]; [reflexivity |].
    cbn [flat_map replicate]. rewrite fmap_cons. simpl. by f_equal. }
  split.
  { intros Hzero. rewrite H1, Hzero.
    replace (flat_map _ es) with (@nil EventRecord); [by rewrite app_nil_r |].
    clear. induction es as [|e es IH]; [reflexivity |]. simpl. exact IH. }
  split; [exact H2 |].
  unfold registrations, addEventSubscription, removeEventSubscription,
    emitter_on.
  cbn [emitter set_emitter]. split.
  { rewrite occurrences_app, occurrences_cons.
    rewrite bool_decide_eq_true_2 by done. unfold occurrences at 2.
    simpl. lia. }
  split.
  { rewrite occurrences_removeListener.
    by rewrite bool_decide_eq_true_2. }
  intros cb' Hne. split.
  - rewrite occurrences_app, occurrences_cons.
    rewrite bool_decide_eq_false_2 by congruence. unfold occurrences at 2.
    simpl. lia.
  - rewrite occurrences_removeListener.
    by rewrite bool_decide_eq_false_2.
Qed.

(** ** remove *)

Lemma live_dec (w : World) (ws : socket) : {live w ws} + {¬ live w ws}.
Proof.
  unfold live. destruct (readyState w ws); auto; right; intros [|]; done.
Qed.

Lemma close_round (l : list socket) (w : World) :
  let w' := foldl close_if_live w l in
  ∃ new,
    closeRequests w' = closeRequests w ++ new
    ∧ NoDup new
    ∧ (∀ ws, ws ∈ new ↔ ws ∈ l ∧ live w ws)
    ∧ (∀ ws, readyState w' ws
             = if bool_decide (ws ∈ new) then CLOSING else readyState w ws)
    ∧ maps w' = maps w ∧ linkObjects w' = linkObjects w
    ∧ arrays w' = arrays w ∧ files w' = files w ∧ console w' = console w
    ∧ database w' = database w ∧ delivered w' = delivered w.
Proof.
  revert w. induction l as [|x l IH]; intros w; cbn zeta.
  - exists []. simpl. rewrite app_nil_r.
    split; [done |]. split; [apply NoDup_nil_2 |].
    split; [| done].
    intros ws. split; [by intros ?%elem_of_nil |].
    by intros [?%elem_of_nil _].
  - cbn [foldl]. destruct (live_dec w x) as [Hx | Hx].
    + assert (close_if_live w x = ws_close x w) as ->.
      { unfold close_if_live. by destruct Hx as [-> | ->]. }
      destruct (IH (ws_close x w))
        as (new & Hreq & Hnd & Hmem & Hst & Hrest).
      assert (∀ ws, live (ws_close x w) ws ↔ ws ≠ x ∧ live w ws) as Hlive.
      { intros ws. unfold live, ws_close. simpl.
        destruct (decide (ws = x)) as [-> | Hne].
        - rewrite fn_lookup_insert. split; [by intros [|] | by intros []].
        - rewrite fn_lookup_insert_ne by done. tauto. }
      assert (x ∉ new) as Hxnew.
      { intros Hin%Hmem. destruct Hin as [_ Hin%Hlive]. tauto. }
      exists (x :: new). rewrite Hreq. cbn [closeRequests ws_close
        set_closeRequests set_readyState]. rewrite <- app_assoc.
      split; [done |]. split; [by apply NoDup_cons_2 |].
      split; [| split; [| exact Hrest]].
      * intros ws. rewrite !elem_of_cons, Hmem, Hlive.
        destruct (decide (ws = x)) as [-> | Hne]; tauto.
      * intros ws. rewrite Hst.
        destruct (decide (ws = x)) as [-> | Hne].
        -- rewrite (bool_decide_eq_true_2 (x ∈ x :: new))
             by apply list_elem_of_here.
           rewrite (bool_decide_eq_false_2 (x ∈ new)) by done.
           unfold ws_close. simpl. apply fn_lookup_insert.
        -- unfold ws_close. simpl. rewrite fn_lookup_insert_ne by done.
           destruct (decide (ws ∈ new)) as [Hin | Hnin].
           ++ rewrite !bool_decide_eq_true_2;
                [done | by apply list_elem_of_further | done].
           ++ rewrite !bool_decide_eq_false_2; [done | | done].
              rewrite elem_of_cons. tauto.
    + assert (close_if_live w x = w) as ->.
      { unfold close_if_live, live in *.
        destruct (readyState w x); tauto. }
      destruct (IH w) as (new & Hreq & Hnd & Hmem & Hst & Hrest).
      exists new. split; [done |]. split; [done |].
      split; [| split; [exact Hst | exact Hrest]].
      intros ws. rewrite elem_of_cons, Hmem.
      destruct (decide (ws = x)) as [-> | Hne]; tauto.
Qed.

Lemma unlinkOldIcon_set (refused : bool) (t : Thing) (w : World) (h : string) :
  iconHref t = Some h → h ≠ "" →
  unlinkOldIcon refused t w
  = (match fs_unlinkSync refused (inl (path_join baseDir h)) (files w) with
     | Some fs => set_files fs w
     | None => console_error "Failed to remove old icon:" w
     end,
     set_iconHref None t).
Proof.
  intros Hh Hne. unfold unlinkOldIcon. rewrite Hh.
  by rewrite (proj2 (truthy_Some h) Hne).
Qed.

(** C9: [remove] asks exactly the registered sockets that are open or
    connecting to close, each once, and leaves the state of every other
    socket as it is.  Afterwards no icon is set: an icon that was set is
    unlinked when the file is there and the unlink is not refused, and
    otherwise the failure is logged and the files stay as they are; with no
    icon set, as after a first [remove], the Thing, the files and the
    console are untouched. *)
Theorem remove_closes_live_sessions (refused : bool) (t : Thing) (w : World) :
  let '(w', t') := remove refused t w in
  (∃ new,
     closeRequests w' = closeRequests w ++ new
     ∧ NoDup new
     ∧ (∀ ws, ws ∈ new
              ↔ ws ∈ websockets t
                ∧ (readyState w ws = OPEN ∨ readyState w ws = CONNECTING))
     ∧ (∀ ws, readyState w' ws
              = if bool_decide (ws ∈ new) then CLOSING else readyState w ws))
  ∧ truthy (iconHref t') = false
  ∧ websockets t' = websockets t
  ∧ (∀ h, iconHref t = Some h → h ≠ "" →
       iconHref t' = None
       ∧ (refused = false → is_Some (files w !! path_join baseDir h) →
          files w' = delete (path_join baseDir h) (files w)
          ∧ console w' = console w)
       ∧ (refused = true ∨ files w !! path_join baseDir h = None →
          files w' = files w
          ∧ console w' = console w ++ ["Failed to remove old icon:"]))
  ∧ (truthy (iconHref t) = false →
     t' = t ∧ files w' = files w ∧ console w' = console w).
Proof.
  unfold remove.
  pose proof (unlinkOldIcon_unset refused t w) as Hunset.
  pose proof (unlinkOldIcon_store refused t w) as Hstore.
  destruct (unlinkOldIcon_thing refused t w) as [v Hv].
  destruct (unlinkOldIcon refused t w) as [w1 t1] eqn:E.
  cbn [fst snd] in *. cbn zeta in Hstore.
  destruct Hstore as (_ & _ & _ & Hrs & Hcr & _).
  destruct (close_round (websockets t1) w1)
    as (new & Hreq & Hnd & Hmem & Hst & _ & _ & _ & Hf & Hc & _).
  cbn zeta in *. subst t1. cbn [websockets set_iconHref] in *.
  split.
  { exists new. rewrite Hreq, Hcr. split; [done |]. split; [done |].
    split.
    - intros ws. rewrite Hmem. unfold live. by rewrite Hrs.
    - intros ws. by rewrite Hst, Hrs. }
  split; [exact Hunset |]. split; [reflexivity |].
  rewrite Hf, Hc. split.
  - intros h Hh Hne.
    pose proof (unlinkOldIcon_set refused t w h Hh Hne) as E'.
    rewrite E in E'. injection E' as Hw1 Ht1. rewrite Ht1, Hw1.
    split; [reflexivity |]. unfold fs_unlinkSync. split.
    + intros -> [x Hx]. by rewrite Hx.
    + intros [-> | Hx]; [done |]. rewrite Hx. by destruct refused.
  - intros Hnone. revert E. unfold unlinkOldIcon. rewrite Hnone.
    by intros [= <- <-].
Qed.

(** ** What every call leaves alone *)

Lemma same_identity_refl (t : Thing) : same_identity t t.
Proof. by repeat split. Qed.

Lemma same_identity_trans (t1 t2 t3 : Thing) :
  same_identity t1 t2 → same_identity t2 t3 → same_identity t1 t3.
Proof.
  unfold same_identity. intros (? & ? & ? & ? & ? & ?) (? & ? & ? & ? & ? & ?).
  repeat split; congruence.
Qed.

Lemma setIcon_frame (icon : IconData) (u : bool) (env : IconEnv) (t : Thing)
    (w : World) :
  let w' := (setIcon icon u env t w).1.1 in
  maps w' = maps w ∧ linkObjects w ⊆ linkObjects w' ∧ arrays w ⊆ arrays w'
  ∧ readyState w' = readyState w ∧ closeRequests w' = closeRequests w
  ∧ delivered w' = delivered w.
Proof.
  destruct u.
  - unfold setIcon.
    pose proof (unlinkOldIcon_store (unlinkRefused env) t w) as H.
    destruct (unlinkOldIcon (unlinkRefused env) t w) as [w1 t1].
    cbn zeta in H. cbn [fst snd] in H.
    destruct H as (Hm & Hl & Ha & Hr & Hc & _ & Hd).
    destruct (negb (truthy (data icon)) || negb (mime_allowed (mime icon)));
      [done |].
    destruct (tmp_fileSync _ _ _ _) as [[tempfile fs2]|];
      [| cbn; rewrite Hm, Hl, Ha, Hr, Hc, Hd; done].
    destruct (fs_writeFileSync _ _ _ _) as [fs3|];
      [| cbn; rewrite Hm, Hl, Ha, Hr, Hc, Hd; done].
    match goal with
    | |- context [Database_updateThing ?t2 ?w2] =>
        destruct (Database_updateThing_frame t2 w2)
          as (Gm & _ & _ & Gr & Gc & Gd & Gl & Ga)
    end.
    cbn [fst snd]. cbn zeta. rewrite Gm, Gr, Gc, Gd. cbn.
    rewrite Hm, Hr, Hc, Hd. repeat split; try done.
    + etrans; [| exact Gl]. cbn. by rewrite Hl.
    + etrans; [| exact Ga]. cbn. by rewrite Ha.
  - destruct (setIcon_store icon env t w) as (Hm & Hl & Ha & Hr & Hc & _ & Hd).
    cbn zeta. rewrite Hm, Hl, Ha, Hr, Hc, Hd. done.
Qed.

Lemma perform_frame (r : Request) (w : World) (t : Thing) :
  let s' := perform r (w, t) in
  maps s'.1 = maps w ∧ linkObjects w ⊆ linkObjects s'.1
  ∧ arrays w ⊆ arrays s'.1 ∧ same_identity t s'.2.
Proof.
  destruct r; cbn zeta; cbn [perform].
  - unfold setCoordinates. cbn [fst snd].
    destruct (Database_updateThing_frame (set_floorplan x y t) w)
      as (Hm & _ & _ & _ & _ & _ & Hl & Ha).
    repeat split; done.
  - unfold setName. cbn [fst snd].
    destruct (Database_updateThing_frame (set_name n t) w)
      as (Hm & _ & _ & _ & _ & _ & Hl & Ha).
    repeat split; done.
  - destruct (setIcon_frame iconData updateDatabase env t w)
      as (Hm & Hl & Ha & _).
    destruct (setIcon_thing iconData updateDatabase env t w) as [v Hv].
    rewrite Hv. repeat split; done.
  - unfold setSelectedCapability. cbn [fst snd].
    destruct (Database_updateThing_frame (set_selectedCapability c t) w)
      as (Hm & _ & _ & _ & _ & _ & Hl & Ha).
    repeat split; done.
  - unfold dispatchEvent, emitter_emit.
    destruct (call_listeners _ _) as [cs k]. repeat split; done.
  - repeat split; done.
  - repeat split; done.
  - destruct (getDescription reqHost reqSecure t w) as [w' d] eqn:E.
    destruct (getDescription_spec _ _ _ _ _ _ E) as ((Hm & Hl & Ha & _) & _).
    repeat split; done.
  - repeat split; done.
  - unfold remove.
    pose proof (unlinkOldIcon_store refused t w) as H.
    destruct (unlinkOldIcon_thing refused t w) as [v Hv].
    destruct (unlinkOldIcon refused t w) as [w1 t1].
    cbn zeta in H. cbn [fst snd] in *. subst t1.
    destruct H as (Hm & Hl & Ha & _).
    destruct (close_round (websockets (set_iconHref v t)) w1)
      as (new & _ & _ & _ & _ & Gm & Gl & Ga & _).
    cbn zeta in *. rewrite Gm, Gl, Ga, Hm, Hl, Ha. repeat split; done.
  - repeat split; done.
  - repeat split; done.
Qed.

Lemma perform_all_frame (rs : list Request) (w : World) (t : Thing) :
  let s' := perform_all rs (w, t) in
  maps s'.1 = maps w ∧ linkObjects w ⊆ linkObjects s'.1
  ∧ arrays w ⊆ arrays s'.1 ∧ same_identity t s'.2.
Proof.
  revert w t. induction rs as [|r rs IH]; intros w t; cbn zeta.
  - repeat split; try done.
  - unfold perform_all in *. cbn [foldl].
    destruct (perform_frame r w t) as (Hm & Hl & Ha & Hi).
    destruct (perform r (w, t)) as [w1 t1]. cbn [fst snd] in *.
    destruct (IH w1 t1) as (Gm & Gl & Ga & Gi). cbn zeta in *.
    split; [congruence |]. split; [by etrans |]. split; [by etrans |].
    by eapply same_identity_trans.
Qed.

Lemma stamp_same_id (t t' : Thing) (e : EventRecord) :
  id t' = id t → stamp t' e = stamp t e.
Proof. unfold stamp. by intros ->. Qed.

Lemma dispatched_same_id (t t' : Thing) (rs : list Request) :
  id t' = id t → dispatched t' rs = dispatched t rs.
Proof.
  intros Hid. unfold dispatched. induction rs as [|r rs IH]; [reflexivity |].
  cbn [omap list_omap]. rewrite IH.
  destruct r; try reflexivity. by rewrite (stamp_same_id t t' _ Hid).
Qed.

(** X1: no call on a Thing assigns its id, its href, or the references to
    its properties, actions, events and links; no call changes an entry of
    any descriptor map; and the links of a Thing read the same after any
    sequence of calls. *)
Theorem calls_keep_identity_and_descriptors (rs : list Request) (w : World)
    (t : Thing) :
  let s' := perform_all rs (w, t) in
  id s'.2 = id t ∧ href s'.2 = href t
  ∧ properties s'.2 = properties t ∧ actions s'.2 = actions t
  ∧ events s'.2 = events t ∧ links s'.2 = links t
  ∧ (∀ l, read_map s'.1 l = read_map w l)
  ∧ (links_allocated w t → read_links s'.1 (links s'.2) = read_links w (links t)).
Proof.
  destruct (perform_all_frame rs w t) as (Hm & Hl & Ha & Hi).
  cbn zeta in *. destruct Hi as (H1 & H2 & H3 & H4 & H5 & H6).
  repeat split; try done.
  - intros l. unfold read_map. by rewrite Hm.
  - intros Halloc. rewrite H6. by apply read_links_stable.
Qed.

(** X2: after any sequence of calls the event log is the old log followed
    by the events of the [dispatchEvent] calls of the sequence, stamped, in
    the order of the calls, whatever the listeners did. *)
Theorem log_is_the_dispatch_history (rs : list Request) (w : World) (t : Thing) :
  eventsDispatched (perform_all rs (w, t)).2
  = eventsDispatched t ++ dispatched t rs.
Proof.
  revert w t. induction rs as [|r rs IH]; intros w t.
  - cbn. by rewrite app_nil_r.
  - unfold perform_all in *. cbn [foldl].
    pose proof (perform_eventsDispatched r w t) as Hr.
    destruct (perform_frame r w t) as (_ & _ & _ & Hid & _).
    destruct (perform r (w, t)) as [w1 t1]. cbn [fst snd] in *.
    rewrite IH, Hr, (dispatched_same_id t t1 rs Hid), <- app_assoc.
    f_equal. unfold dispatched. cbn [omap list_omap].
    by destruct r.
Qed.

Ltac confined :=
  repeat match goal with |- _ ∧ _ => split end;
  intros; try done;
  try (exfalso; match goal with H : ∀ _, _ ≠ _ |- _ => by eapply H end).

(** X3: the effects of a call are confined.  Only [setIcon] and [remove]
    touch the files, the console or [iconHref]; only the three persisting
    setters and [setIcon] reach the database; only [remove] asks a socket to
    close; only [dispatchEvent] calls a listener; only the two subscription
    methods change the listeners, and only [registerWebsocket] the registered
    sockets. *)
Theorem effects_are_confined (r : Request) (w : World) (t : Thing) :
  let s' := perform r (w, t) in
  (uses_files r = false →
   files s'.1 = files w ∧ console s'.1 = console w ∧ iconHref s'.2 = iconHref t)
  ∧ (uses_database r = false → database s'.1 = database w)
  ∧ ((∀ refused, r ≠ Remove refused) →
     readyState s'.1 = readyState w ∧ closeRequests s'.1 = closeRequests w)
  ∧ ((∀ e, r ≠ DispatchEvent e) → delivered s'.1 = delivered w)
  ∧ ((∀ cb, r ≠ AddEventSubscription cb) →
     (∀ cb, r ≠ RemoveEventSubscription cb) → emitter s'.2 = emitter t)
  ∧ ((∀ ws, r ≠ RegisterWebsocket ws) → websockets s'.2 = websockets t).
Proof.
  cbn zeta.
  assert (∀ t1, let w' := Database_updateThing t1 w in
                files w' = files w ∧ console w' = console w
                ∧ readyState w' = readyState w
                ∧ closeRequests w' = closeRequests w
                ∧ delivered w' = delivered w) as Hdb.
  { intros t1. destruct (Database_updateThing_frame t1 w)
      as (_ & ? & ? & ? & ? & ? & _). done. }
  destruct r; cbn [perform uses_files uses_database].
  - destruct (Hdb (set_floorplan x y t)) as (? & ? & ? & ? & ?).
    unfold setCoordinates. cbn [fst snd]. confined.
  - destruct (Hdb (set_name n t)) as (? & ? & ? & ? & ?).
    unfold setName. cbn [fst snd]. confined.
  - destruct (setIcon_frame iconData updateDatabase env t w)
      as (_ & _ & _ & ? & ? & ?).
    destruct (setIcon_thing iconData updateDatabase env t w) as [v Hv].
    rewrite Hv. confined.
  - destruct (Hdb (set_selectedCapability c t)) as (? & ? & ? & ? & ?).
    unfold setSelectedCapability. cbn [fst snd]. confined.
  - unfold dispatchEvent, emitter_emit.
    destruct (call_listeners _ _) as [cs k]. cbn [fst snd]. confined.
  - confined.
  - confined.
  - destruct (getDescription reqHost reqSecure t w) as [w' d] eqn:E.
    destruct (getDescription_spec _ _ _ _ _ _ E) as ((_ & _ & _ & Hs) & _).
    unfold surroundings in Hs. cbn [fst snd]. simplify_eq. confined.
  - confined.
  - unfold remove.
    pose proof (unlinkOldIcon_store refused t w) as Hs.
    destruct (unlinkOldIcon_thing refused t w) as [v Hv].
    destruct (unlinkOldIcon refused t w) as [w1 t1].
    cbn zeta in Hs. cbn [fst snd] in *. subst t1.
    destruct Hs as (_ & _ & _ & _ & _ & Hd & Hdel).
    destruct (close_round (websockets (set_iconHref v t)) w1)
      as (new & _ & _ & _ & _ & _ & _ & _ & _ & _ & Gd & Gdel).
    cbn zeta in *. rewrite Gd, Gdel, Hd, Hdel. confined.
  - confined.
  - confined.
Qed.

(** ** More on the subscriptions and on [dispatchEvent] *)

Lemma set_emitter_eta (t : Thing) : set_emitter (emitter t) t = t.
Proof. by destruct t. Qed.

Lemma emitter_removeListener_last (cb : callback) (pre post : list callback) :
  cb ∉ post →
  emitter_removeListener cb (pre ++ cb :: post) = pre ++ post.
Proof.
  intros Hpost. induction pre as [|x pre IH]; cbn [app emitter_removeListener].
  - rewrite bool_decide_eq_false_2 by done.
    by rewrite bool_decide_eq_true_2.
  - rewrite bool_decide_eq_true_2; [by rewrite IH |].
    apply elem_of_app. right. apply list_elem_of_here.
Qed.

Lemma emitter_removeListener_absent (cb : callback) (ls : list callback) :
  cb ∉ ls → emitter_removeListener cb ls = ls.
Proof.
  destruct ls as [|x r]; [done |]. intros Hnot.
  apply not_elem_of_cons in Hnot as [Hne Hr]. cbn [emitter_removeListener].
  rewrite bool_decide_eq_false_2 by done.
  rewrite bool_decide_eq_false_2; [done | congruence].
Qed.

(** X4: unsubscribing right after subscribing gives the Thing back;
    unsubscribing a listener that is not subscribed changes nothing; and
    unsubscribing removes the last subscription of the listener and leaves
    every other subscription where it was. *)
Theorem subscription_round_trip (cb : callback) (t : Thing) :
  removeEventSubscription cb (addEventSubscription cb t) = t
  ∧ (cb ∉ emitter t → removeEventSubscription cb t = t)
  ∧ (∀ pre post, emitter t = pre ++ cb :: post → cb ∉ post →
       emitter (removeEventSubscription cb t) = pre ++ post).
Proof.
  unfold removeEventSubscription, addEventSubscription, emitter_on.
  cbn [emitter set_emitter]. split; [| split].
  - rewrite (emitter_removeListener_last cb (emitter t) [])
      by apply not_elem_of_nil.
    rewrite app_nil_r. by destruct t.
  - intros Hnot. rewrite emitter_removeListener_absent by done.
    apply set_emitter_eta.
  - intros pre post -> Hpost. by apply emitter_removeListener_last.
Qed.

Lemma call_listeners_throw (pre post : list callback) (cb : callback)
    (e : EventRecord) :
  (∀ l, l ∈ pre → raises l e = false) →
  raises cb e = true →
  call_listeners (pre ++ cb :: post) e
  = ((λ l, (l, e)) <$> (pre ++ [cb]), Thrown).
Proof.
  intros Hpre Hcb. induction pre as [|x pre IH]; cbn [app call_listeners].
  - by rewrite Hcb.
  - rewrite (Hpre x) by apply list_elem_of_here.
    rewrite IH; [reflexivity |].
    intros l Hl. apply Hpre. by apply list_elem_of_further.
Qed.

Lemma call_listeners_returned (ls : list callback) (e : EventRecord) :
  (call_listeners ls e).2 = Returned ↔ ∀ l, l ∈ ls → raises l e = false.
Proof.
  induction ls as [|x r IH]; cbn [call_listeners].
  - split; [by intros _ l ?%elem_of_nil | done].
  - destruct (raises x e) eqn:Hx.
    + cbn. split; [done |]. intros H.
      rewrite (H x) in Hx by apply list_elem_of_here. done.
    + destruct (call_listeners r e) as [cs k]. cbn [snd] in *.
      rewrite IH. split.
      * intros H l [-> | Hl]%elem_of_cons; [done | by apply H].
      * intros H l Hl. apply H. by apply list_elem_of_further.
Qed.

(** X5: [dispatchEvent] returns normally exactly when no subscribed
    listener throws on the stamped event, and then every subscription has
    been called with it, in subscription order.  When a listener throws,
    the throw comes out of [dispatchEvent]: the subscriptions before the
    first one that throws have been called, that one has been called, and
    none after it. *)
Theorem dispatchEvent_stops_at_first_throw (event : EventRecord) (t : Thing)
    (w : World) :
  let '(w', _, completion) := dispatchEvent event t w in
  (completion = Returned
   ↔ ∀ l, l ∈ emitter t → raises l (stamp t event) = false)
  ∧ (completion = Returned →
     delivered w'
     = delivered w ++ ((λ l, (l, stamp t event)) <$> emitter t))
  ∧ (∀ pre cb post,
       emitter t = pre ++ cb :: post →
       (∀ l, l ∈ pre → raises l (stamp t event) = false) →
       raises cb (stamp t event) = true →
       completion = Thrown
       ∧ delivered w'
         = delivered w ++ ((λ l, (l, stamp t event)) <$> (pre ++ [cb]))).
Proof.
  unfold dispatchEvent, emitter_emit. cbn [emitter set_eventsDispatched].
  pose proof (call_listeners_returned (emitter t) (stamp t event)) as Hret.
  destruct (call_listeners (emitter t) (stamp t event)) as [cs k] eqn:E.
  cbn [snd] in Hret. split; [exact Hret |]. split.
  - intros Hk. pose proof (proj1 Hret Hk) as Hq.
    rewrite (call_listeners_quiet _ _ Hq) in E. by injection E as <- _.
  - intros pre cb post Hem Hpre Hcb. rewrite Hem in E.
    rewrite (call_listeners_throw _ _ _ _ Hpre Hcb) in E.
    by injection E as <- <-.
Qed.

(** X6: an event keeps the id of the first Thing that stamped it.  Once
    [dispatchEvent] of a Thing with a non-empty id has left its mark on an
    event, dispatching that event on any other Thing logs it unchanged. *)
Theorem event_keeps_its_first_thing (event : EventRecord) (t1 t2 : Thing)
    (w : World) :
  id t1 ≠ "" →
  let marked := stamp t1 event in
  let '(_, t2', _) := dispatchEvent marked t2 w in
  truthy (thingId marked) = true
  ∧ (truthy (thingId event) = false → thingId marked = Some (id t1))
  ∧ eventsDispatched t2' = eventsDispatched t2 ++ [marked].
Proof.
  intros Hid. cbn zeta. unfold dispatchEvent, emitter_emit.
  destruct (call_listeners _ _) as [cs k]. cbn [eventsDispatched set_eventsDispatched].
  assert (truthy (thingId (stamp t1 event)) = true) as Hmarked.
  { unfold stamp. destruct (truthy (thingId event)) eqn:Hev; [done |].
    cbn. by apply truthy_Some. }
  split; [exact Hmarked |]. split.
  - intros Hev. unfold stamp. by rewrite Hev.
  - do 2 f_equal. unfold stamp at 1. by rewrite Hmarked.
Qed.

(** ** [remove], a second time *)

Lemma close_round_none (l : list socket) (w : World) :
  (∀ ws, ws ∈ l → ¬ live w ws) → foldl close_if_live w l = w.
Proof.
  revert w. induction l as [|x l IH]; intros w Hnone; [reflexivity |].
  cbn [foldl].
  assert (close_if_live w x = w) as ->.
  { specialize (Hnone x (list_elem_of_here _ _)). unfold close_if_live, live in *.
    destruct (readyState w x); tauto. }
  apply IH. intros ws Hws. apply Hnone. by apply list_elem_of_further.
Qed.

(** X7: [remove] is idempotent: a second [remove] changes neither the Thing
    nor anything in the world, whatever the first one found (no file is
    unlinked, nothing is logged, no socket is asked to close again). *)
Theorem remove_twice (refused refused' : bool) (t : Thing) (w : World) :
  let '(w1, t1) := remove refused t w in
  remove refused' t1 w1 = (w1, t1).
Proof.
  unfold remove.
  pose proof (unlinkOldIcon_unset refused t w) as Hunset.
  destruct (unlinkOldIcon refused t w) as [w0 t0]. cbn [snd] in Hunset.
  destruct (close_round (websockets t0) w0)
    as (new & _ & _ & Hmem & Hst & _).
  cbn zeta in *.
  unfold unlinkOldIcon. rewrite Hunset.
  rewrite close_round_none; [reflexivity |].
  intros ws Hws. unfold live. rewrite Hst.
  case_bool_decide as Hnew; [by intros [|] |].
  intros Hlive. apply Hnew, Hmem. by split.
Qed.

(** ** More on [setIcon] *)

Lemma unlinkOldIcon_files (refused : bool) (t : Thing) (w : World) (p : string) :
  (∀ h, iconHref t = Some h → p ≠ path_join baseDir h) →
  files (unlinkOldIcon refused t w).1 !! p = files w !! p.
Proof.
  intros Hp. unfold unlinkOldIcon.
  destruct (truthy (iconHref t)) eqn:Ht; [| reflexivity].
  destruct (iconHref t) as [h|] eqn:Hh; [| done].
  change (default "" (Some h)) with h. cbn [fst].
  unfold fs_unlinkSync. destruct refused; [reflexivity |].
  destruct (files w !! path_join baseDir h); [| reflexivity].
  cbn [files set_files]. apply lookup_delete_ne. intros Heq. by apply (Hp h).
Qed.

Lemma unlinkOldIcon_files_None (refused : bool) (t : Thing) (w : World)
    (p : string) :
  files w !! p = None → files (unlinkOldIcon refused t w).1 !! p = None.
Proof.
  intros Hp. unfold unlinkOldIcon.
  destruct (truthy (iconHref t)); [| exact Hp]. cbn [fst].
  unfold fs_unlinkSync. destruct refused; [exact Hp |].
  destruct (files w !! path_join baseDir _); [| exact Hp].
  cbn [files set_files]. rewrite lookup_delete. by case_decide.
Qed.

(** What a [setIcon] whose every step succeeds computes. *)
Lemma setIcon_success (icon : IconData) (u : bool) (env : IconEnv) (t : Thing)
    (w : World) (b rnd : string) (fd : nat) :
  data icon = Some b → b ≠ "" →
  mime_allowed (mime icon) = true →
  tmpAnswer env = Some (rnd, fd) →
  files w !! path_join uploadsDir (rnd +:+ extension_of (mime icon)) = None →
  writeRefused env = false →
  let p := path_join uploadsDir (rnd +:+ extension_of (mime icon)) in
  let s1 := unlinkOldIcon (unlinkRefused env) t w in
  let t2 := set_iconHref (Some (path_join "/uploads" (path_basename p))) s1.2 in
  let w2 :=
    set_files (<[p := Decoded b]> (<[p := EmptyFile]> (files s1.1))) s1.1 in
  setIcon icon u env t w
  = (if u then Database_updateThing t2 w2 else w2, t2, IconInstalled).
Proof.
  intros Hb Hne Hmime Hans Hfree Hwrite. cbn zeta. unfold setIcon.
  rewrite Hb, Hmime, (proj2 (truthy_Some b) Hne). cbn [negb orb default].
  pose proof (unlinkOldIcon_files_None (unlinkRefused env) t w _ Hfree) as Hfree1.
  destruct (unlinkOldIcon (unlinkRefused env) t w) as [w1 t1].
  cbn [fst snd] in *. unfold tmp_fileSync, fs_writeFileSync.
  rewrite Hans, Hfree1, Hwrite. cbn [tmp_name]. by destruct u.
Qed.

Lemma getDescription_fields (reqHost : option string) (reqSecure : bool)
    (t : Thing) (w : World) :
  let d := (getDescription reqHost reqSecure t w).2 in
  out_name d = name t ∧ out_type d = type t ∧ out_context d = context t
  ∧ out_atType d = atType t ∧ out_description d = description t
  ∧ out_href d = href t
  ∧ out_floorplanX d = floorplanX t ∧ out_floorplanY d = floorplanY t
  ∧ out_selectedCapability d = selectedCapability t
  ∧ out_iconHref d = iconHref t.
Proof.
  unfold getDescription. destruct (json_copy_links (links t) w) as [la w1].
  cbn. done.
Qed.

(** What [Database.updateThing(this.id, this.getDescription())] records. *)
Lemma Database_updateThing_record (t : Thing) (w : World) :
  ∃ d, database (Database_updateThing t w) = database w ++ [(id t, d)]
       ∧ d = (getDescription None false t w).2
       ∧ read_links (Database_updateThing t w) (out_links d)
         = read_links w (links t).
Proof.
  unfold Database_updateThing.
  destruct (getDescription None false t w) as [w1 d] eqn:E.
  destruct (getDescription_spec _ _ _ _ _ _ E)
    as ((_ & _ & _ & Hs) & _ & _ & Hlinks & _).
  exists d. unfold surroundings in Hs. simplify_eq. cbn [database set_database].
  split; [congruence |]. split; [reflexivity |].
  rewrite app_nil_r in Hlinks. exact Hlinks.
Qed.

(** X8: a [setIcon] with data, an allowed mime, a temporary file that
    [tmp.fileSync] can create and a write that goes through installs the
    icon, whether or not an old icon was there and whether or not it could
    be unlinked: the new file holds the decoded data and [iconHref] is
    [/uploads/] followed by the name of that file, whose extension follows
    the mime. *)
Theorem setIcon_installs (iconData : IconData) (updateDatabase : bool)
    (env : IconEnv) (t : Thing) (w : World) (b rnd : string) (fd : nat) :
  data iconData = Some b → b ≠ "" →
  mime_allowed (mime iconData) = true →
  tmpAnswer env = Some (rnd, fd) →
  files w !! path_join uploadsDir (rnd +:+ extension_of (mime iconData)) = None →
  writeRefused env = false →
  let p := path_join uploadsDir (rnd +:+ extension_of (mime iconData)) in
  let '(w', t', outcome) := setIcon iconData updateDatabase env t w in
  outcome = IconInstalled
  ∧ files w' !! p = Some (Decoded b)
  ∧ iconHref t' = Some (path_join "/uploads" (path_basename p))
  ∧ (contains_sep rnd = false →
     iconHref t' = Some ("/uploads/" +:+ rnd +:+ extension_of (mime iconData))).
Proof.
  intros Hb Hne Hmime Hans Hfree Hwrite. cbn zeta.
  rewrite (setIcon_success _ updateDatabase _ t w _ _ _ Hb Hne Hmime Hans Hfree
             Hwrite).
  cbn zeta. set (p := path_join uploadsDir (rnd +:+ extension_of (mime iconData))).
  set (s1 := unlinkOldIcon (unlinkRefused env) t w).
  assert (files (if updateDatabase
                 then Database_updateThing
                        (set_iconHref (Some (path_join "/uploads" (path_basename p))) s1.2)
                        (set_files (<[p := Decoded b]> (<[p := EmptyFile]> (files s1.1))) s1.1)
                 else set_files (<[p := Decoded b]> (<[p := EmptyFile]> (files s1.1))) s1.1)
          = <[p := Decoded b]> (<[p := EmptyFile]> (files s1.1))) as ->.
  { destruct updateDatabase; [| reflexivity].
    match goal with
    | |- context [Database_updateThing ?t2 ?w2] =>
        destruct (Database_updateThing_frame t2 w2) as (_ & Hf & _)
    end.
    exact Hf. }
  split; [reflexivity |]. split; [apply lookup_insert_eq |].
  split; [reflexivity |].
  intros Hsep. cbn [iconHref set_iconHref]. f_equal. subst p.
  assert (proper (rnd +:+ extension_of (mime iconData))) as Hf
    by (by apply proper_tmp_name).
  by rewrite path_basename_join, path_join_uploads.
Qed.

(** X9: [setIcon] reads and writes two paths at most, the file of the old
    icon and the temporary file it asks [tmp] for: every other file is after
    the call what it was before, whatever fails. *)
Theorem setIcon_touches_two_paths (iconData : IconData) (updateDatabase : bool)
    (env : IconEnv) (t : Thing) (w : World) (p : string) :
  (∀ h, iconHref t = Some h → p ≠ path_join baseDir h) →
  (∀ rnd fd, tmpAnswer env = Some (rnd, fd) →
     p ≠ path_join uploadsDir (rnd +:+ extension_of (mime iconData))) →
  files (setIcon iconData updateDatabase env t w).1.1 !! p = files w !! p.
Proof.
  intros Hold Hnew. unfold setIcon.
  destruct (negb (truthy (data iconData))
            || negb (mime_allowed (mime iconData))); [reflexivity |].
  pose proof (unlinkOldIcon_files (unlinkRefused env) t w p Hold) as H1.
  destruct (unlinkOldIcon (unlinkRefused env) t w) as [w1 t1].
  cbn [fst] in H1. unfold tmp_fileSync.
  destruct (tmpAnswer env) as [[rnd fd]|] eqn:Hans; [| exact H1].
  specialize (Hnew rnd fd eq_refl).
  destruct (files w1 !! path_join uploadsDir _) eqn:Hexists; [exact H1 |].
  unfold fs_writeFileSync. destruct (writeRefused env).
  - cbn. by rewrite lookup_insert_ne.
  - cbn [tmp_name]. destruct updateDatabase.
    + match goal with
      | |- context [Database_updateThing ?t2 ?w2] =>
          destruct (Database_updateThing_frame t2 w2) as (_ & Hf & _)
      end.
      cbn [fst]. rewrite Hf. cbn [files set_files].
      by rewrite !lookup_insert_ne.
    + cbn. by rewrite !lookup_insert_ne.
Qed.

(** X10: when [tmp.fileSync] has created the temporary file and the write
    is refused, the call fails with [iconHref] unset and the failure on the
    console, and the temporary file stays behind, empty: the cleanup hands
    [fs.unlinkSync] a file descriptor, which is not a path, so nothing is
    unlinked. *)
Theorem setIcon_write_failure_leaves_file (iconData : IconData)
    (updateDatabase : bool) (env : IconEnv) (t : Thing) (w : World)
    (b rnd : string) (fd : nat) :
  data iconData = Some b → b ≠ "" →
  mime_allowed (mime iconData) = true →
  tmpAnswer env = Some (rnd, fd) →
  files w !! path_join uploadsDir (rnd +:+ extension_of (mime iconData)) = None →
  writeRefused env = true →
  let p := path_join uploadsDir (rnd +:+ extension_of (mime iconData)) in
  let '(w', t', outcome) := setIcon iconData updateDatabase env t w in
  outcome = IconWriteFailed
  ∧ files w' !! p = Some EmptyFile
  ∧ truthy (iconHref t') = false
  ∧ database w' = database w
  ∧ ∃ logged, console w' = logged ++ ["Failed to write icon:"].
Proof.
  intros Hb Hne Hmime Hans Hfree Hwrite. cbn zeta. unfold setIcon.
  rewrite Hb, Hmime, (proj2 (truthy_Some b) Hne). cbn [negb orb default].
  pose proof (unlinkOldIcon_files_None (unlinkRefused env) t w _ Hfree) as Hfree1.
  pose proof (unlinkOldIcon_unset (unlinkRefused env) t w) as Hunset.
  pose proof (unlinkOldIcon_store (unlinkRefused env) t w) as Hstore.
  destruct (unlinkOldIcon (unlinkRefused env) t w) as [w1 t1].
  cbn [fst snd] in *. cbn zeta in Hstore.
  destruct Hstore as (_ & _ & _ & _ & _ & Hdb & _).
  unfold tmp_fileSync, fs_writeFileSync.
  rewrite Hans, Hfree1, Hwrite. cbn.
  split; [reflexivity |]. split; [apply lookup_insert_eq |].
  split; [exact Hunset |]. split; [exact Hdb |]. by eexists.
Qed.

(** X11: [setIcon] reaches the database only when it has installed the icon
    and was asked to persist: then it records, under the id of the Thing, one
    description that carries the new [iconHref] and the links of the Thing.
    A call that is rejected or fails, or one with [updateDatabase] false,
    records nothing. *)
Theorem setIcon_persists_only_on_success (iconData : IconData)
    (updateDatabase : bool) (env : IconEnv) (t : Thing) (w : World) :
  let '(w', t', outcome) := setIcon iconData updateDatabase env t w in
  (outcome = IconInstalled → updateDatabase = true →
   ∃ d, database w' = database w ++ [(id t, d)]
        ∧ out_iconHref d = iconHref t'
        ∧ out_name d = name t
        ∧ read_links w' (out_links d) = read_links w (links t))
  ∧ (outcome ≠ IconInstalled ∨ updateDatabase = false →
     database w' = database w).
Proof.
  unfold setIcon.
  destruct (negb (truthy (data iconData))
            || negb (mime_allowed (mime iconData))).
  { split; [done |]. reflexivity. }
  pose proof (unlinkOldIcon_store (unlinkRefused env) t w) as Hstore.
  destruct (unlinkOldIcon_thing (unlinkRefused env) t w) as [v Hv].
  destruct (unlinkOldIcon (unlinkRefused env) t w) as [w1 t1].
  cbn [fst snd] in *. cbn zeta in Hstore. subst t1.
  destruct Hstore as (_ & Hl & Ha & _ & _ & Hdb & _).
  destruct (tmp_fileSync _ _ _ _) as [[tempfile fs2]|].
  2: { split; [done |]. intros _. exact Hdb. }
  destruct (fs_writeFileSync _ _ _ _) as [fs3|].
  2: { split; [done |]. intros _. exact Hdb. }
  destruct updateDatabase.
  - split; [| by intros [? | ?]]. intros _ _.
    match goal with
    | |- context [Database_updateThing ?t2 ?w2] =>
        destruct (Database_updateThing_record t2 w2) as (d & Hd & Hdd & Hlinks);
        destruct (getDescription_fields None false t2 w2)
          as (Hname & _ & _ & _ & _ & _ & _ & _ & _ & Hicon)
    end.
    cbn zeta in *. rewrite <- Hdd in Hname, Hicon.
    exists d. rewrite Hd, Hlinks. cbn [database set_files].
    rewrite Hdb. split; [reflexivity |]. split; [exact Hicon |].
    split; [exact Hname |].
    unfold read_links, read_array.
    cbn [arrays linkObjects set_files links set_iconHref].
    by rewrite Hl, Ha.
  - split; [done |]. intros _. exact Hdb.
Qed.

(** X12: a refused unlink of the old icon does not stop [setIcon]: the
    refusal is logged, the new icon is installed, and the old file is still
    on disk, no longer referred to. *)
Theorem setIcon_survives_refused_unlink (iconData : IconData)
    (updateDatabase : bool) (env : IconEnv) (t : Thing) (w : World)
    (h b rnd : string) (fd : nat) :
  iconHref t = Some h → h ≠ "" →
  is_Some (files w !! path_join baseDir h) →
  unlinkRefused env = true →
  data iconData = Some b → b ≠ "" →
  mime_allowed (mime iconData) = true →
  tmpAnswer env = Some (rnd, fd) →
  files w !! path_join uploadsDir (rnd +:+ extension_of (mime iconData)) = None →
  writeRefused env = false →
  let '(w', t', outcome) := setIcon iconData updateDatabase env t w in
  outcome = IconInstalled
  ∧ files w' !! path_join baseDir h = files w !! path_join baseDir h
  ∧ console w' = console w ++ ["Failed to remove old icon:"]
  ∧ iconHref t'
    = Some (path_join "/uploads"
              (path_basename
                 (path_join uploadsDir (rnd +:+ extension_of (mime iconData))))).
Proof.
  intros Hh Hhne [x Hold] Hrefused Hb Hne Hmime Hans Hfree Hwrite.
  rewrite (setIcon_success _ updateDatabase _ t w _ _ _ Hb Hne Hmime Hans Hfree
             Hwrite).
  cbn zeta. rewrite Hrefused, (unlinkOldIcon_set true t w h Hh Hhne).
  cbn [fs_unlinkSync fst snd].
  set (p := path_join uploadsDir (rnd +:+ extension_of (mime iconData))).
  assert (path_join baseDir h ≠ p) as Hdiff.
  { intros Heq. rewrite Heq in Hold. subst p. congruence. }
  destruct updateDatabase.
  - match goal with
    | |- context [Database_updateThing ?t2 ?w2] =>
        destruct (Database_updateThing_frame t2 w2) as (_ & Hf & Hc & _)
    end.
    cbn zeta in *. rewrite Hf, Hc. cbn.
    rewrite !lookup_insert_ne by done. done.
  - cbn. rewrite !lookup_insert_ne by done. done.
Qed.

Lemma setIcon_success_files (t2 : Thing) (w2 : World) (u : bool) :
  files (if u then Database_updateThing t2 w2 else w2) = files w2.
Proof.
  destruct u; [| reflexivity].
  by destruct (Database_updateThing_frame t2 w2) as (_ & Hf & _).
Qed.

(** X13: an icon set after another replaces it.  When both calls succeed
    and the second may unlink, the file of the first icon is gone after the
    second call, the file of the second is there with its data, and
    [iconHref] is the public path of the second. *)
Theorem setIcon_twice_replaces_icon (icon1 icon2 : IconData) (u1 u2 : bool)
    (env1 env2 : IconEnv) (t : Thing) (w : World) (b1 b2 rnd1 rnd2 : string)
    (fd1 fd2 : nat) :
  uploadsDir = path_join baseDir "uploads" →
  data icon1 = Some b1 → b1 ≠ "" → mime_allowed (mime icon1) = true →
  data icon2 = Some b2 → b2 ≠ "" → mime_allowed (mime icon2) = true →
  tmpAnswer env1 = Some (rnd1, fd1) → contains_sep rnd1 = false →
  writeRefused env1 = false →
  tmpAnswer env2 = Some (rnd2, fd2) → unlinkRefused env2 = false →
  writeRefused env2 = false →
  let p1 := path_join uploadsDir (rnd1 +:+ extension_of (mime icon1)) in
  let p2 := path_join uploadsDir (rnd2 +:+ extension_of (mime icon2)) in
  files w !! p1 = None → files w !! p2 = None → p1 ≠ p2 →
  let '(w1, t1, _) := setIcon icon1 u1 env1 t w in
  let '(w2, t2, outcome) := setIcon icon2 u2 env2 t1 w1 in
  outcome = IconInstalled
  ∧ files w2 !! p1 = None
  ∧ files w2 !! p2 = Some (Decoded b2)
  ∧ iconHref t2 = Some (path_join "/uploads" (path_basename p2)).
Proof.
  intros Hup Hb1 Hne1 Hm1 Hb2 Hne2 Hm2 Hans1 Hsep1 Hw1 Hans2 Hunl2 Hw2.
  cbn zeta. intros Hfree1 Hfree2 Hdiff.
  set (p1 := path_join uploadsDir (rnd1 +:+ extension_of (mime icon1))) in *.
  set (p2 := path_join uploadsDir (rnd2 +:+ extension_of (mime icon2))) in *.
  rewrite (setIcon_success icon1 u1 env1 t w _ _ _ Hb1 Hne1 Hm1 Hans1 Hfree1 Hw1).
  cbn zeta. fold p1.
  set (s1 := unlinkOldIcon (unlinkRefused env1) t w).
  set (href1 := path_join "/uploads" (path_basename p1)).
  set (t1 := set_iconHref (Some href1) s1.2).
  set (w1' := set_files (<[p1 := Decoded b1]> (<[p1 := EmptyFile]> (files s1.1))) s1.1).
  set (w1 := if u1 then Database_updateThing t1 w1' else w1').
  assert (files w1 = <[p1 := Decoded b1]> (<[p1 := EmptyFile]> (files s1.1)))
    as Hfiles1 by apply setIcon_success_files.
  assert (files w1 !! p2 = None) as Hfree2'.
  { rewrite Hfiles1, !lookup_insert_ne by done.
    by apply unlinkOldIcon_files_None. }
  assert (proper (rnd1 +:+ extension_of (mime icon1))) as Hf1
    by (by apply proper_tmp_name).
  assert (href1 ≠ "") as Hhref1.
  { unfold href1, p1. by rewrite path_basename_join, path_join_uploads. }
  assert (path_join baseDir href1 = p1) as Hpath.
  { unfold href1, p1. by apply uploaded_file_path. }
  clearbody w1.
  rewrite (setIcon_success icon2 u2 env2 t1 w1 _ _ _ Hb2 Hne2 Hm2 Hans2 Hfree2'
             Hw2).
  cbn zeta. fold p2. rewrite Hunl2.
  rewrite (unlinkOldIcon_set false t1 w1 href1 eq_refl Hhref1).
  unfold fs_unlinkSync. rewrite Hpath, Hfiles1, lookup_insert_eq.
  cbn [fst snd files set_files].
  rewrite !setIcon_success_files. cbn [files set_files].
  split; [reflexivity |]. split.
  - rewrite !lookup_insert_ne by done. apply lookup_delete_eq.
  - split; [apply lookup_insert_eq | reflexivity].
Qed.

(** ** The persisting setters *)

(** X14: [setName], [setCoordinates] and [setSelectedCapability] change the
    one member they are named after and record, under the id of the Thing,
    one description that shows the new value and the links of the Thing;
    they touch neither the files nor the console. *)
Theorem setters_persist_new_state (t : Thing) (w : World) (n : string)
    (x y : option number) (c : option string) :
  (let '(w', t') := setName n t w in
   t' = set_name n t
   ∧ files w' = files w ∧ console w' = console w
   ∧ ∃ d, database w' = database w ++ [(id t, d)]
          ∧ out_name d = n
          ∧ read_links w' (out_links d) = read_links w (links t))
  ∧ (let '(w', t') := setCoordinates x y t w in
     t' = set_floorplan x y t
     ∧ files w' = files w ∧ console w' = console w
     ∧ ∃ d, database w' = database w ++ [(id t, d)]
            ∧ out_floorplanX d = x ∧ out_floorplanY d = y
            ∧ read_links w' (out_links d) = read_links w (links t))
  ∧ (let '(w', t') := setSelectedCapability c t w in
     t' = set_selectedCapability c t
     ∧ files w' = files w ∧ console w' = console w
     ∧ ∃ d, database w' = database w ++ [(id t, d)]
            ∧ out_selectedCapability d = c
            ∧ read_links w' (out_links d) = read_links w (links t)).
Proof.
  assert (∀ t1, links t1 = links t → id t1 = id t →
            files (Database_updateThing t1 w) = files w
            ∧ console (Database_updateThing t1 w) = console w
            ∧ ∃ d, database (Database_updateThing t1 w)
                   = database w ++ [(id t, d)]
                   ∧ d = (getDescription None false t1 w).2
                   ∧ read_links (Database_updateThing t1 w) (out_links d)
                     = read_links w (links t)) as Hset.
  { intros t1 Hl Hi.
    destruct (Database_updateThing_frame t1 w) as (_ & Hf & Hc & _).
    destruct (Database_updateThing_record t1 w) as (d & Hd & Hdd & Hlinks).
    split; [exact Hf |]. split; [exact Hc |]. exists d.
    by rewrite Hd, Hlinks, Hl, Hi. }
  unfold setName, setCoordinates, setSelectedCapability. cbn zeta.
  split; [| split].
  - destruct (Hset (set_name n t) eq_refl eq_refl) as (? & ? & d & ? & Hd & ?).
    destruct (getDescription_fields None false (set_name n t) w)
      as (Hn & _).
    cbn zeta in Hn. rewrite <- Hd in Hn.
    split; [reflexivity |]. split; [done |]. split; [done |]. by exists d.
  - destruct (Hset (set_floorplan x y t) eq_refl eq_refl)
      as (? & ? & d & ? & Hd & ?).
    destruct (getDescription_fields None false (set_floorplan x y t) w)
      as (_ & _ & _ & _ & _ & _ & Hx & Hy & _).
    cbn zeta in Hx, Hy. rewrite <- Hd in Hx, Hy.
    split; [reflexivity |]. split; [done |]. split; [done |]. by exists d.
  - destruct (Hset (set_selectedCapability c t) eq_refl eq_refl)
      as (? & ? & d & ? & Hd & ?).
    destruct (getDescription_fields None false (set_selectedCapability c t) w)
      as (_ & _ & _ & _ & _ & _ & _ & _ & Hc & _).
    cbn zeta in Hc. rewrite <- Hd in Hc.
    split; [reflexivity |]. split; [done |]. split; [done |]. by exists d.
Qed.

(** ** More on the constructor *)

Lemma find_first {A : Type} (f : A → bool) (pre post : list A) (k : A) :
  Forall (λ x, f x = false) pre → f k = true →
  List.find f (pre ++ k :: post) = Some k.
Proof.
  intros Hpre Hk. induction Hpre as [|x pre Hx _ IH]; cbn [app List.find].
  - by rewrite Hk.
  - by rewrite Hx.
Qed.

Lemma find_none {A : Type} (f : A → bool) (ks : list A) :
  Forall (λ x, f x = false) ks → List.find f ks = None.
Proof.
  induction 1 as [|x ks Hx _ IH]; cbn [List.find]; [done |]. by rewrite Hx.
Qed.

(** X15: the fourth link of a constructed Thing is the UI link, an
    alternate link of media type text/html.  Its target is the [uiHref] of
    the description when that is not empty; otherwise the href of the first
    link of the description that is an alternate text/html link with an href
    starting with http; otherwise the href of the Thing. *)
Theorem constructed_ui_link (i : string) (d : Description) (env : IconEnv)
    (w : World) :
  i ≠ "" →
  ∃ w' t ui,
    Thing_new (Some i) (Some d) env w = (w', Some t)
    ∧ read_links w' (links t) = base_links (href t) ++ [ui]
    ∧ rel ui = "alternate" ∧ mediaType ui = Some "text/html"
    ∧ (∀ u, in_uiHref d = Some u → u ≠ "" → link_href ui = u)
    ∧ (truthy (in_uiHref d) = false →
       ∀ pre k post,
         in_links d = Some (pre ++ k :: post) →
         Forall (λ x, is_html_alternate x = false) pre →
         is_html_alternate k = true →
         link_href ui = link_href k)
    ∧ (truthy (in_uiHref d) = false →
       (∀ ks, in_links d = Some ks →
              Forall (λ x, is_html_alternate x = false) ks) →
       link_href ui = href t).
Proof.
  intros Hi. rewrite (Thing_new_constructs i d env w Hi).
  destruct (construct i d env w) as [w' t] eqn:E.
  destruct (construct_links _ _ _ _ _ _ E) as [_ Hlinks].
  exists w', t, (uiLink d (href t)).
  split; [reflexivity |]. split; [exact Hlinks |].
  split; [reflexivity |]. split; [reflexivity |].
  cbn [link_href uiLink]. unfold uiLink_href. split; [| split].
  - intros u Hu Hne. rewrite Hu, (proj2 (truthy_Some u) Hne). reflexivity.
  - intros Hfalsy pre k post Hks Hpre Hk.
    by rewrite Hfalsy, Hks, (find_first _ _ _ _ Hpre Hk).
  - intros Hfalsy Hnone. rewrite Hfalsy.
    destruct (in_links d) as [ks|]; [| reflexivity].
    by rewrite (find_none _ _ (Hnone ks eq_refl)).
Qed.


Lemma populate_fresh (i : string) (d : Description) (w w' : World) (t : Thing) :
  populate i d w = (w', t) →
  (properties t ∉ dom (maps w)) ∧ (links t ∉ dom (arrays w))
  ∧ Forall (λ o, o ∉ dom (linkObjects w)) (read_array w' (links t))
  ∧ linkObjects w ⊆ linkObjects w' ∧ arrays w ⊆ arrays w'.
Proof.
  unfold populate.
  destruct (alloc_map ∅ w) as [lp w1] eqn:E1.
  destruct (alloc_map (or_object (in_actions d) ∅) w1) as [la w2] eqn:E2.
  destruct (alloc_map (or_object (in_events d) ∅) w2) as [le w3] eqn:E3.
  destruct (alloc_map_spec _ _ _ _ E1) as (F1 & _ & L1 & A1 & _).
  destruct (alloc_map_spec _ _ _ _ E2) as (_ & _ & L2 & A2 & _).
  destruct (alloc_map_spec _ _ _ _ E3) as (_ & _ & L3 & A3 & _).
  set (w4 := match in_properties d with Some _ => _ | None => _ end).
  assert (linkObjects w4 = linkObjects w ∧ arrays w4 = arrays w) as (L4 & A4).
  { subst w4. destruct (in_properties d) as [ps|]; cbn; split; congruence. }
  clearbody w4.
  destruct (alloc_links (base_links _) w4) as [ls w5] eqn:E5.
  destruct (alloc_array ls w5) as [ll w6] eqn:E6.
  destruct (alloc_link (uiLink d _) w6) as [lu w7] eqn:E7.
  destruct (alloc_links_spec _ _ _ _ E5) as ((_ & Sl5 & Sa5 & _) & _ & N5).
  destruct (alloc_array_spec _ _ _ _ E6) as (F6 & Ha6 & (_ & Sl6 & Sa6 & _)).
  destruct (alloc_link_spec _ _ _ _ E7) as (F7 & _ & (_ & Sl7 & Sa7 & _)).
  assert (arrays w7 !! ll = Some ls) as Hll.
  { eapply lookup_weaken; [| exact Sa7]. rewrite Ha6. apply lookup_insert_eq. }
  assert (linkObjects w ⊆ linkObjects w6) as S6.
  { rewrite <- L4. by etrans. }
  assert (ll ∉ dom (arrays w)) as Fl.
  { intros Hin. apply F6. apply elem_of_dom in Hin as [a Ha].
    apply elem_of_dom. exists a. eapply lookup_weaken; [| exact Sa5].
    by rewrite A4. }
  intros [= <- <-]. cbn [properties links].
  split; [exact F1 |]. split; [exact Fl |]. split; [| split].
  - unfold read_array, array_push. cbn [arrays set_maps set_arrays].
    rewrite lookup_insert_eq. unfold default, Datatypes.id, read_array.
    rewrite Hll. apply Forall_app. split.
    + by rewrite <- L4.
    + constructor; [| constructor]. intros Hin. apply F7.
      apply elem_of_dom in Hin as [k Hk]. apply elem_of_dom. exists k.
      by eapply lookup_weaken.
  - cbn. by etrans.
  - cbn. apply insert_subseteq_r; [by apply not_elem_of_dom |].
    rewrite <- A4. etrans; [exact Sa5 |]. etrans; [exact Sa6 | exact Sa7].
Qed.

(** X17: the constructor gives the Thing a properties object and an array
    of links of its own, holding link objects of its own: none of them was
    in the store before, so that no two Things share them.  It changes no
    link object and no array that was there, closes no socket, calls no
    listener and records nothing in the database. *)
Theorem constructor_only_allocates (i : string) (d : Description)
    (env : IconEnv) (w : World) :
  i ≠ "" →
  ∃ w' t,
    Thing_new (Some i) (Some d) env w = (w', Some t)
    ∧ (properties t ∉ dom (maps w)) ∧ (links t ∉ dom (arrays w))
    ∧ Forall (λ o, o ∉ dom (linkObjects w)) (read_array w' (links t))
    ∧ linkObjects w ⊆ linkObjects w' ∧ arrays w ⊆ arrays w'
    ∧ readyState w' = readyState w ∧ closeRequests w' = closeRequests w
    ∧ database w' = database w ∧ delivered w' = delivered w.
Proof.
  intros Hi. rewrite (Thing_new_constructs i d env w Hi).
  destruct (construct i d env w) as [w' t] eqn:E.
  exists w', t. split; [reflexivity |].
  destruct (construct_populate _ _ _ _ _ _ E)
    as (w0 & t0 & v & Hp & -> & Hm & Hl & Ha).
  destruct (populate_fresh _ _ _ _ _ Hp) as (F1 & F4 & Fo & S2 & S3).
  destruct (populate_spec _ _ _ _ _ Hp)
    as [_ _ _ _ _ _ _ _ _ _ _ _ _ _ _ _ _ _ _ _ Hsur].
  cbn [properties links set_iconHref].
  unfold read_array in *. rewrite Hl, Ha.
  assert (readyState w' = readyState w0 ∧ closeRequests w' = closeRequests w0
          ∧ database w' = database w0 ∧ delivered w' = delivered w0)
    as (R1 & R2 & R3 & R4).
  { revert E. unfold construct. rewrite Hp.
    destruct (truthy (in_iconHref d)); [by intros [= <- _] |].
    destruct (in_iconData d) as [icon|]; [| by intros [= <- _]].
    intros E. destruct (setIcon_store icon env t0 w0)
      as (_ & _ & _ & ? & ? & ? & ?).
    rewrite E in *. done. }
  unfold surroundings in Hsur. simplify_eq.
  repeat split; try done; congruence.
Qed.

(** X18: an [iconHref] in the description wins over [iconData]: the
    constructor takes it as it is and touches no file, whether or not the
    file it names is there.  Without either, the Thing has no icon and no
    file is touched.  With [iconData] that [setIcon] rejects, the Thing is
    constructed all the same, without an icon, and the rejection is on the
    console. *)
Theorem constructor_icon_precedence (i : string) (d : Description)
    (env : IconEnv) (w : World) :
  i ≠ "" →
  ∃ w' t,
    Thing_new (Some i) (Some d) env w = (w', Some t)
    ∧ (∀ h, in_iconHref d = Some h → h ≠ "" →
         iconHref t = Some h ∧ files w' = files w ∧ console w' = console w)
    ∧ (truthy (in_iconHref d) = false → in_iconData d = None →
       iconHref t = None ∧ files w' = files w ∧ console w' = console w)
    ∧ (truthy (in_iconHref d) = false →
       ∀ icon, in_iconData d = Some icon →
         truthy (data icon) = false ∨ mime_allowed (mime icon) = false →
         iconHref t = None ∧ files w' = files w
         ∧ console w' = console w ++ ["Invalid icon data:"]).
Proof.
  intros Hi. rewrite (Thing_new_constructs i d env w Hi).
  unfold construct.
  destruct (populate i d w) as [w0 t0] eqn:Hp.
  destruct (populate_spec _ _ _ _ _ Hp)
    as [_ _ _ _ _ _ _ _ _ _ Hicon _ _ _ _ _ _ _ _ _ Hsur].
  unfold surroundings in Hsur. simplify_eq.
  destruct (truthy (in_iconHref d)) eqn:Htr.
  - eexists _, _. split; [reflexivity |]. cbn [fst snd].
    split; [| split; [done | done]].
    intros h Hh _. by rewrite Hh.
  - destruct (in_iconData d) as [icon|] eqn:Hdata.
    + destruct (setIcon icon false env t0 w0) as [[w1 t1] o] eqn:E.
      eexists _, _. split; [reflexivity |]. cbn [fst snd].
      split; [| split; [done |]].
      * intros h Hh Hne. rewrite Hh in Htr.
        by rewrite (proj2 (truthy_Some h) Hne) in Htr.
      * intros _ icon' [= <-] Hbad. revert E. unfold setIcon.
        assert (negb (truthy (data icon)) || negb (mime_allowed (mime icon))
                = true) as ->.
        { destruct Hbad as [-> | ->]; [done | apply orb_true_r]. }
        intros [= <- <- _]. cbn. repeat split; congruence.
    + eexists _, _. split; [reflexivity |]. cbn [fst snd].
      split; [| split; [done | done]].
      intros h Hh Hne. rewrite Hh in Htr.
      by rewrite (proj2 (truthy_Some h) Hne) in Htr.
Qed.

(** ** The icon over the life of a Thing *)

Lemma setIcon_resolves (icon : IconData) (u : bool) (env : IconEnv) (t : Thing)
    (w : World) :
  uploadsDir = path_join baseDir "uploads" →
  plain_tmp_name env →
  icon_resolves w t →
  let s' := (setIcon icon u env t w).1 in
  icon_resolves s'.1 s'.2.
Proof.
  intros Hup Hrnd Hpre. cbn zeta. unfold setIcon.
  destruct (negb (truthy (data icon)) || negb (mime_allowed (mime icon)));
    [exact Hpre |].
  pose proof (unlinkOldIcon_unset (unlinkRefused env) t w) as Hunset.
  destruct (unlinkOldIcon (unlinkRefused env) t w) as [w1 t1].
  cbn [snd] in Hunset.
  assert (∀ w2, icon_resolves w2 t1) as Hres1.
  { intros w2 h Hh Hne. rewrite Hh in Hunset.
    apply truthy_Some in Hne. congruence. }
  unfold tmp_fileSync.
  destruct (tmpAnswer env) as [[rnd fd]|] eqn:Hans; [| apply Hres1].
  set (f := rnd +:+ extension_of (mime icon)).
  assert (proper f) as Hf
    by (subst f; apply proper_tmp_name, (Hrnd _ _ Hans)).
  destruct (files w1 !! path_join uploadsDir f); [apply Hres1 |].
  unfold fs_writeFileSync. destruct (writeRefused env); [apply Hres1 |].
  cbn [tmp_name].
  set (h := path_join "/uploads" (path_basename (path_join uploadsDir f))).
  assert (path_join baseDir h = path_join uploadsDir f) as Hpath
    by (by apply uploaded_file_path).
  set (fs3 := <[path_join uploadsDir f := _]> _).
  assert (is_Some (fs3 !! path_join baseDir h)) as Hthere.
  { subst fs3. rewrite Hpath, lookup_insert_eq. by eexists. }
  destruct u.
  - destruct (Database_updateThing_frame (set_iconHref (Some h) t1)
                (set_files fs3 w1)) as (_ & Hfiles & _).
    cbn zeta in Hfiles. cbn [fst snd].
    intros h' [= <-] _. by rewrite Hfiles.
  - cbn [fst snd]. by intros h' [= <-] _.
Qed.

Lemma perform_resolves (r : Request) (w : World) (t : Thing) :
  uploadsDir = path_join baseDir "uploads" →
  plain_tmp_names r →
  icon_resolves w t →
  let s' := perform r (w, t) in
  icon_resolves s'.1 s'.2.
Proof.
  intros Hup Hrnd Hpre. cbn zeta.
  assert (∀ t1, iconHref t1 = iconHref t →
                icon_resolves (Database_updateThing t1 w) t1) as Hdb.
  { intros t1 Ht1 h Hh Hne.
    destruct (Database_updateThing_frame t1 w) as (_ & Hfiles & _).
    cbn zeta in Hfiles. rewrite Hfiles. apply Hpre; [congruence | done]. }
  destruct r; cbn [perform plain_tmp_names] in *.
  - by apply Hdb.
  - by apply Hdb.
  - by apply setIcon_resolves.
  - by apply Hdb.
  - unfold dispatchEvent, emitter_emit.
    destruct (call_listeners _ _) as [cs k]. exact Hpre.
  - exact Hpre.
  - exact Hpre.
  - destruct (getDescription reqHost reqSecure t w) as [w' d] eqn:E.
    destruct (getDescription_spec _ _ _ _ _ _ E) as ((_ & _ & _ & Hs) & _).
    unfold surroundings in Hs. cbn [fst snd]. simplify_eq.
    intros h Hh Hne. rewrite H. by apply Hpre.
  - exact Hpre.
  - unfold remove.
    pose proof (unlinkOldIcon_unset refused t w) as Hunset.
    destruct (unlinkOldIcon refused t w) as [w1 t1]. cbn [fst snd] in *.
    intros h Hh Hne. rewrite Hh in Hunset.
    apply truthy_Some in Hne. congruence.
  - exact Hpre.
  - exact Hpre.
Qed.

(** X19: the icon resolves for life.  When [iconHref] is unset or the public
    path of an existing file, it is so after any sequence of calls of the
    Thing's methods, whichever of them fail; the calls of [setIcon] get
    temporary names without a separator, and the uploads directory is the
    directory uploads of the base directory. *)
Theorem icon_resolves_after_any_calls (rs : list Request) (w : World)
    (t : Thing) :
  uploadsDir = path_join baseDir "uploads" →
  Forall plain_tmp_names rs →
  icon_resolves w t →
  let s' := perform_all rs (w, t) in
  icon_resolves s'.1 s'.2.
Proof.
  intros Hup. revert w t. induction rs as [|r rs IH]; intros w t Hrs Hpre.
  - exact Hpre.
  - inversion Hrs as [|? ? Hr Hrest]; subst. cbn zeta.
    unfold perform_all. cbn [foldl].
    pose proof (perform_resolves r w t Hup Hr Hpre) as H1. cbn zeta in H1.
    destruct (perform r (w, t)) as [w1 t1]. by apply IH.
Qed.

(** X20: a Thing constructed from a description without an [iconHref] has an
    icon that resolves: with valid [iconData] that could be written,
    [iconHref] is the public path of the file holding the decoded data; in
    every other case it is unset. *)
Theorem constructed_icon_resolves (i : string) (d : Description)
    (env : IconEnv) (w : World) :
  i ≠ "" →
  uploadsDir = path_join baseDir "uploads" →
  plain_tmp_name env →
  truthy (in_iconHref d) = false →
  ∃ w' t,
    Thing_new (Some i) (Some d) env w = (w', Some t)
    ∧ icon_resolves w' t
    ∧ (∀ h, iconHref t = Some h →
         ∃ icon b, in_iconData d = Some icon ∧ data icon = Some b
                   ∧ files w' !! path_join baseDir h = Some (Decoded b)).
Proof.
  intros Hi Hup Hrnd Htr. rewrite (Thing_new_constructs i d env w Hi).
  unfold construct.
  destruct (populate i d w) as [w0 t0] eqn:Hp.
  destruct (populate_spec _ _ _ _ _ Hp)
    as [_ _ _ _ _ _ _ _ _ _ Hicon _ _ _ _ _ _ _ _ _ _].
  assert (icon_resolves w0 t0) as Hres0.
  { intros h Hh. by rewrite Hicon in Hh. }
  rewrite Htr.
  destruct (in_iconData d) as [icon|].
  - pose proof (setIcon_resolves icon false env t0 w0 Hup Hrnd Hres0) as Hres.
    cbn zeta in Hres.
    destruct (setIcon icon false env t0 w0) as [[w1 t1] o] eqn:E.
    cbn [fst snd] in *. exists w1, t1.
    split; [reflexivity |]. split; [exact Hres |].
    intros h Hh. exists icon. revert E. unfold setIcon.
    destruct (negb (truthy (data icon)) || negb (mime_allowed (mime icon)))
      eqn:Hvalid.
    { intros [= <- <- _]. by rewrite Hicon in Hh. }
    apply orb_false_iff in Hvalid as [Hdata _].
    apply negb_false_iff in Hdata.
    destruct (data icon) as [b|] eqn:Hb; [| done].
    assert (unlinkOldIcon (unlinkRefused env) t0 w0 = (w0, t0)) as ->
      by (unfold unlinkOldIcon; by rewrite Hicon).
    assert (∀ w3 o3, (w3, t0, o3) = (w1, t1, o) → False) as Hno.
    { intros w3 o3 [= _ <- _]. by rewrite Hicon in Hh. }
    unfold tmp_fileSync.
    destruct (tmpAnswer env) as [[rnd fd]|] eqn:Hans.
    2: { intros E. by apply Hno in E. }
    set (f := rnd +:+ extension_of (mime icon)).
    assert (proper f) as Hf
      by (subst f; apply proper_tmp_name, (Hrnd _ _ Hans)).
    destruct (files w0 !! path_join uploadsDir f).
    { intros E. by apply Hno in E. }
    unfold fs_writeFileSync. destruct (writeRefused env).
    { intros E. by apply Hno in E. }
    cbn [tmp_name]. intros [= <- <- _].
    cbn [iconHref set_iconHref] in Hh. injection Hh as <-.
    exists b. split; [reflexivity |]. split; [reflexivity |].
    cbn [files set_files].
    rewrite (uploaded_file_path f Hup Hf). apply lookup_insert_eq.
  - exists w0, t0. split; [reflexivity |]. split; [exact Hres0 |].
    intros h Hh. by rewrite Hicon in Hh.
Qed.

(** X21: the known actions of a Thing are those of the description it was
    constructed from, for life.  When [description.actions] has no entry
    named hasOwnProperty, then after any sequence of calls [addAction] and
    [removeAction] return true exactly for the names that are keys of
    [description.actions], and false for every name when the description has
    no actions.  When it has such an entry, every call of [addAction] and
    [removeAction] throws a TypeError, for life as well. *)
Theorem known_actions_are_the_descriptions (i : string) (d : Description)
    (env : IconEnv) (w : World) (rs : list Request) (action : Action) :
  i ≠ "" →
  ∃ w0 t0,
    Thing_new (Some i) (Some d) env w = (w0, Some t0)
    ∧ let s' := perform_all rs (w0, t0) in
      addAction action s'.2 s'.1
      = (if bool_decide ("hasOwnProperty" ∈ dom (or_object (in_actions d) ∅))
         then TypeError
         else Answers (bool_decide (action_name action
                                    ∈ dom (or_object (in_actions d) ∅))))
      ∧ removeAction action s'.2 s'.1 = addAction action s'.2 s'.1.
Proof.
  intros Hi. rewrite (Thing_new_constructs i d env w Hi).
  destruct (construct i d env w) as [w0 t0] eqn:E.
  exists w0, t0. split; [reflexivity |]. cbn zeta.
  destruct (construct_populate _ _ _ _ _ _ E)
    as (w1 & t1 & v & Hp & -> & Hm & _ & _).
  destruct (populate_spec _ _ _ _ _ Hp)
    as [_ _ _ _ _ _ _ _ _ _ _ _ _ _ _ Hact _ _ _ _ _].
  destruct (perform_all_frame rs w0 (set_iconHref v t1))
    as (Gm & _ & _ & (_ & _ & _ & Ga & _)).
  cbn zeta in *. split; [| reflexivity].
  unfold addAction, read_map.
  rewrite Ga, Gm, Hm. cbn [actions set_iconHref]. rewrite Hact.
  cbn [default]. unfold Datatypes.id.
  set (m := or_object (in_actions d) ∅).
  assert (∀ k, k ∈ dom (with_hrefs (href t1 +:+ "/actions") m) ↔ k ∈ dom m)
    as Hdom.
  { intros k. by rewrite !elem_of_dom, lookup_with_hrefs, fmap_is_Some. }
  case_bool_decide as Hshadow.
  - apply hasOwnProperty_shadowed. by apply Hdom.
  - rewrite hasOwnProperty_inherited by (by rewrite Hdom).
    f_equal. apply bool_decide_ext, Hdom.
Qed.

(** ** Descriptions as snapshots *)

Lemma read_links_stable_at (w w' : World) (l : loc) (a : list loc) :
  arrays w !! l = Some a →
  Forall (λ o, is_Some (linkObjects w !! o)) a →
  linkObjects w ⊆ linkObjects w' →
  arrays w ⊆ arrays w' →
  read_array w' l = a ∧ read_links w' l = read_links w l.
Proof.
  intros Ha Hall Hl Harr. unfold read_links, read_array.
  rewrite Ha, (lookup_weaken _ _ _ _ Ha Harr). cbn [default].
  split; [reflexivity |]. clear Ha.
  induction Hall as [|o a [k Hk] _ IH]; [reflexivity |].
  simpl. rewrite Hk, (lookup_weaken _ _ _ _ Hk Hl). by f_equal.
Qed.

Lemma getDescription_allocated (reqHost : option string) (reqSecure : bool)
    (t : Thing) (w w' : World) (d : DescriptionObject) :
  getDescription reqHost reqSecure t w = (w', d) →
  ∃ a, arrays w' !! out_links d = Some a
       ∧ Forall (λ o, is_Some (linkObjects w' !! o)) a.
Proof.
  unfold getDescription.
  destruct (json_copy_links (links t) w) as [la w1] eqn:E1.
  destruct (json_copy_links_spec _ _ _ _ E1) as (_ & _ & Hla & Hread & _).
  assert (Forall (λ o, is_Some (linkObjects w1 !! o)) (read_array w1 la))
    as Hall.
  { clear Hla. induction Hread as [|o k os ks Hk _ IH]; constructor; [| done].
    by eexists. }
  destruct reqHost as [h|].
  - destruct (alloc_link (wsLink h reqSecure t) w1) as [lw w2] eqn:E2.
    destruct (alloc_link_spec _ _ _ _ E2) as (Hf & Hobj & (_ & Hl & Ha & _)).
    intros [= <- <-]. cbn [out_links].
    exists (read_array w2 la ++ [lw]). split.
    + unfold array_push. cbn [arrays set_arrays]. apply lookup_insert_eq.
    + unfold array_push. cbn [linkObjects set_arrays].
      assert (read_array w2 la = read_array w1 la) as ->.
      { unfold read_array. by rewrite (lookup_weaken _ _ _ _ Hla Ha), Hla. }
      apply Forall_app. split.
      * eapply List.Forall_impl; [| exact Hall].
        intros o [k Hk]. exists k. by eapply lookup_weaken.
      * constructor; [| constructor]. rewrite Hobj, lookup_insert_eq.
        by eexists.
  - intros [= <- <-]. cbn [out_links]. by exists (read_array w1 la).
Qed.

(** X22: the links of a description are a snapshot.  Whatever is called
    on the Thing after [getDescription] has returned, the links of the
    returned description read as they did; and a later description has
    an array of links of its own, with link objects of its own: the two
    descriptions share none. *)
Theorem description_links_are_a_snapshot (reqHost reqHost' : option string)
    (reqSecure reqSecure' : bool) (rs : list Request) (t : Thing) (w : World) :
  let '(w1, d) := getDescription reqHost reqSecure t w in
  let s' := perform_all rs (w1, t) in
  let '(w2, d') := getDescription reqHost' reqSecure' s'.2 s'.1 in
  read_links s'.1 (out_links d) = read_links w1 (out_links d)
  ∧ read_links w2 (out_links d) = read_links w1 (out_links d)
  ∧ out_links d' ≠ out_links d
  ∧ Forall (λ o, o ∉ read_array w2 (out_links d)) (read_array w2 (out_links d')).
Proof.
  destruct (getDescription reqHost reqSecure t w) as [w1 d] eqn:E1.
  destruct (getDescription_allocated _ _ _ _ _ _ E1) as (a & Ha & Hall).
  destruct (perform_all_frame rs w1 t) as (_ & Hl & Harr & _).
  cbn zeta in *.
  destruct (perform_all rs (w1, t)) as [w1' t1']. cbn [fst snd] in *.
  destruct (getDescription reqHost' reqSecure' t1' w1') as [w2 d'] eqn:E2.
  destruct (getDescription_spec _ _ _ _ _ _ E2)
    as ((_ & Gl & Garr & _) & Hfresh & Hnew & _).
  destruct (read_links_stable_at w1 w1' _ a Ha Hall Hl Harr) as [_ R1].
  destruct (read_links_stable_at w1 w2 _ a Ha Hall) as [R2a R2];
    [by etrans | by etrans |].
  split; [exact R1 |]. split; [exact R2 |]. split.
  - intros Heq. apply Hfresh. rewrite Heq. apply elem_of_dom.
    exists a. by eapply lookup_weaken.
  - rewrite R2a. eapply List.Forall_impl; [| exact Hnew].
    intros o Ho Hin. apply Ho. rewrite list.Forall_forall in Hall.
    apply elem_of_dom. destruct (Hall o Hin) as [k Hk].
    exists k. by eapply lookup_weaken.
Qed.

End Facts.

(** ** The model at work *)

#[local] Existing Instance Sample.profile.
#[local] Existing Instance Sample.quiet.

Example built_lamp_icon :
  iconHref Sample.built.2 = Some "/uploads/a1b2c3.png"
  ∧ files Sample.built.1 !! "/home/user/.mozilla-iot/uploads/a1b2c3.png"
    = Some (Decoded "iVBORw0KGgo=").
Proof. by vm_compute. Qed.

Example built_lamp_links :
  read_links Sample.built.1 (links Sample.built.2)
  = [ {| rel := "properties"; mediaType := None;
         link_href := "/things/lamp/properties" |};
      {| rel := "actions"; mediaType := None; link_href := "/things/lamp/actions" |};
      {| rel := "events"; mediaType := None; link_href := "/things/lamp/events" |};
      {| rel := "alternate"; mediaType := Some "text/html";
         link_href := "/things/lamp" |} ].
Proof. by vm_compute. Qed.

Example description_over_tls :
  let '(w, d) := getDescription (Some "example.org") true Sample.built.2
                   Sample.built.1 in
  drop 3 (read_links w (out_links d))
  = [ {| rel := "alternate"; mediaType := Some "text/html";
         link_href := "/things/lamp" |};
      {| rel := "alternate"; mediaType := None;
         link_href := "wss://example.org/things/lamp" |} ].
Proof. by vm_compute. Qed.

(** C1 as stated fails.  The lamp has the icon [/uploads/a1b2c3.png] and
    its file; a [setIcon] with good data during which [tmp.fileSync] throws
    ends with the old file unlinked and [iconHref] cleared, so the old icon
    is not intact and no new one is installed.  And a Thing made from a
    description that names an icon whose file is not there keeps that
    dangling [iconHref] through a rejected [setIcon]. *)
Lemma setIcon_write_failure_loses_old_icon :
  (let '(w, t) := Sample.built in
   let '(w', t', outcome) := setIcon Sample.jpeg false Sample.no_tmp t w in
   let old := "/home/user/.mozilla-iot/uploads/a1b2c3.png" in
   iconHref t = Some "/uploads/a1b2c3.png"
   ∧ is_Some (files w !! old)
   ∧ outcome = IconWriteFailed
   ∧ files w' !! old = None
   ∧ iconHref t' = None
   ∧ ¬ ((iconHref t' = iconHref t ∧ is_Some (files w' !! old))
        ∨ (∃ h, iconHref t' = Some h
                ∧ is_Some (files w' !! path_join baseDir h))))
  ∧ (let '(w, t) :=
       construct "fan" Sample.stale_description Sample.no_tmp Sample.world in
     let '(w', t', outcome) := setIcon Sample.text false Sample.no_tmp t w in
     outcome = IconInvalid
     ∧ iconHref t' = Some "/uploads/gone.png"
     ∧ files w' !! path_join baseDir "/uploads/gone.png" = None).
Proof.
  split.
  - vm_compute. split; [reflexivity |]. split; [by eexists |].
    split; [reflexivity |]. split; [reflexivity |]. split; [reflexivity |].
    intros [[H _] | (h & H & _)]; discriminate H.
  - by vm_compute.
Qed.

(** C2 as stated fails.  A listener subscribed twice is called twice with
    the one event that is dispatched, and after one
    [removeEventSubscription] it is still called with the next event.  And
    a listener subscribed once, after one that throws, is not called with
    the event at all, though the event is in the log. *)
Lemma listener_subscribed_twice_called_twice :
  (let t0 := Sample.built.2 in
   let t1 := addEventSubscription 7 (addEventSubscription 7 t0) in
   let '(w1, t2, _) := dispatchEvent Sample.overheated t1 Sample.world in
   let t3 := removeEventSubscription 7 t2 in
   let '(w2, _, _) := dispatchEvent Sample.overheated t3 Sample.world in
   length (received 7 (delivered w1)) = 2
   ∧ length (received 7 (delivered w2)) = 1)
  ∧ (let t := addEventSubscription 7 (addEventSubscription 3 Sample.built.2) in
     let '(w', t', completion) :=
       dispatchEvent (listeners := Sample.touchy) Sample.overheated t
         Sample.world in
     registrations 7 t = 1
     ∧ completion = Thrown
     ∧ received 7 (delivered w') = []
     ∧ length (eventsDispatched t') = 1).
Proof. by vm_compute. Qed.

(** C5 as stated fails: an event whose [thingId] is present but empty has
    it replaced by the Thing's id. *)
Lemma dispatchEvent_replaces_empty_thingId :
  let '(_, t', _) :=
    dispatchEvent Sample.unstamped Sample.built.2 Sample.world in
  thingId Sample.unstamped = Some ""
  ∧ thingId <$> eventsDispatched t' = [Some "lamp"].
Proof. by vm_compute. Qed.


(** [path.join] normalises: a public path that climbs out of the uploads
    directory names a file elsewhere under the base directory, and that is
    the file [remove] unlinks. *)
Example remove_unlinks_the_normalised_path :
  let config := "/home/user/.mozilla-iot/config/default.json" in
  let t := set_iconHref (Some "/uploads/../config/default.json") Sample.built.2 in
  let w := set_files (<[config := Decoded "e30="]> (files Sample.built.1))
             Sample.built.1 in
  path_join baseDir "/uploads/../config/default.json" = config
  ∧ files w !! config = Some (Decoded "e30=")
  ∧ files (remove false t w).1 !! config = None
  ∧ console (remove false t w).1 = console w.
Proof. by vm_compute. Qed.

Example path_join_as_node_has_it :
  path_join "a/b/" "../../../c/./d//" = "../c/d/"
  ∧ path_join "/" "../.." = "/"
  ∧ path_join "" "" = "."
  ∧ path_join "a" ".." = "."
  ∧ path_join "" "/uploads/x.png" = "/uploads/x.png"
  ∧ path_join "/uploads" "x.png" = "/uploads/x.png"
  ∧ path_basename "/a/b.png" = "b.png"
  ∧ path_basename "/a/b//" = "b"
  ∧ path_basename "/" = "".
Proof. by vm_compute. Qed.

Example removeListener_takes_the_last_instance :
  emitter_removeListener 7 [7; 3; 7; 5] = [7; 3; 5]
  ∧ emitter_removeListener 9 [7; 3; 7; 5] = [7; 3; 7; 5].
Proof. by vm_compute. Qed.

(** ** The theorems at concrete inputs *)

Lemma setIcon_keeps_icon_resolvable_witness :
  let r := setIcon Sample.jpeg true
             (Sample.fine "d4e5f6") Sample.built.2 Sample.built.1 in
  uploadsDir = path_join baseDir "uploads"
  ∧ icon_resolves Sample.built.1 Sample.built.2
  ∧ icon_resolves r.1.1 r.1.2
  ∧ r.2 = IconInstalled.
Proof.
  cbn zeta.
  assert (uploadsDir = path_join baseDir "uploads") as H1
    by reflexivity.
  assert (∀ rnd fd, tmpAnswer (Sample.fine "d4e5f6") = Some (rnd, fd) →
                    contains_sep rnd = false) as H2.
  { intros rnd fd [= <- <-]. reflexivity. }
  assert (icon_resolves Sample.built.1 Sample.built.2) as H3.
  { intros h Hh _. vm_compute in Hh. injection Hh as <-.
    eexists. vm_compute. reflexivity. }
  pose proof (setIcon_keeps_icon_resolvable
                Sample.jpeg true (Sample.fine "d4e5f6") Sample.built.2
                Sample.built.1 H1 H2 H3) as H.
  destruct (setIcon Sample.jpeg true
              (Sample.fine "d4e5f6") Sample.built.2 Sample.built.1)
    as [[w' t'] outcome] eqn:E.
  destruct H as (H4 & _). repeat split; try assumption.
  apply (f_equal snd) in E. vm_compute in E. symmetry. exact E.
Defined.

Lemma listeners_called_once_per_registration_witness :
  let t := addEventSubscription 7 Sample.built.2 in
  let es := [Sample.overheated; Sample.unstamped] in
  raises (Listeners := Sample.moody) 7 Sample.boom = true
  ∧ (∀ l e, l ∈ emitter t → e ∈ es →
       raises (Listeners := Sample.moody) l (stamp t e) = false)
  ∧ received 7
      (delivered
         (perform_all (listeners := Sample.moody) (DispatchEvent <$> es)
            (Sample.world, t)).1)
    = received 7 (delivered Sample.world) ++ (stamp t <$> es).
Proof.
  cbn zeta.
  assert (∀ l e, l ∈ emitter (addEventSubscription 7 Sample.built.2) →
            e ∈ [Sample.overheated; Sample.unstamped] →
            raises (Listeners := Sample.moody) l
              (stamp (addEventSubscription 7 Sample.built.2) e) = false)
    as Hquiet.
  { intros l e _ He. apply elem_of_cons in He as [-> | He];
      [vm_compute; reflexivity |].
    apply list_elem_of_singleton in He as ->. vm_compute. reflexivity. }
  split; [reflexivity |]. split; [exact Hquiet |].
  apply (listeners_called_once_per_registration (listeners := Sample.moody)
           [Sample.overheated; Sample.unstamped] 7
           (addEventSubscription 7 Sample.built.2) Sample.world Hquiet).
  reflexivity.
Defined.

Lemma Thing_new_arguments_and_defaults_witness :
  Thing_new (Some "") (Some Sample.bare_description)
    Sample.no_tmp Sample.world
  = (console_error "id and description needed to create new Thing" Sample.world,
     None)
  ∧ ∃ w' t,
      Thing_new (Some "lamp")
        (Some Sample.bare_description) Sample.no_tmp Sample.world
      = (w', Some t)
      ∧ name t = ""
      ∧ context t = "https://iot.mozilla.org/schemas"
      ∧ maps w' !! actions t = Some ∅.
Proof.
  split.
  - apply (Thing_new_arguments_and_defaults
             (Some "") (Some Sample.bare_description) Sample.no_tmp Sample.world).
    right. left. reflexivity.
  - destruct (proj2 (Thing_new_arguments_and_defaults (Some "lamp")
                       (Some Sample.bare_description) Sample.no_tmp
                       Sample.world)
                "lamp" Sample.bare_description eq_refl ltac:(discriminate)
                eq_refl)
      as (w' & t & H & _ & Hn & _ & _ & Hc & _ & _ & Ha & _).
    exists w', t. repeat split; [exact H | | |]; auto.
Defined.


Lemma setIcon_rejects_invalid_witness :
  let r := setIcon Sample.text true
             (Sample.fine "d4e5f6") Sample.built.2 Sample.built.1 in
  mime Sample.text ≠ Some "image/jpeg"
  ∧ r.2 = IconInvalid
  ∧ r.1.2 = Sample.built.2
  ∧ files r.1.1 = files Sample.built.1.
Proof.
  cbn zeta. split; [discriminate |].
  pose proof (setIcon_rejects_invalid
                Sample.text true (Sample.fine "d4e5f6") Sample.built.2
                Sample.built.1) as H.
  destruct (setIcon Sample.text true
              (Sample.fine "d4e5f6") Sample.built.2 Sample.built.1)
    as [[w' t'] outcome].
  destruct H as (H1 & H2 & _ & H3 & _); [| auto].
  left. repeat split; discriminate.
Defined.


Lemma dispatchEvent_stamps_and_appends_witness :
  let '(_, t', _) := dispatchEvent Sample.overheated Sample.built.2 Sample.world in
  thingId Sample.overheated = None
  ∧ eventsDispatched t' = [set_thingId (Some "lamp") Sample.overheated].
Proof.
  pose proof (dispatchEvent_stamps_and_appends Sample.overheated Sample.built.2
                Sample.world) as H.
  destruct (dispatchEvent Sample.overheated Sample.built.2 Sample.world)
    as [[w' t'] c].
  destruct H as (H1 & _). split; [reflexivity |].
  vm_compute in H1. vm_compute. exact H1.
Defined.


Lemma getDescription_links_witness :
  let '(w', d) :=
    getDescription (Some "example.org") true Sample.built.2 Sample.built.1 in
  read_links w' (out_links d)
  = base_links "/things/lamp"
    ++ [ {| rel := "alternate"; mediaType := Some "text/html";
            link_href := "/things/lamp" |};
         {| rel := "alternate"; mediaType := None;
            link_href := "wss://example.org/things/lamp" |} ].
Proof.
  pose proof (getDescription_links (Some "example.org") true Sample.built.2
                Sample.built.1) as H.
  destruct (getDescription (Some "example.org") true Sample.built.2
              Sample.built.1) as [w' d].
  destruct H as (_ & H1 & H2).
  assert (Thing_new (Some "lamp") (Some Sample.lamp_description)
            (Sample.fine "a1b2c3") Sample.world
          = (Sample.built.1, Some Sample.built.2)) as Hnew
    by (vm_compute; reflexivity).
  specialize (H2 _ _ _ _ Hnew). 
  etrans; [exact H1 |]. etrans; [apply (f_equal (λ l, l ++ _) H2) |].
  vm_compute. reflexivity.
Defined.

Lemma remove_closes_live_sessions_witness :
  let '(w', t') := remove false Sample.connected Sample.built.1 in
  (1 ∈ closeRequests w')
  ∧ (3 ∉ closeRequests w')
  ∧ iconHref t' = None
  ∧ files w' = ∅.
Proof.
  pose proof (remove_closes_live_sessions false Sample.connected Sample.built.1)
    as H.
  destruct (remove false Sample.connected Sample.built.1) as [w' t'].
  destruct H as ((new & Hreq & _ & Hmem & _) & _ & _ & Hicon & _).
  assert (iconHref Sample.connected = Some "/uploads/a1b2c3.png") as Hset
    by (vm_compute; reflexivity).
  destruct (Hicon _ Hset ltac:(discriminate)) as (Hnone & Hunlink & _).
  destruct (Hunlink eq_refl) as [Hfiles _].
  { eexists. vm_compute. reflexivity. }
  vm_compute in Hreq, Hfiles. subst new.
  split; [| split; [| split]].
  - apply Hmem. split; [| left; vm_compute; reflexivity].
    vm_compute. apply list_elem_of_here.
  - intros [_ [Hs | Hs]]%Hmem; vm_compute in Hs; discriminate Hs.
  - exact Hnone.
  - exact Hfiles.
Defined.

Lemma event_keeps_its_first_thing_witness :
  let marked := stamp Sample.built.2 Sample.overheated in
  id Sample.built.2 ≠ ""
  ∧ id Sample.mirror.2 = "mirror"
  ∧ thingId marked = Some "lamp"
  ∧ thingId
      <$> eventsDispatched
            (dispatchEvent marked Sample.mirror.2 Sample.world).1.2
    = [Some "lamp"].
Proof.
  cbn zeta.
  assert (id Sample.built.2 ≠ "") as H1 by (vm_compute; discriminate).
  split; [exact H1 |]. split; [vm_compute; reflexivity |].
  pose proof (event_keeps_its_first_thing Sample.overheated Sample.built.2
                Sample.mirror.2 Sample.world H1) as H.
  cbn zeta in H.
  destruct (dispatchEvent (stamp Sample.built.2 Sample.overheated)
              Sample.mirror.2 Sample.world) as [[w' t'] c].
  destruct H as (_ & H & Hlog). specialize (H eq_refl).
  apply (f_equal (fmap thingId)) in Hlog.
  vm_compute in H. vm_compute in Hlog. cbn [fst snd].
  split; [vm_compute; exact H | exact Hlog].
Defined.

Lemma setIcon_installs_witness :
  let r := setIcon Sample.jpeg true (Sample.fine "d4e5f6") Sample.built.2
             Sample.built.1 in
  files Sample.built.1 !! "/home/user/.mozilla-iot/uploads/d4e5f6.jpg" = None
  ∧ r.2 = IconInstalled
  ∧ iconHref r.1.2 = Some "/uploads/d4e5f6.jpg".
Proof.
  cbn zeta.
  assert (files Sample.built.1
            !! path_join uploadsDir ("d4e5f6" +:+ extension_of (mime Sample.jpeg))
          = None) as H1 by (vm_compute; reflexivity).
  assert ("/9j/4AAQ" ≠ "") as H2 by discriminate.
  pose proof (setIcon_installs Sample.jpeg true (Sample.fine "d4e5f6")
                Sample.built.2 Sample.built.1 "/9j/4AAQ" "d4e5f6" 11
                eq_refl H2 eq_refl eq_refl H1 eq_refl) as H.
  cbn zeta in H.
  destruct (setIcon Sample.jpeg true (Sample.fine "d4e5f6") Sample.built.2
              Sample.built.1) as [[w' t'] o].
  destruct H as (Ho & _ & _ & Hh). specialize (Hh eq_refl).
  vm_compute in H1. vm_compute in Hh.
  split; [exact H1 |]. split; [exact Ho | exact Hh].
Defined.

Lemma setIcon_touches_two_paths_witness :
  let p := "/home/user/.mozilla-iot/config/default.json" in
  let w := set_files (<[p := Decoded "e30="]> (files Sample.built.1))
             Sample.built.1 in
  files (setIcon Sample.jpeg true (Sample.fine "d4e5f6") Sample.built.2 w).1.1
    !! p
  = Some (Decoded "e30=").
Proof.
  cbn zeta.
  set (p := "/home/user/.mozilla-iot/config/default.json").
  set (w := set_files (<[p := Decoded "e30="]> (files Sample.built.1))
              Sample.built.1).
  assert (∀ h, iconHref Sample.built.2 = Some h → p ≠ path_join baseDir h)
    as H1.
  { intros h Hh. vm_compute in Hh. injection Hh as <-.
    vm_compute. discriminate. }
  assert (∀ rnd fd, tmpAnswer (Sample.fine "d4e5f6") = Some (rnd, fd) →
            p ≠ path_join uploadsDir (rnd +:+ extension_of (mime Sample.jpeg)))
    as H2.
  { intros rnd fd [= <- <-]. vm_compute. discriminate. }
  pose proof (setIcon_touches_two_paths Sample.jpeg true
                (Sample.fine "d4e5f6") Sample.built.2 w p H1 H2) as H.
  destruct (setIcon Sample.jpeg true (Sample.fine "d4e5f6") Sample.built.2 w)
    as [[w' t'] o].
  cbn [fst] in *. vm_compute in H. vm_compute. exact H.
Defined.

Lemma setIcon_write_failure_leaves_file_witness :
  let r := setIcon Sample.jpeg true (Sample.disk_full "d4e5f6") Sample.built.2
             Sample.built.1 in
  writeRefused (Sample.disk_full "d4e5f6") = true
  ∧ r.2 = IconWriteFailed
  ∧ files r.1.1 !! "/home/user/.mozilla-iot/uploads/d4e5f6.jpg"
    = Some EmptyFile.
Proof.
  cbn zeta.
  assert (files Sample.built.1
            !! path_join uploadsDir ("d4e5f6" +:+ extension_of (mime Sample.jpeg))
          = None) as H1 by (vm_compute; reflexivity).
  assert ("/9j/4AAQ" ≠ "") as H2 by discriminate.
  pose proof (setIcon_write_failure_leaves_file Sample.jpeg true
                (Sample.disk_full "d4e5f6") Sample.built.2 Sample.built.1
                "/9j/4AAQ" "d4e5f6" 13 eq_refl H2 eq_refl eq_refl H1 eq_refl)
    as H.
  cbn zeta in H.
  destruct (setIcon Sample.jpeg true (Sample.disk_full "d4e5f6")
              Sample.built.2 Sample.built.1) as [[w' t'] o].
  destruct H as (Ho & Hf & _). vm_compute in Hf.
  split; [reflexivity |]. split; [exact Ho | exact Hf].
Defined.

Lemma setIcon_survives_refused_unlink_witness :
  let r := setIcon Sample.jpeg false (Sample.busy "d4e5f6") Sample.built.2
             Sample.built.1 in
  iconHref Sample.built.2 = Some "/uploads/a1b2c3.png"
  ∧ r.2 = IconInstalled
  ∧ console r.1.1 = console Sample.built.1 ++ ["Failed to remove old icon:"].
Proof.
  cbn zeta.
  assert (iconHref Sample.built.2 = Some "/uploads/a1b2c3.png") as H0
    by (vm_compute; reflexivity).
  assert ("/uploads/a1b2c3.png" ≠ "") as Hne by discriminate.
  assert (is_Some (files Sample.built.1
                     !! path_join baseDir "/uploads/a1b2c3.png")) as H1
    by (vm_compute; eexists; reflexivity).
  assert (files Sample.built.1
            !! path_join uploadsDir ("d4e5f6" +:+ extension_of (mime Sample.jpeg))
          = None) as H2 by (vm_compute; reflexivity).
  assert ("/9j/4AAQ" ≠ "") as H3 by discriminate.
  pose proof (setIcon_survives_refused_unlink Sample.jpeg false
                (Sample.busy "d4e5f6") Sample.built.2 Sample.built.1
                "/uploads/a1b2c3.png" "/9j/4AAQ" "d4e5f6" 12
                H0 Hne H1 eq_refl eq_refl H3 eq_refl eq_refl H2 eq_refl) as H.
  destruct (setIcon Sample.jpeg false (Sample.busy "d4e5f6") Sample.built.2
              Sample.built.1) as [[w' t'] o].
  destruct H as (Ho & _ & Hc & _).
  split; [exact H0 |]. split; [exact Ho | exact Hc].
Defined.

Lemma setIcon_twice_replaces_icon_witness :
  let r1 := setIcon Sample.png true (Sample.fine "d4e5f6") Sample.built.2
              Sample.built.1 in
  let r2 := setIcon Sample.jpeg true (Sample.fine "g7h8i9") r1.1.2 r1.1.1 in
  uploadsDir = path_join baseDir "uploads"
  ∧ r2.2 = IconInstalled
  ∧ files r2.1.1 !! "/home/user/.mozilla-iot/uploads/d4e5f6.png" = None
  ∧ files r2.1.1 !! "/home/user/.mozilla-iot/uploads/g7h8i9.jpg"
    = Some (Decoded "/9j/4AAQ").
Proof.
  cbn zeta.
  assert (uploadsDir = path_join baseDir "uploads") as Hup by reflexivity.
  assert ("iVBORw0KGgo=" ≠ "") as Hb1 by discriminate.
  assert ("/9j/4AAQ" ≠ "") as Hb2 by discriminate.
  assert (files Sample.built.1
            !! path_join uploadsDir ("d4e5f6" +:+ extension_of (mime Sample.png))
          = None) as H1 by (vm_compute; reflexivity).
  assert (files Sample.built.1
            !! path_join uploadsDir ("g7h8i9" +:+ extension_of (mime Sample.jpeg))
          = None) as H2 by (vm_compute; reflexivity).
  assert (path_join uploadsDir ("d4e5f6" +:+ extension_of (mime Sample.png))
          ≠ path_join uploadsDir ("g7h8i9" +:+ extension_of (mime Sample.jpeg)))
    as H3 by (vm_compute; discriminate).
  pose proof (setIcon_twice_replaces_icon Sample.png Sample.jpeg true true
                (Sample.fine "d4e5f6") (Sample.fine "g7h8i9") Sample.built.2
                Sample.built.1 "iVBORw0KGgo=" "/9j/4AAQ" "d4e5f6" "g7h8i9" 11 11
                Hup eq_refl Hb1 eq_refl eq_refl Hb2 eq_refl eq_refl eq_refl
                eq_refl eq_refl eq_refl eq_refl H1 H2 H3) as H.
  cbn zeta in H.
  destruct (setIcon Sample.png true (Sample.fine "d4e5f6") Sample.built.2
              Sample.built.1) as [[w1 t1] o1].
  cbn [fst snd].
  destruct (setIcon Sample.jpeg true (Sample.fine "g7h8i9") t1 w1)
    as [[w2 t2] o2].
  destruct H as (Ho & Hf1 & Hf2 & _). vm_compute in Hf1. vm_compute in Hf2.
  split; [exact Hup |]. split; [exact Ho |]. split; [exact Hf1 | exact Hf2].
Defined.

Lemma constructed_ui_link_witness :
  "fan" ≠ ""
  ∧ ∃ w' t ui,
      Thing_new (Some "fan") (Some Sample.linked_description) Sample.no_tmp
        Sample.world = (w', Some t)
      ∧ read_links w' (links t) = base_links (href t) ++ [ui]
      ∧ link_href ui = "http://fan.local/ui".
Proof.
  assert ("fan" ≠ "") as Hne by discriminate.
  split; [exact Hne |].
  destruct (constructed_ui_link "fan" Sample.linked_description Sample.no_tmp
              Sample.world Hne)
    as (w' & t & ui & H & Hl & _ & _ & _ & Hk & _).
  exists w', t, ui. split; [exact H |]. split; [exact Hl |].
  apply (Hk eq_refl
           [ {| rel := "alternate"; mediaType := None;
                link_href := "ws://fan.local/" |} ]
           {| rel := "alternate"; mediaType := Some "text/html";
              link_href := "http://fan.local/ui" |} []).
  - reflexivity.
  - by repeat constructor.
  - reflexivity.
Defined.


Lemma constructor_only_allocates_witness :
  "fan" ≠ ""
  ∧ ∃ w' t,
      Thing_new (Some "fan") (Some Sample.linked_description) Sample.no_tmp
        Sample.built.1 = (w', Some t)
      ∧ (properties t ∉ dom (maps Sample.built.1))
      ∧ (links t ∉ dom (arrays Sample.built.1))
      ∧ arrays Sample.built.1 ⊆ arrays w'.
Proof.
  assert ("fan" ≠ "") as Hne by discriminate.
  split; [exact Hne |].
  destruct (constructor_only_allocates "fan" Sample.linked_description
              Sample.no_tmp Sample.built.1 Hne)
    as (w' & t & H & Hp & Hl & _ & _ & Ha & _).
  exists w', t. split; [exact H |]. split; [exact Hp |].
  split; [exact Hl | exact Ha].
Defined.

Lemma constructor_icon_precedence_witness :
  "fan" ≠ ""
  ∧ ∃ w' t,
      Thing_new (Some "fan") (Some Sample.stale_description)
        (Sample.fine "a1b2c3") Sample.world = (w', Some t)
      ∧ iconHref t = Some "/uploads/gone.png"
      ∧ files w' = files Sample.world.
Proof.
  assert ("fan" ≠ "") as Hne by discriminate.
  split; [exact Hne |].
  destruct (constructor_icon_precedence "fan" Sample.stale_description
              (Sample.fine "a1b2c3") Sample.world Hne)
    as (w' & t & H & Hh & _).
  exists w', t. split; [exact H |].
  destruct (Hh "/uploads/gone.png" eq_refl) as (Hi & Hf & _);
    [discriminate |].
  by split.
Defined.

Lemma icon_resolves_after_any_calls_witness :
  let s' := perform_all Sample.day Sample.built in
  uploadsDir = path_join baseDir "uploads"
  ∧ icon_resolves Sample.built.1 Sample.built.2
  ∧ icon_resolves s'.1 s'.2.
Proof.
  cbn zeta.
  assert (uploadsDir = path_join baseDir "uploads") as H1 by reflexivity.
  assert (Forall plain_tmp_names Sample.day) as H2.
  { unfold Sample.day. repeat constructor.
    - by intros rnd fd [= <- <-].
    - by intros rnd fd [=].
    - by intros rnd fd [= <- <-]. }
  assert (icon_resolves Sample.built.1 Sample.built.2) as H3.
  { intros h Hh _. vm_compute in Hh. injection Hh as <-.
    eexists. vm_compute. reflexivity. }
  pose proof (icon_resolves_after_any_calls Sample.day Sample.built.1
                Sample.built.2 H1 H2 H3) as H.
  cbn zeta in H.
  assert ((Sample.built.1, Sample.built.2) = Sample.built) as E
    by (vm_compute; reflexivity).
  destruct (perform_all Sample.day (Sample.built.1, Sample.built.2))
    as [w' t'] eqn:E1.
  destruct (perform_all Sample.day Sample.built) as [w'' t''] eqn:E2.
  assert ((w'', t'') = (w', t')) as [= -> ->].
  { rewrite <- E1, <- E2. vm_compute. reflexivity. }
  split; [exact H1 |]. split; [exact H3 | exact H].
Defined.

Lemma constructed_icon_resolves_witness :
  "lamp" ≠ ""
  ∧ truthy (in_iconHref Sample.lamp_description) = false
  ∧ ∃ w' t,
      Thing_new (Some "lamp") (Some Sample.lamp_description)
        (Sample.fine "a1b2c3") Sample.world = (w', Some t)
      ∧ icon_resolves w' t.
Proof.
  assert ("lamp" ≠ "") as Hne by discriminate.
  assert (plain_tmp_name (Sample.fine "a1b2c3")) as Hrnd
    by (by intros rnd fd [= <- <-]).
  assert (uploadsDir = path_join baseDir "uploads") as Hup by reflexivity.
  split; [exact Hne |]. split; [reflexivity |].
  destruct (constructed_icon_resolves "lamp" Sample.lamp_description
              (Sample.fine "a1b2c3") Sample.world Hne Hup Hrnd eq_refl)
    as (w' & t & H & Hres & _).
  exists w', t. split; [exact H | exact Hres].
Defined.

Lemma known_actions_are_the_descriptions_witness :
  "lamp" ≠ ""
  ∧ ∃ w0 t0,
      Thing_new (Some "lamp") (Some Sample.lamp_description)
        (Sample.fine "a1b2c3") Sample.world = (w0, Some t0)
      ∧ let s' := perform_all Sample.day (w0, t0) in
        addAction {| action_name := "toggle" |} s'.2 s'.1 = Answers true
        ∧ addAction {| action_name := "fade" |} s'.2 s'.1 = Answers false.
Proof.
  assert ("lamp" ≠ "") as Hne by discriminate.
  split; [exact Hne |].
  destruct (known_actions_are_the_descriptions "lamp" Sample.lamp_description
              (Sample.fine "a1b2c3") Sample.world Sample.day
              {| action_name := "toggle" |} Hne)
    as (w0 & t0 & H & H1 & _).
  destruct (known_actions_are_the_descriptions "lamp" Sample.lamp_description
              (Sample.fine "a1b2c3") Sample.world Sample.day
              {| action_name := "fade" |} Hne)
    as (w0' & t0' & H' & H2 & _).
  rewrite H in H'. injection H' as <- <-.
  exists w0, t0. split; [exact H |]. cbn zeta.
  assert (∀ k, bool_decide (k ∈ dom (or_object
                                       (in_actions Sample.lamp_description) ∅))
               = bool_decide (k = "toggle")) as Hdom.
  { intros k. apply bool_decide_ext. cbn [in_actions Sample.lamp_description
      or_object]. by rewrite dom_singleton_L, elem_of_singleton. }
  rewrite !Hdom in H1, H2. split; [exact H1 | exact H2].
Defined.

Lemma calls_keep_identity_and_descriptors_witness :
  let s' := perform_all Sample.day (Sample.built.1, Sample.built.2) in
  links_allocated Sample.built.1 Sample.built.2
  ∧ id s'.2 = id Sample.built.2
  ∧ read_links s'.1 (links s'.2)
    = read_links Sample.built.1 (links Sample.built.2).
Proof.
  cbn zeta.
  assert (links_allocated Sample.built.1 Sample.built.2) as Halloc.
  { exists [1; 2; 3; 4]%positive. split; [by vm_compute |].
    repeat constructor; eexists; vm_compute; reflexivity. }
  split; [exact Halloc |].
  pose proof (calls_keep_identity_and_descriptors Sample.day Sample.built.1
                Sample.built.2) as H.
  cbn zeta in H.
  destruct (perform_all Sample.day (Sample.built.1, Sample.built.2))
    as [w' t'].
  destruct H as (H1 & _ & _ & _ & _ & _ & _ & H2).
  split; [exact H1 | exact (H2 Halloc)].
Defined.

Lemma subscription_round_trip_witness :
  let t := addEventSubscription 5 (addEventSubscription 7
             (addEventSubscription 3 (addEventSubscription 7 Sample.built.2))) in
  emitter t = [7; 3] ++ 7 :: [5]
  ∧ emitter (removeEventSubscription 7 t) = [7; 3] ++ [5].
Proof.
  cbn zeta.
  set (t := addEventSubscription 5 (addEventSubscription 7
              (addEventSubscription 3 (addEventSubscription 7 Sample.built.2)))).
  assert (emitter t = [7; 3] ++ 7 :: [5]) as H1 by (vm_compute; reflexivity).
  assert (7 ∉ [5]) as H2 by (intros Hin; by apply list_elem_of_singleton in Hin).
  split; [exact H1 |].
  destruct (subscription_round_trip 7 t) as (_ & _ & H).
  exact (H [7; 3] [5] H1 H2).
Defined.

Lemma dispatchEvent_stops_at_first_throw_witness :
  let t := addEventSubscription 5 (addEventSubscription 3
             (addEventSubscription 7 Sample.built.2)) in
  let r := dispatchEvent (listeners := Sample.touchy) Sample.overheated t
             Sample.world in
  emitter t = [7] ++ 3 :: [5]
  ∧ r.2 = Thrown
  ∧ length (delivered r.1.1) = 2.
Proof.
  cbn zeta.
  set (t := addEventSubscription 5 (addEventSubscription 3
              (addEventSubscription 7 Sample.built.2))).
  assert (emitter t = [7] ++ 3 :: [5]) as H1 by (vm_compute; reflexivity).
  split; [exact H1 |].
  pose proof (dispatchEvent_stops_at_first_throw (listeners := Sample.touchy)
                Sample.overheated t Sample.world) as H.
  destruct (dispatchEvent (listeners := Sample.touchy) Sample.overheated t
              Sample.world) as [[w' t'] c].
  destruct H as (_ & _ & H).
  destruct (H [7] 3 [5] H1) as [Hc Hd].
  - intros l Hl. apply list_elem_of_singleton in Hl as ->. reflexivity.
  - reflexivity.
  - cbn [fst snd]. split; [exact Hc |]. apply (f_equal length) in Hd.
    vm_compute in Hd. exact Hd.
Defined.

Lemma setIcon_persists_only_on_success_witness :
  let r := setIcon Sample.jpeg true (Sample.fine "d4e5f6") Sample.built.2
             Sample.built.1 in
  let r' := setIcon Sample.jpeg true Sample.no_tmp Sample.built.2
              Sample.built.1 in
  r.2 = IconInstalled
  ∧ (∃ d, database r.1.1 = database Sample.built.1 ++ [("lamp", d)]
          ∧ out_iconHref d = iconHref r.1.2)
  ∧ r'.2 ≠ IconInstalled
  ∧ database r'.1.1 = database Sample.built.1.
Proof.
  cbn zeta.
  pose proof (setIcon_persists_only_on_success Sample.jpeg true
                (Sample.fine "d4e5f6") Sample.built.2 Sample.built.1) as H.
  pose proof (setIcon_persists_only_on_success Sample.jpeg true
                Sample.no_tmp Sample.built.2 Sample.built.1) as H'.
  destruct (setIcon Sample.jpeg true (Sample.fine "d4e5f6") Sample.built.2
              Sample.built.1) as [[w1 t1] o1] eqn:E1.
  destruct (setIcon Sample.jpeg true Sample.no_tmp Sample.built.2
              Sample.built.1) as [[w2 t2] o2] eqn:E2.
  cbn [fst snd].
  assert (o1 = IconInstalled) as Ho1.
  { apply (f_equal snd) in E1. vm_compute in E1. symmetry. exact E1. }
  assert (o2 ≠ IconInstalled) as Ho2.
  { apply (f_equal snd) in E2. vm_compute in E2. rewrite <- E2. discriminate. }
  destruct H as (H & _). destruct H' as (_ & H').
  split; [exact Ho1 |]. split; [| split; [exact Ho2 | exact (H' (or_introl Ho2))]].
  destruct (H Ho1 eq_refl) as (d & Hd & Hi & _).
  exists d. split; [| exact Hi].
  assert (id Sample.built.2 = "lamp") as Hid by (vm_compute; reflexivity).
  rewrite Hid in Hd. exact Hd.
Defined.
